(** * publish-lessons: a shallow embedding of programs/mavenseed/publish-lessons.py

    The development follows the script top to bottom: the few [str], [re]
    and [pathlib] operations it calls, its dataclasses, the file validator,
    the paginated snapshot cache and the body of [main] (course resolution
    and the reconciliation loops), then the properties of each part.

    A Python [str] is modelled as the [string] of its UTF-8 bytes, and the
    [str] methods that depend on the character data ([lower], [capitalize],
    [title], the digit class of [re]) work on the code points of that
    text. *)

From Stdlib Require Import Ascii String NArith ZArith Lia.
From stdpp Require Import base option list gmap strings.

Local Open Scope char_scope.
Local Open Scope string_scope.

(** ** Text

    A Python [str] is kept as the [string] of its UTF-8 bytes; a byte that
    is not part of a well-formed sequence stands for the lone surrogate that
    Python's [surrogateescape] handler gives it in file names and
    command-line arguments. The case mappings work on code points, with the
    character data of Unicode 14.0 as CPython 3.11 holds it. *)

Module Unicode.

Local Open Scope N_scope.

(** The full lower-case mapping: the code points it changes, in increasing order, each with the code points it becomes. *)
Definition lower_table : list (N * list N) := [
  (65, [97]); (66, [98]); (67, [99]); (68, [100]); (69, [101]); (70, [102]);
  (71, [103]); (72, [104]); (73, [105]); (74, [106]); (75, [107]); (76,
  [108]); (77, [109]); (78, [110]); (79, [111]); (80, [112]); (81, [113]);
  (82, [114]); (83, [115]); (84, [116]); (85, [117]); (86, [118]); (87,
  [119]); (88, [120]); (89, [121]); (90, [122]); (192, [224]); (193, [225]);
  (194, [226]); (195, [227]); (196, [228]); (197, [229]); (198, [230]); (199,
  [231]); (200, [232]); (201, [233]); (202, [234]); (203, [235]); (204,
  [236]); (205, [237]); (206, [238]); (207, [239]); (208, [240]); (209,
  [241]); (210, [242]); (211, [243]); (212, [244]); (213, [245]); (214,
  [246]); (216, [248]); (217, [249]); (218, [250]); (219, [251]); (220,
  [252]); (221, [253]); (222, [254]); (256, [257]); (258, [259]); (260,
  [261]); (262, [263]); (264, [265]); (266, [267]); (268, [269]); (270,
  [271]); (272, [273]); (274, [275]); (276, [277]); (278, [279]); (280,
  [281]); (282, [283]); (284, [285]); (286, [287]); (288, [289]); (290,
  [291]); (292, [293]); (294, [295]); (296, [297]); (298, [299]); (300,
  [301]); (302, [303]); (304, [105; 775]); (306, [307]); (308, [309]); (310,
  [311]); (313, [314]); (315, [316]); (317, [318]); (319, [320]); (321,
  [322]); (323, [324]); (325, [326]); (327, [328]); (330, [331]); (332,
  [333]); (334, [335]); (336, [337]); (338, [339]); (340, [341]); (342,
  [343]); (344, [345]); (346, [347]); (348, [349]); (350, [351]); (352,
  [353]); (354, [355]); (356, [357]); (358, [359]); (360, [361]); (362,
  [363]); (364, [365]); (366, [367]); (368, [369]); (370, [371]); (372,
  [373]); (374, [375]); (376, [255]); (377, [378]); (379, [380]); (381,
  [382]); (385, [595]); (386, [387]); (388, [389]); (390, [596]); (391,
  [392]); (393, [598]); (394, [599]); (395, [396]); (398, [477]); (399,
  [601]); (400, [603]); (401, [402]); (403, [608]); (404, [611]); (406,
  [617]); (407, [616]); (408, [409]); (412, [623]); (413, [626]); (415,
  [629]); (416, [417]); (418, [419]); (420, [421]); (422, [640]); (423,
  [424]); (425, [643]); (428, [429]); (430, [648]); (431, [432]); (433,
  [650]); (434, [651]); (435, [436]); (437, [438]); (439, [658]); (440,
  [441]); (444, [445]); (452, [454]); (453, [454]); (455, [457]); (456,
  [457]); (458, [460]); (459, [460]); (461, [462]); (463, [464]); (465,
  [466]); (467, [468]); (469, [470]); (471, [472]); (473, [474]); (475,
  [476]); (478, [479]); (480, [481]); (482, [483]); (484, [485]); (486,
  [487]); (488, [489]); (490, [491]); (492, [493]); (494, [495]); (497,
  [499]); (498, [499]); (500, [501]); (502, [405]); (503, [447]); (504,
  [505]); (506, [507]); (508, [509]); (510, [511]); (512, [513]); (514,
  [515]); (516, [517]); (518, [519]); (520, [521]); (522, [523]); (524,
  [525]); (526, [527]); (528, [529]); (530, [531]); (532, [533]); (534,
  [535]); (536, [537]); (538, [539]); (540, [541]); (542, [543]); (544,
  [414]); (546, [547]); (548, [549]); (550, [551]); (552, [553]); (554,
  [555]); (556, [557]); (558, [559]); (560, [561]); (562, [563]); (570,
  [11365]); (571, [572]); (573, [410]); (574, [11366]); (577, [578]); (579,
  [384]); (580, [649]); (581, [652]); (582, [583]); (584, [585]); (586,
  [587]); (588, [589]); (590, [591]); (880, [881]); (882, [883]); (886,
  [887]); (895, [1011]); (902, [940]); (904, [941]); (905, [942]); (906,
  [943]); (908, [972]); (910, [973]); (911, [974]); (913, [945]); (914,
  [946]); (915, [947]); (916, [948]); (917, [949]); (918, [950]); (919,
  [951]); (920, [952]); (921, [953]); (922, [954]); (923, [955]); (924,
  [956]); (925, [957]); (926, [958]); (927, [959]); (928, [960]); (929,
  [961]); (931, [963]); (932, [964]); (933, [965]); (934, [966]); (935,
  [967]); (936, [968]); (937, [969]); (938, [970]); (939, [971]); (975,
  [983]); (984, [985]); (986, [987]); (988, [989]); (990, [991]); (992,
  [993]); (994, [995]); (996, [997]); (998, [999]); (1000, [1001]); (1002,
  [1003]); (1004, [1005]); (1006, [1007]); (1012, [952]); (1015, [1016]);
  (1017, [1010]); (1018, [1019]); (1021, [891]); (1022, [892]); (1023, [893]);
  (1024, [1104]); (1025, [1105]); (1026, [1106]); (1027, [1107]); (1028,
  [1108]); (1029, [1109]); (1030, [1110]); (1031, [1111]); (1032, [1112]);
  (1033, [1113]); (1034, [1114]); (1035, [1115]); (1036, [1116]); (1037,
  [1117]); (1038, [1118]); (1039, [1119]); (1040, [1072]); (1041, [1073]);
  (1042, [1074]); (1043, [1075]); (1044, [1076]); (1045, [1077]); (1046,
  [1078]); (1047, [1079]); (1048, [1080]); (1049, [1081]); (1050, [1082]);
  (1051, [1083]); (1052, [1084]); (1053, [1085]); (1054, [1086]); (1055,
  [1087]); (1056, [1088]); (1057, [1089]); (1058, [1090]); (1059, [1091]);
  (1060, [1092]); (1061, [1093]); (1062, [1094]); (1063, [1095]); (1064,
  [1096]); (1065, [1097]); (1066, [1098]); (1067, [1099]); (1068, [1100]);
  (1069, [1101]); (1070, [1102]); (1071, [1103]); (1120, [1121]); (1122,
  [1123]); (1124, [1125]); (1126, [1127]); (1128, [1129]); (1130, [1131]);
  (1132, [1133]); (1134, [1135]); (1136, [1137]); (1138, [1139]); (1140,
  [1141]); (1142, [1143]); (1144, [1145]); (1146, [1147]); (1148, [1149]);
  (1150, [1151]); (1152, [1153]); (1162, [1163]); (1164, [1165]); (1166,
  [1167]); (1168, [1169]); (1170, [1171]); (1172, [1173]); (1174, [1175]);
  (1176, [1177]); (1178, [1179]); (1180, [1181]); (1182, [1183]); (1184,
  [1185]); (1186, [1187]); (1188, [1189]); (1190, [1191]); (1192, [1193]);
  (1194, [1195]); (1196, [1197]); (1198, [1199]); (1200, [1201]); (1202,
  [1203]); (1204, [1205]); (1206, [1207]); (1208, [1209]); (1210, [1211]);
  (1212, [1213]); (1214, [1215]); (1216, [1231]); (1217, [1218]); (1219,
  [1220]); (1221, [1222]); (1223, [1224]); (1225, [1226]); (1227, [1228]);
  (1229, [1230]); (1232, [1233]); (1234, [1235]); (1236, [1237]); (1238,
  [1239]); (1240, [1241]); (1242, [1243]); (1244, [1245]); (1246, [1247]);
  (1248, [1249]); (1250, [1251]); (1252, [1253]); (1254, [1255]); (1256,
  [1257]); (1258, [1259]); (1260, [1261]); (1262, [1263]); (1264, [1265]);
  (1266, [1267]); (1268, [1269]); (1270, [1271]); (1272, [1273]); (1274,
  [1275]); (1276, [1277]); (1278, [1279]); (1280, [1281]); (1282, [1283]);
  (1284, [1285]); (1286, [1287]); (1288, [1289]); (1290, [1291]); (1292,
  [1293]); (1294, [1295]); (1296, [1297]); (1298, [1299]); (1300, [1301]);
  (1302, [1303]); (1304, [1305]); (1306, [1307]); (1308, [1309]); (1310,
  [1311]); (1312, [1313]); (1314, [1315]); (1316, [1317]); (1318, [1319]);
  (1320, [1321]); (1322, [1323]); (1324, [1325]); (1326, [1327]); (1329,
  [1377]); (1330, [1378]); (1331, [1379]); (1332, [1380]); (1333, [1381]);
  (1334, [1382]); (1335, [1383]); (1336, [1384]); (1337, [1385]); (1338,
  [1386]); (1339, [1387]); (1340, [1388]); (1341, [1389]); (1342, [1390]);
  (1343, [1391]); (1344, [1392]); (1345, [1393]); (1346, [1394]); (1347,
  [1395]); (1348, [1396]); (1349, [1397]); (1350, [1398]); (1351, [1399]);
  (1352, [1400]); (1353, [1401]); (1354, [1402]); (1355, [1403]); (1356,
  [1404]); (1357, [1405]); (1358, [1406]); (1359, [1407]); (1360, [1408]);
  (1361, [1409]); (1362, [1410]); (1363, [1411]); (1364, [1412]); (1365,
  [1413]); (1366, [1414]); (4256, [11520]); (4257, [11521]); (4258, [11522]);
  (4259, [11523]); (4260, [11524]); (4261, [11525]); (4262, [11526]); (4263,
  [11527]); (4264, [11528]); (4265, [11529]); (4266, [11530]); (4267,
  [11531]); (4268, [11532]); (4269, [11533]); (4270, [11534]); (4271,
  [11535]); (4272, [11536]); (4273, [11537]); (4274, [11538]); (4275,
  [11539]); (4276, [11540]); (4277, [11541]); (4278, [11542]); (4279,
  [11543]); (4280, [11544]); (4281, [11545]); (4282, [11546]); (4283,
  [11547]); (4284, [11548]); (4285, [11549]); (4286, [11550]); (4287,
  [11551]); (4288, [11552]); (4289, [11553]); (4290, [11554]); (4291,
  [11555]); (4292, [11556]); (4293, [11557]); (4295, [11559]); (4301,
  [11565]); (5024, [43888]); (5025, [43889]); (5026, [43890]); (5027,
  [43891]); (5028, [43892]); (5029, [43893]); (5030, [43894]); (5031,
  [43895]); (5032, [43896]); (5033, [43897]); (5034, [43898]); (5035,
  [43899]); (5036, [43900]); (5037, [43901]); (5038, [43902]); (5039,
  [43903]); (5040, [43904]); (5041, [43905]); (5042, [43906]); (5043,
  [43907]); (5044, [43908]); (5045, [43909]); (5046, [43910]); (5047,
  [43911]); (5048, [43912]); (5049, [43913]); (5050, [43914]); (5051,
  [43915]); (5052, [43916]); (5053, [43917]); (5054, [43918]); (5055,
  [43919]); (5056, [43920]); (5057, [43921]); (5058, [43922]); (5059,
  [43923]); (5060, [43924]); (5061, [43925]); (5062, [43926]); (5063,
  [43927]); (5064, [43928]); (5065, [43929]); (5066, [43930]); (5067,
  [43931]); (5068, [43932]); (5069, [43933]); (5070, [43934]); (5071,
  [43935]); (5072, [43936]); (5073, [43937]); (5074, [43938]); (5075,
  [43939]); (5076, [43940]); (5077, [43941]); (5078, [43942]); (5079,
  [43943]); (5080, [43944]); (5081, [43945]); (5082, [43946]); (5083,
  [43947]); (5084, [43948]); (5085, [43949]); (5086, [43950]); (5087,
  [43951]); (5088, [43952]); (5089, [43953]); (5090, [43954]); (5091,
  [43955]); (5092, [43956]); (5093, [43957]); (5094, [43958]); (5095,
  [43959]); (5096, [43960]); (5097, [43961]); (5098, [43962]); (5099,
  [43963]); (5100, [43964]); (5101, [43965]); (5102, [43966]); (5103,
  [43967]); (5104, [5112]); (5105, [5113]); (5106, [5114]); (5107, [5115]);
  (5108, [5116]); (5109, [5117]); (7312, [4304]); (7313, [4305]); (7314,
  [4306]); (7315, [4307]); (7316, [4308]); (7317, [4309]); (7318, [4310]);
  (7319, [4311]); (7320, [4312]); (7321, [4313]); (7322, [4314]); (7323,
  [4315]); (7324, [4316]); (7325, [4317]); (7326, [4318]); (7327, [4319]);
  (7328, [4320]); (7329, [4321]); (7330, [4322]); (7331, [4323]); (7332,
  [4324]); (7333, [4325]); (7334, [4326]); (7335, [4327]); (7336, [4328]);
  (7337, [4329]); (7338, [4330]); (7339, [4331]); (7340, [4332]); (7341,
  [4333]); (7342, [4334]); (7343, [4335]); (7344, [4336]); (7345, [4337]);
  (7346, [4338]); (7347, [4339]); (7348, [4340]); (7349, [4341]); (7350,
  [4342]); (7351, [4343]); (7352, [4344]); (7353, [4345]); (7354, [4346]);
  (7357, [4349]); (7358, [4350]); (7359, [4351]); (7680, [7681]); (7682,
  [7683]); (7684, [7685]); (7686, [7687]); (7688, [7689]); (7690, [7691]);
  (7692, [7693]); (7694, [7695]); (7696, [7697]); (7698, [7699]); (7700,
  [7701]); (7702, [7703]); (7704, [7705]); (7706, [7707]); (7708, [7709]);
  (7710, [7711]); (7712, [7713]); (7714, [7715]); (7716, [7717]); (7718,
  [7719]); (7720, [7721]); (7722, [7723]); (7724, [7725]); (7726, [7727]);
  (7728, [7729]); (7730, [7731]); (7732, [7733]); (7734, [7735]); (7736,
  [7737]); (7738, [7739]); (7740, [7741]); (7742, [7743]); (7744, [7745]);
  (7746, [7747]); (7748, [7749]); (7750, [7751]); (7752, [7753]); (7754,
  [7755]); (7756, [7757]); (7758, [7759]); (7760, [7761]); (7762, [7763]);
  (7764, [7765]); (7766, [7767]); (7768, [7769]); (7770, [7771]); (7772,
  [7773]); (7774, [7775]); (7776, [7777]); (7778, [7779]); (7780, [7781]);
  (7782, [7783]); (7784, [7785]); (7786, [7787]); (7788, [7789]); (7790,
  [7791]); (7792, [7793]); (7794, [7795]); (7796, [7797]); (7798, [7799]);
  (7800, [7801]); (7802, [7803]); (7804, [7805]); (7806, [7807]); (7808,
  [7809]); (7810, [7811]); (7812, [7813]); (7814, [7815]); (7816, [7817]);
  (7818, [7819]); (7820, [7821]); (7822, [7823]); (7824, [7825]); (7826,
  [7827]); (7828, [7829]); (7838, [223]); (7840, [7841]); (7842, [7843]);
  (7844, [7845]); (7846, [7847]); (7848, [7849]); (7850, [7851]); (7852,
  [7853]); (7854, [7855]); (7856, [7857]); (7858, [7859]); (7860, [7861]);
  (7862, [7863]); (7864, [7865]); (7866, [7867]); (7868, [7869]); (7870,
  [7871]); (7872, [7873]); (7874, [7875]); (7876, [7877]); (7878, [7879]);
  (7880, [7881]); (7882, [7883]); (7884, [7885]); (7886, [7887]); (7888,
  [7889]); (7890, [7891]); (7892, [7893]); (7894, [7895]); (7896, [7897]);
  (7898, [7899]); (7900, [7901]); (7902, [7903]); (7904, [7905]); (7906,
  [7907]); (7908, [7909]); (7910, [7911]); (7912, [7913]); (7914, [7915]);
  (7916, [7917]); (7918, [7919]); (7920, [7921]); (7922, [7923]); (7924,
  [7925]); (7926, [7927]); (7928, [7929]); (7930, [7931]); (7932, [7933]);
  (7934, [7935]); (7944, [7936]); (7945, [7937]); (7946, [7938]); (7947,
  [7939]); (7948, [7940]); (7949, [7941]); (7950, [7942]); (7951, [7943]);
  (7960, [7952]); (7961, [7953]); (7962, [7954]); (7963, [7955]); (7964,
  [7956]); (7965, [7957]); (7976, [7968]); (7977, [7969]); (7978, [7970]);
  (7979, [7971]); (7980, [7972]); (7981, [7973]); (7982, [7974]); (7983,
  [7975]); (7992, [7984]); (7993, [7985]); (7994, [7986]); (7995, [7987]);
  (7996, [7988]); (7997, [7989]); (7998, [7990]); (7999, [7991]); (8008,
  [8000]); (8009, [8001]); (8010, [8002]); (8011, [8003]); (8012, [8004]);
  (8013, [8005]); (8025, [8017]); (8027, [8019]); (8029, [8021]); (8031,
  [8023]); (8040, [8032]); (8041, [8033]); (8042, [8034]); (8043, [8035]);
  (8044, [8036]); (8045, [8037]); (8046, [8038]); (8047, [8039]); (8072,
  [8064]); (8073, [8065]); (8074, [8066]); (8075, [8067]); (8076, [8068]);
  (8077, [8069]); (8078, [8070]); (8079, [8071]); (8088, [8080]); (8089,
  [8081]); (8090, [8082]); (8091, [8083]); (8092, [8084]); (8093, [8085]);
  (8094, [8086]); (8095, [8087]); (8104, [8096]); (8105, [8097]); (8106,
  [8098]); (8107, [8099]); (8108, [8100]); (8109, [8101]); (8110, [8102]);
  (8111, [8103]); (8120, [8112]); (8121, [8113]); (8122, [8048]); (8123,
  [8049]); (8124, [8115]); (8136, [8050]); (8137, [8051]); (8138, [8052]);
  (8139, [8053]); (8140, [8131]); (8152, [8144]); (8153, [8145]); (8154,
  [8054]); (8155, [8055]); (8168, [8160]); (8169, [8161]); (8170, [8058]);
  (8171, [8059]); (8172, [8165]); (8184, [8056]); (8185, [8057]); (8186,
  [8060]); (8187, [8061]); (8188, [8179]); (8486, [969]); (8490, [107]);
  (8491, [229]); (8498, [8526]); (8544, [8560]); (8545, [8561]); (8546,
  [8562]); (8547, [8563]); (8548, [8564]); (8549, [8565]); (8550, [8566]);
  (8551, [8567]); (8552, [8568]); (8553, [8569]); (8554, [8570]); (8555,
  [8571]); (8556, [8572]); (8557, [8573]); (8558, [8574]); (8559, [8575]);
  (8579, [8580]); (9398, [9424]); (9399, [9425]); (9400, [9426]); (9401,
  [9427]); (9402, [9428]); (9403, [9429]); (9404, [9430]); (9405, [9431]);
  (9406, [9432]); (9407, [9433]); (9408, [9434]); (9409, [9435]); (9410,
  [9436]); (9411, [9437]); (9412, [9438]); (9413, [9439]); (9414, [9440]);
  (9415, [9441]); (9416, [9442]); (9417, [9443]); (9418, [9444]); (9419,
  [9445]); (9420, [9446]); (9421, [9447]); (9422, [9448]); (9423, [9449]);
  (11264, [11312]); (11265, [11313]); (11266, [11314]); (11267, [11315]);
  (11268, [11316]); (11269, [11317]); (11270, [11318]); (11271, [11319]);
  (11272, [11320]); (11273, [11321]); (11274, [11322]); (11275, [11323]);
  (11276, [11324]); (11277, [11325]); (11278, [11326]); (11279, [11327]);
  (11280, [11328]); (11281, [11329]); (11282, [11330]); (11283, [11331]);
  (11284, [11332]); (11285, [11333]); (11286, [11334]); (11287, [11335]);
  (11288, [11336]); (11289, [11337]); (11290, [11338]); (11291, [11339]);
  (11292, [11340]); (11293, [11341]); (11294, [11342]); (11295, [11343]);
  (11296, [11344]); (11297, [11345]); (11298, [11346]); (11299, [11347]);
  (11300, [11348]); (11301, [11349]); (11302, [11350]); (11303, [11351]);
  (11304, [11352]); (11305, [11353]); (11306, [11354]); (11307, [11355]);
  (11308, [11356]); (11309, [11357]); (11310, [11358]); (11311, [11359]);
  (11360, [11361]); (11362, [619]); (11363, [7549]); (11364, [637]); (11367,
  [11368]); (11369, [11370]); (11371, [11372]); (11373, [593]); (11374,
  [625]); (11375, [592]); (11376, [594]); (11378, [11379]); (11381, [11382]);
  (11390, [575]); (11391, [576]); (11392, [11393]); (11394, [11395]); (11396,
  [11397]); (11398, [11399]); (11400, [11401]); (11402, [11403]); (11404,
  [11405]); (11406, [11407]); (11408, [11409]); (11410, [11411]); (11412,
  [11413]); (11414, [11415]); (11416, [11417]); (11418, [11419]); (11420,
  [11421]); (11422, [11423]); (11424, [11425]); (11426, [11427]); (11428,
  [11429]); (11430, [11431]); (11432, [11433]); (11434, [11435]); (11436,
  [11437]); (11438, [11439]); (11440, [11441]); (11442, [11443]); (11444,
  [11445]); (11446, [11447]); (11448, [11449]); (11450, [11451]); (11452,
  [11453]); (11454, [11455]); (11456, [11457]); (11458, [11459]); (11460,
  [11461]); (11462, [11463]); (11464, [11465]); (11466, [11467]); (11468,
  [11469]); (11470, [11471]); (11472, [11473]); (11474, [11475]); (11476,
  [11477]); (11478, [11479]); (11480, [11481]); (11482, [11483]); (11484,
  [11485]); (11486, [11487]); (11488, [11489]); (11490, [11491]); (11499,
  [11500]); (11501, [11502]); (11506, [11507]); (42560, [42561]); (42562,
  [42563]); (42564, [42565]); (42566, [42567]); (42568, [42569]); (42570,
  [42571]); (42572, [42573]); (42574, [42575]); (42576, [42577]); (42578,
  [42579]); (42580, [42581]); (42582, [42583]); (42584, [42585]); (42586,
  [42587]); (42588, [42589]); (42590, [42591]); (42592, [42593]); (42594,
  [42595]); (42596, [42597]); (42598, [42599]); (42600, [42601]); (42602,
  [42603]); (42604, [42605]); (42624, [42625]); (42626, [42627]); (42628,
  [42629]); (42630, [42631]); (42632, [42633]); (42634, [42635]); (42636,
  [42637]); (42638, [42639]); (42640, [42641]); (42642, [42643]); (42644,
  [42645]); (42646, [42647]); (42648, [42649]); (42650, [42651]); (42786,
  [42787]); (42788, [42789]); (42790, [42791]); (42792, [42793]); (42794,
  [42795]); (42796, [42797]); (42798, [42799]); (42802, [42803]); (42804,
  [42805]); (42806, [42807]); (42808, [42809]); (42810, [42811]); (42812,
  [42813]); (42814, [42815]); (42816, [42817]); (42818, [42819]); (42820,
  [42821]); (42822, [42823]); (42824, [42825]); (42826, [42827]); (42828,
  [42829]); (42830, [42831]); (42832, [42833]); (42834, [42835]); (42836,
  [42837]); (42838, [42839]); (42840, [42841]); (42842, [42843]); (42844,
  [42845]); (42846, [42847]); (42848, [42849]); (42850, [42851]); (42852,
  [42853]); (42854, [42855]); (42856, [42857]); (42858, [42859]); (42860,
  [42861]); (42862, [42863]); (42873, [42874]); (42875, [42876]); (42877,
  [7545]); (42878, [42879]); (42880, [42881]); (42882, [42883]); (42884,
  [42885]); (42886, [42887]); (42891, [42892]); (42893, [613]); (42896,
  [42897]); (42898, [42899]); (42902, [42903]); (42904, [42905]); (42906,
  [42907]); (42908, [42909]); (42910, [42911]); (42912, [42913]); (42914,
  [42915]); (42916, [42917]); (42918, [42919]); (42920, [42921]); (42922,
  [614]); (42923, [604]); (42924, [609]); (42925, [620]); (42926, [618]);
  (42928, [670]); (42929, [647]); (42930, [669]); (42931, [43859]); (42932,
  [42933]); (42934, [42935]); (42936, [42937]); (42938, [42939]); (42940,
  [42941]); (42942, [42943]); (42944, [42945]); (42946, [42947]); (42948,
  [42900]); (42949, [642]); (42950, [7566]); (42951, [42952]); (42953,
  [42954]); (42960, [42961]); (42966, [42967]); (42968, [42969]); (42997,
  [42998]); (65313, [65345]); (65314, [65346]); (65315, [65347]); (65316,
  [65348]); (65317, [65349]); (65318, [65350]); (65319, [65351]); (65320,
  [65352]); (65321, [65353]); (65322, [65354]); (65323, [65355]); (65324,
  [65356]); (65325, [65357]); (65326, [65358]); (65327, [65359]); (65328,
  [65360]); (65329, [65361]); (65330, [65362]); (65331, [65363]); (65332,
  [65364]); (65333, [65365]); (65334, [65366]); (65335, [65367]); (65336,
  [65368]); (65337, [65369]); (65338, [65370]); (66560, [66600]); (66561,
  [66601]); (66562, [66602]); (66563, [66603]); (66564, [66604]); (66565,
  [66605]); (66566, [66606]); (66567, [66607]); (66568, [66608]); (66569,
  [66609]); (66570, [66610]); (66571, [66611]); (66572, [66612]); (66573,
  [66613]); (66574, [66614]); (66575, [66615]); (66576, [66616]); (66577,
  [66617]); (66578, [66618]); (66579, [66619]); (66580, [66620]); (66581,
  [66621]); (66582, [66622]); (66583, [66623]); (66584, [66624]); (66585,
  [66625]); (66586, [66626]); (66587, [66627]); (66588, [66628]); (66589,
  [66629]); (66590, [66630]); (66591, [66631]); (66592, [66632]); (66593,
  [66633]); (66594, [66634]); (66595, [66635]); (66596, [66636]); (66597,
  [66637]); (66598, [66638]); (66599, [66639]); (66736, [66776]); (66737,
  [66777]); (66738, [66778]); (66739, [66779]); (66740, [66780]); (66741,
  [66781]); (66742, [66782]); (66743, [66783]); (66744, [66784]); (66745,
  [66785]); (66746, [66786]); (66747, [66787]); (66748, [66788]); (66749,
  [66789]); (66750, [66790]); (66751, [66791]); (66752, [66792]); (66753,
  [66793]); (66754, [66794]); (66755, [66795]); (66756, [66796]); (66757,
  [66797]); (66758, [66798]); (66759, [66799]); (66760, [66800]); (66761,
  [66801]); (66762, [66802]); (66763, [66803]); (66764, [66804]); (66765,
  [66805]); (66766, [66806]); (66767, [66807]); (66768, [66808]); (66769,
  [66809]); (66770, [66810]); (66771, [66811]); (66928, [66967]); (66929,
  [66968]); (66930, [66969]); (66931, [66970]); (66932, [66971]); (66933,
  [66972]); (66934, [66973]); (66935, [66974]); (66936, [66975]); (66937,
  [66976]); (66938, [66977]); (66940, [66979]); (66941, [66980]); (66942,
  [66981]); (66943, [66982]); (66944, [66983]); (66945, [66984]); (66946,
  [66985]); (66947, [66986]); (66948, [66987]); (66949, [66988]); (66950,
  [66989]); (66951, [66990]); (66952, [66991]); (66953, [66992]); (66954,
  [66993]); (66956, [66995]); (66957, [66996]); (66958, [66997]); (66959,
  [66998]); (66960, [66999]); (66961, [67000]); (66962, [67001]); (66964,
  [67003]); (66965, [67004]); (68736, [68800]); (68737, [68801]); (68738,
  [68802]); (68739, [68803]); (68740, [68804]); (68741, [68805]); (68742,
  [68806]); (68743, [68807]); (68744, [68808]); (68745, [68809]); (68746,
  [68810]); (68747, [68811]); (68748, [68812]); (68749, [68813]); (68750,
  [68814]); (68751, [68815]); (68752, [68816]); (68753, [68817]); (68754,
  [68818]); (68755, [68819]); (68756, [68820]); (68757, [68821]); (68758,
  [68822]); (68759, [68823]); (68760, [68824]); (68761, [68825]); (68762,
  [68826]); (68763, [68827]); (68764, [68828]); (68765, [68829]); (68766,
  [68830]); (68767, [68831]); (68768, [68832]); (68769, [68833]); (68770,
  [68834]); (68771, [68835]); (68772, [68836]); (68773, [68837]); (68774,
  [68838]); (68775, [68839]); (68776, [68840]); (68777, [68841]); (68778,
  [68842]); (68779, [68843]); (68780, [68844]); (68781, [68845]); (68782,
  [68846]); (68783, [68847]); (68784, [68848]); (68785, [68849]); (68786,
  [68850]); (71840, [71872]); (71841, [71873]); (71842, [71874]); (71843,
  [71875]); (71844, [71876]); (71845, [71877]); (71846, [71878]); (71847,
  [71879]); (71848, [71880]); (71849, [71881]); (71850, [71882]); (71851,
  [71883]); (71852, [71884]); (71853, [71885]); (71854, [71886]); (71855,
  [71887]); (71856, [71888]); (71857, [71889]); (71858, [71890]); (71859,
  [71891]); (71860, [71892]); (71861, [71893]); (71862, [71894]); (71863,
  [71895]); (71864, [71896]); (71865, [71897]); (71866, [71898]); (71867,
  [71899]); (71868, [71900]); (71869, [71901]); (71870, [71902]); (71871,
  [71903]); (93760, [93792]); (93761, [93793]); (93762, [93794]); (93763,
  [93795]); (93764, [93796]); (93765, [93797]); (93766, [93798]); (93767,
  [93799]); (93768, [93800]); (93769, [93801]); (93770, [93802]); (93771,
  [93803]); (93772, [93804]); (93773, [93805]); (93774, [93806]); (93775,
  [93807]); (93776, [93808]); (93777, [93809]); (93778, [93810]); (93779,
  [93811]); (93780, [93812]); (93781, [93813]); (93782, [93814]); (93783,
  [93815]); (93784, [93816]); (93785, [93817]); (93786, [93818]); (93787,
  [93819]); (93788, [93820]); (93789, [93821]); (93790, [93822]); (93791,
  [93823]); (125184, [125218]); (125185, [125219]); (125186, [125220]);
  (125187, [125221]); (125188, [125222]); (125189, [125223]); (125190,
  [125224]); (125191, [125225]); (125192, [125226]); (125193, [125227]);
  (125194, [125228]); (125195, [125229]); (125196, [125230]); (125197,
  [125231]); (125198, [125232]); (125199, [125233]); (125200, [125234]);
  (125201, [125235]); (125202, [125236]); (125203, [125237]); (125204,
  [125238]); (125205, [125239]); (125206, [125240]); (125207, [125241]);
  (125208, [125242]); (125209, [125243]); (125210, [125244]); (125211,
  [125245]); (125212, [125246]); (125213, [125247]); (125214, [125248]);
  (125215, [125249]); (125216, [125250]); (125217, [125251]) ].

(** The full title-case mapping, in the same form. *)
Definition title_table : list (N * list N) := [
  (97, [65]); (98, [66]); (99, [67]); (100, [68]); (101, [69]); (102, [70]);
  (103, [71]); (104, [72]); (105, [73]); (106, [74]); (107, [75]); (108,
  [76]); (109, [77]); (110, [78]); (111, [79]); (112, [80]); (113, [81]);
  (114, [82]); (115, [83]); (116, [84]); (117, [85]); (118, [86]); (119,
  [87]); (120, [88]); (121, [89]); (122, [90]); (181, [924]); (223, [83;
  115]); (224, [192]); (225, [193]); (226, [194]); (227, [195]); (228, [196]);
  (229, [197]); (230, [198]); (231, [199]); (232, [200]); (233, [201]); (234,
  [202]); (235, [203]); (236, [204]); (237, [205]); (238, [206]); (239,
  [207]); (240, [208]); (241, [209]); (242, [210]); (243, [211]); (244,
  [212]); (245, [213]); (246, [214]); (248, [216]); (249, [217]); (250,
  [218]); (251, [219]); (252, [220]); (253, [221]); (254, [222]); (255,
  [376]); (257, [256]); (259, [258]); (261, [260]); (263, [262]); (265,
  [264]); (267, [266]); (269, [268]); (271, [270]); (273, [272]); (275,
  [274]); (277, [276]); (279, [278]); (281, [280]); (283, [282]); (285,
  [284]); (287, [286]); (289, [288]); (291, [290]); (293, [292]); (295,
  [294]); (297, [296]); (299, [298]); (301, [300]); (303, [302]); (305, [73]);
  (307, [306]); (309, [308]); (311, [310]); (314, [313]); (316, [315]); (318,
  [317]); (320, [319]); (322, [321]); (324, [323]); (326, [325]); (328,
  [327]); (329, [700; 78]); (331, [330]); (333, [332]); (335, [334]); (337,
  [336]); (339, [338]); (341, [340]); (343, [342]); (345, [344]); (347,
  [346]); (349, [348]); (351, [350]); (353, [352]); (355, [354]); (357,
  [356]); (359, [358]); (361, [360]); (363, [362]); (365, [364]); (367,
  [366]); (369, [368]); (371, [370]); (373, [372]); (375, [374]); (378,
  [377]); (380, [379]); (382, [381]); (383, [83]); (384, [579]); (387, [386]);
  (389, [388]); (392, [391]); (396, [395]); (402, [401]); (405, [502]); (409,
  [408]); (410, [573]); (414, [544]); (417, [416]); (419, [418]); (421,
  [420]); (424, [423]); (429, [428]); (432, [431]); (436, [435]); (438,
  [437]); (441, [440]); (445, [444]); (447, [503]); (452, [453]); (454,
  [453]); (455, [456]); (457, [456]); (458, [459]); (460, [459]); (462,
  [461]); (464, [463]); (466, [465]); (468, [467]); (470, [469]); (472,
  [471]); (474, [473]); (476, [475]); (477, [398]); (479, [478]); (481,
  [480]); (483, [482]); (485, [484]); (487, [486]); (489, [488]); (491,
  [490]); (493, [492]); (495, [494]); (496, [74; 780]); (497, [498]); (499,
  [498]); (501, [500]); (505, [504]); (507, [506]); (509, [508]); (511,
  [510]); (513, [512]); (515, [514]); (517, [516]); (519, [518]); (521,
  [520]); (523, [522]); (525, [524]); (527, [526]); (529, [528]); (531,
  [530]); (533, [532]); (535, [534]); (537, [536]); (539, [538]); (541,
  [540]); (543, [542]); (547, [546]); (549, [548]); (551, [550]); (553,
  [552]); (555, [554]); (557, [556]); (559, [558]); (561, [560]); (563,
  [562]); (572, [571]); (575, [11390]); (576, [11391]); (578, [577]); (583,
  [582]); (585, [584]); (587, [586]); (589, [588]); (591, [590]); (592,
  [11375]); (593, [11373]); (594, [11376]); (595, [385]); (596, [390]); (598,
  [393]); (599, [394]); (601, [399]); (603, [400]); (604, [42923]); (608,
  [403]); (609, [42924]); (611, [404]); (613, [42893]); (614, [42922]); (616,
  [407]); (617, [406]); (618, [42926]); (619, [11362]); (620, [42925]); (623,
  [412]); (625, [11374]); (626, [413]); (629, [415]); (637, [11364]); (640,
  [422]); (642, [42949]); (643, [425]); (647, [42929]); (648, [430]); (649,
  [580]); (650, [433]); (651, [434]); (652, [581]); (658, [439]); (669,
  [42930]); (670, [42928]); (837, [921]); (881, [880]); (883, [882]); (887,
  [886]); (891, [1021]); (892, [1022]); (893, [1023]); (912, [921; 776; 769]);
  (940, [902]); (941, [904]); (942, [905]); (943, [906]); (944, [933; 776;
  769]); (945, [913]); (946, [914]); (947, [915]); (948, [916]); (949, [917]);
  (950, [918]); (951, [919]); (952, [920]); (953, [921]); (954, [922]); (955,
  [923]); (956, [924]); (957, [925]); (958, [926]); (959, [927]); (960,
  [928]); (961, [929]); (962, [931]); (963, [931]); (964, [932]); (965,
  [933]); (966, [934]); (967, [935]); (968, [936]); (969, [937]); (970,
  [938]); (971, [939]); (972, [908]); (973, [910]); (974, [911]); (976,
  [914]); (977, [920]); (981, [934]); (982, [928]); (983, [975]); (985,
  [984]); (987, [986]); (989, [988]); (991, [990]); (993, [992]); (995,
  [994]); (997, [996]); (999, [998]); (1001, [1000]); (1003, [1002]); (1005,
  [1004]); (1007, [1006]); (1008, [922]); (1009, [929]); (1010, [1017]);
  (1011, [895]); (1013, [917]); (1016, [1015]); (1019, [1018]); (1072,
  [1040]); (1073, [1041]); (1074, [1042]); (1075, [1043]); (1076, [1044]);
  (1077, [1045]); (1078, [1046]); (1079, [1047]); (1080, [1048]); (1081,
  [1049]); (1082, [1050]); (1083, [1051]); (1084, [1052]); (1085, [1053]);
  (1086, [1054]); (1087, [1055]); (1088, [1056]); (1089, [1057]); (1090,
  [1058]); (1091, [1059]); (1092, [1060]); (1093, [1061]); (1094, [1062]);
  (1095, [1063]); (1096, [1064]); (1097, [1065]); (1098, [1066]); (1099,
  [1067]); (1100, [1068]); (1101, [1069]); (1102, [1070]); (1103, [1071]);
  (1104, [1024]); (1105, [1025]); (1106, [1026]); (1107, [1027]); (1108,
  [1028]); (1109, [1029]); (1110, [1030]); (1111, [1031]); (1112, [1032]);
  (1113, [1033]); (1114, [1034]); (1115, [1035]); (1116, [1036]); (1117,
  [1037]); (1118, [1038]); (1119, [1039]); (1121, [1120]); (1123, [1122]);
  (1125, [1124]); (1127, [1126]); (1129, [1128]); (1131, [1130]); (1133,
  [1132]); (1135, [1134]); (1137, [1136]); (1139, [1138]); (1141, [1140]);
  (1143, [1142]); (1145, [1144]); (1147, [1146]); (1149, [1148]); (1151,
  [1150]); (1153, [1152]); (1163, [1162]); (1165, [1164]); (1167, [1166]);
  (1169, [1168]); (1171, [1170]); (1173, [1172]); (1175, [1174]); (1177,
  [1176]); (1179, [1178]); (1181, [1180]); (1183, [1182]); (1185, [1184]);
  (1187, [1186]); (1189, [1188]); (1191, [1190]); (1193, [1192]); (1195,
  [1194]); (1197, [1196]); (1199, [1198]); (1201, [1200]); (1203, [1202]);
  (1205, [1204]); (1207, [1206]); (1209, [1208]); (1211, [1210]); (1213,
  [1212]); (1215, [1214]); (1218, [1217]); (1220, [1219]); (1222, [1221]);
  (1224, [1223]); (1226, [1225]); (1228, [1227]); (1230, [1229]); (1231,
  [1216]); (1233, [1232]); (1235, [1234]); (1237, [1236]); (1239, [1238]);
  (1241, [1240]); (1243, [1242]); (1245, [1244]); (1247, [1246]); (1249,
  [1248]); (1251, [1250]); (1253, [1252]); (1255, [1254]); (1257, [1256]);
  (1259, [1258]); (1261, [1260]); (1263, [1262]); (1265, [1264]); (1267,
  [1266]); (1269, [1268]); (1271, [1270]); (1273, [1272]); (1275, [1274]);
  (1277, [1276]); (1279, [1278]); (1281, [1280]); (1283, [1282]); (1285,
  [1284]); (1287, [1286]); (1289, [1288]); (1291, [1290]); (1293, [1292]);
  (1295, [1294]); (1297, [1296]); (1299, [1298]); (1301, [1300]); (1303,
  [1302]); (1305, [1304]); (1307, [1306]); (1309, [1308]); (1311, [1310]);
  (1313, [1312]); (1315, [1314]); (1317, [1316]); (1319, [1318]); (1321,
  [1320]); (1323, [1322]); (1325, [1324]); (1327, [1326]); (1377, [1329]);
  (1378, [1330]); (1379, [1331]); (1380, [1332]); (1381, [1333]); (1382,
  [1334]); (1383, [1335]); (1384, [1336]); (1385, [1337]); (1386, [1338]);
  (1387, [1339]); (1388, [1340]); (1389, [1341]); (1390, [1342]); (1391,
  [1343]); (1392, [1344]); (1393, [1345]); (1394, [1346]); (1395, [1347]);
  (1396, [1348]); (1397, [1349]); (1398, [1350]); (1399, [1351]); (1400,
  [1352]); (1401, [1353]); (1402, [1354]); (1403, [1355]); (1404, [1356]);
  (1405, [1357]); (1406, [1358]); (1407, [1359]); (1408, [1360]); (1409,
  [1361]); (1410, [1362]); (1411, [1363]); (1412, [1364]); (1413, [1365]);
  (1414, [1366]); (1415, [1333; 1410]); (5112, [5104]); (5113, [5105]); (5114,
  [5106]); (5115, [5107]); (5116, [5108]); (5117, [5109]); (7296, [1042]);
  (7297, [1044]); (7298, [1054]); (7299, [1057]); (7300, [1058]); (7301,
  [1058]); (7302, [1066]); (7303, [1122]); (7304, [42570]); (7545, [42877]);
  (7549, [11363]); (7566, [42950]); (7681, [7680]); (7683, [7682]); (7685,
  [7684]); (7687, [7686]); (7689, [7688]); (7691, [7690]); (7693, [7692]);
  (7695, [7694]); (7697, [7696]); (7699, [7698]); (7701, [7700]); (7703,
  [7702]); (7705, [7704]); (7707, [7706]); (7709, [7708]); (7711, [7710]);
  (7713, [7712]); (7715, [7714]); (7717, [7716]); (7719, [7718]); (7721,
  [7720]); (7723, [7722]); (7725, [7724]); (7727, [7726]); (7729, [7728]);
  (7731, [7730]); (7733, [7732]); (7735, [7734]); (7737, [7736]); (7739,
  [7738]); (7741, [7740]); (7743, [7742]); (7745, [7744]); (7747, [7746]);
  (7749, [7748]); (7751, [7750]); (7753, [7752]); (7755, [7754]); (7757,
  [7756]); (7759, [7758]); (7761, [7760]); (7763, [7762]); (7765, [7764]);
  (7767, [7766]); (7769, [7768]); (7771, [7770]); (7773, [7772]); (7775,
  [7774]); (7777, [7776]); (7779, [7778]); (7781, [7780]); (7783, [7782]);
  (7785, [7784]); (7787, [7786]); (7789, [7788]); (7791, [7790]); (7793,
  [7792]); (7795, [7794]); (7797, [7796]); (7799, [7798]); (7801, [7800]);
  (7803, [7802]); (7805, [7804]); (7807, [7806]); (7809, [7808]); (7811,
  [7810]); (7813, [7812]); (7815, [7814]); (7817, [7816]); (7819, [7818]);
  (7821, [7820]); (7823, [7822]); (7825, [7824]); (7827, [7826]); (7829,
  [7828]); (7830, [72; 817]); (7831, [84; 776]); (7832, [87; 778]); (7833,
  [89; 778]); (7834, [65; 702]); (7835, [7776]); (7841, [7840]); (7843,
  [7842]); (7845, [7844]); (7847, [7846]); (7849, [7848]); (7851, [7850]);
  (7853, [7852]); (7855, [7854]); (7857, [7856]); (7859, [7858]); (7861,
  [7860]); (7863, [7862]); (7865, [7864]); (7867, [7866]); (7869, [7868]);
  (7871, [7870]); (7873, [7872]); (7875, [7874]); (7877, [7876]); (7879,
  [7878]); (7881, [7880]); (7883, [7882]); (7885, [7884]); (7887, [7886]);
  (7889, [7888]); (7891, [7890]); (7893, [7892]); (7895, [7894]); (7897,
  [7896]); (7899, [7898]); (7901, [7900]); (7903, [7902]); (7905, [7904]);
  (7907, [7906]); (7909, [7908]); (7911, [7910]); (7913, [7912]); (7915,
  [7914]); (7917, [7916]); (7919, [7918]); (7921, [7920]); (7923, [7922]);
  (7925, [7924]); (7927, [7926]); (7929, [7928]); (7931, [7930]); (7933,
  [7932]); (7935, [7934]); (7936, [7944]); (7937, [7945]); (7938, [7946]);
  (7939, [7947]); (7940, [7948]); (7941, [7949]); (7942, [7950]); (7943,
  [7951]); (7952, [7960]); (7953, [7961]); (7954, [7962]); (7955, [7963]);
  (7956, [7964]); (7957, [7965]); (7968, [7976]); (7969, [7977]); (7970,
  [7978]); (7971, [7979]); (7972, [7980]); (7973, [7981]); (7974, [7982]);
  (7975, [7983]); (7984, [7992]); (7985, [7993]); (7986, [7994]); (7987,
  [7995]); (7988, [7996]); (7989, [7997]); (7990, [7998]); (7991, [7999]);
  (8000, [8008]); (8001, [8009]); (8002, [8010]); (8003, [8011]); (8004,
  [8012]); (8005, [8013]); (8016, [933; 787]); (8017, [8025]); (8018, [933;
  787; 768]); (8019, [8027]); (8020, [933; 787; 769]); (8021, [8029]); (8022,
  [933; 787; 834]); (8023, [8031]); (8032, [8040]); (8033, [8041]); (8034,
  [8042]); (8035, [8043]); (8036, [8044]); (8037, [8045]); (8038, [8046]);
  (8039, [8047]); (8048, [8122]); (8049, [8123]); (8050, [8136]); (8051,
  [8137]); (8052, [8138]); (8053, [8139]); (8054, [8154]); (8055, [8155]);
  (8056, [8184]); (8057, [8185]); (8058, [8170]); (8059, [8171]); (8060,
  [8186]); (8061, [8187]); (8064, [8072]); (8065, [8073]); (8066, [8074]);
  (8067, [8075]); (8068, [8076]); (8069, [8077]); (8070, [8078]); (8071,
  [8079]); (8080, [8088]); (8081, [8089]); (8082, [8090]); (8083, [8091]);
  (8084, [8092]); (8085, [8093]); (8086, [8094]); (8087, [8095]); (8096,
  [8104]); (8097, [8105]); (8098, [8106]); (8099, [8107]); (8100, [8108]);
  (8101, [8109]); (8102, [8110]); (8103, [8111]); (8112, [8120]); (8113,
  [8121]); (8114, [8122; 837]); (8115, [8124]); (8116, [902; 837]); (8118,
  [913; 834]); (8119, [913; 834; 837]); (8126, [921]); (8130, [8138; 837]);
  (8131, [8140]); (8132, [905; 837]); (8134, [919; 834]); (8135, [919; 834;
  837]); (8144, [8152]); (8145, [8153]); (8146, [921; 776; 768]); (8147, [921;
  776; 769]); (8150, [921; 834]); (8151, [921; 776; 834]); (8160, [8168]);
  (8161, [8169]); (8162, [933; 776; 768]); (8163, [933; 776; 769]); (8164,
  [929; 787]); (8165, [8172]); (8166, [933; 834]); (8167, [933; 776; 834]);
  (8178, [8186; 837]); (8179, [8188]); (8180, [911; 837]); (8182, [937; 834]);
  (8183, [937; 834; 837]); (8526, [8498]); (8560, [8544]); (8561, [8545]);
  (8562, [8546]); (8563, [8547]); (8564, [8548]); (8565, [8549]); (8566,
  [8550]); (8567, [8551]); (8568, [8552]); (8569, [8553]); (8570, [8554]);
  (8571, [8555]); (8572, [8556]); (8573, [8557]); (8574, [8558]); (8575,
  [8559]); (8580, [8579]); (9424, [9398]); (9425, [9399]); (9426, [9400]);
  (9427, [9401]); (9428, [9402]); (9429, [9403]); (9430, [9404]); (9431,
  [9405]); (9432, [9406]); (9433, [9407]); (9434, [9408]); (9435, [9409]);
  (9436, [9410]); (9437, [9411]); (9438, [9412]); (9439, [9413]); (9440,
  [9414]); (9441, [9415]); (9442, [9416]); (9443, [9417]); (9444, [9418]);
  (9445, [9419]); (9446, [9420]); (9447, [9421]); (9448, [9422]); (9449,
  [9423]); (11312, [11264]); (11313, [11265]); (11314, [11266]); (11315,
  [11267]); (11316, [11268]); (11317, [11269]); (11318, [11270]); (11319,
  [11271]); (11320, [11272]); (11321, [11273]); (11322, [11274]); (11323,
  [11275]); (11324, [11276]); (11325, [11277]); (11326, [11278]); (11327,
  [11279]); (11328, [11280]); (11329, [11281]); (11330, [11282]); (11331,
  [11283]); (11332, [11284]); (11333, [11285]); (11334, [11286]); (11335,
  [11287]); (11336, [11288]); (11337, [11289]); (11338, [11290]); (11339,
  [11291]); (11340, [11292]); (11341, [11293]); (11342, [11294]); (11343,
  [11295]); (11344, [11296]); (11345, [11297]); (11346, [11298]); (11347,
  [11299]); (11348, [11300]); (11349, [11301]); (11350, [11302]); (11351,
  [11303]); (11352, [11304]); (11353, [11305]); (11354, [11306]); (11355,
  [11307]); (11356, [11308]); (11357, [11309]); (11358, [11310]); (11359,
  [11311]); (11361, [11360]); (11365, [570]); (11366, [574]); (11368,
  [11367]); (11370, [11369]); (11372, [11371]); (11379, [11378]); (11382,
  [11381]); (11393, [11392]); (11395, [11394]); (11397, [11396]); (11399,
  [11398]); (11401, [11400]); (11403, [11402]); (11405, [11404]); (11407,
  [11406]); (11409, [11408]); (11411, [11410]); (11413, [11412]); (11415,
  [11414]); (11417, [11416]); (11419, [11418]); (11421, [11420]); (11423,
  [11422]); (11425, [11424]); (11427, [11426]); (11429, [11428]); (11431,
  [11430]); (11433, [11432]); (11435, [11434]); (11437, [11436]); (11439,
  [11438]); (11441, [11440]); (11443, [11442]); (11445, [11444]); (11447,
  [11446]); (11449, [11448]); (11451, [11450]); (11453, [11452]); (11455,
  [11454]); (11457, [11456]); (11459, [11458]); (11461, [11460]); (11463,
  [11462]); (11465, [11464]); (11467, [11466]); (11469, [11468]); (11471,
  [11470]); (11473, [11472]); (11475, [11474]); (11477, [11476]); (11479,
  [11478]); (11481, [11480]); (11483, [11482]); (11485, [11484]); (11487,
  [11486]); (11489, [11488]); (11491, [11490]); (11500, [11499]); (11502,
  [11501]); (11507, [11506]); (11520, [4256]); (11521, [4257]); (11522,
  [4258]); (11523, [4259]); (11524, [4260]); (11525, [4261]); (11526, [4262]);
  (11527, [4263]); (11528, [4264]); (11529, [4265]); (11530, [4266]); (11531,
  [4267]); (11532, [4268]); (11533, [4269]); (11534, [4270]); (11535, [4271]);
  (11536, [4272]); (11537, [4273]); (11538, [4274]); (11539, [4275]); (11540,
  [4276]); (11541, [4277]); (11542, [4278]); (11543, [4279]); (11544, [4280]);
  (11545, [4281]); (11546, [4282]); (11547, [4283]); (11548, [4284]); (11549,
  [4285]); (11550, [4286]); (11551, [4287]); (11552, [4288]); (11553, [4289]);
  (11554, [4290]); (11555, [4291]); (11556, [4292]); (11557, [4293]); (11559,
  [4295]); (11565, [4301]); (42561, [42560]); (42563, [42562]); (42565,
  [42564]); (42567, [42566]); (42569, [42568]); (42571, [42570]); (42573,
  [42572]); (42575, [42574]); (42577, [42576]); (42579, [42578]); (42581,
  [42580]); (42583, [42582]); (42585, [42584]); (42587, [42586]); (42589,
  [42588]); (42591, [42590]); (42593, [42592]); (42595, [42594]); (42597,
  [42596]); (42599, [42598]); (42601, [42600]); (42603, [42602]); (42605,
  [42604]); (42625, [42624]); (42627, [42626]); (42629, [42628]); (42631,
  [42630]); (42633, [42632]); (42635, [42634]); (42637, [42636]); (42639,
  [42638]); (42641, [42640]); (42643, [42642]); (42645, [42644]); (42647,
  [42646]); (42649, [42648]); (42651, [42650]); (42787, [42786]); (42789,
  [42788]); (42791, [42790]); (42793, [42792]); (42795, [42794]); (42797,
  [42796]); (42799, [42798]); (42803, [42802]); (42805, [42804]); (42807,
  [42806]); (42809, [42808]); (42811, [42810]); (42813, [42812]); (42815,
  [42814]); (42817, [42816]); (42819, [42818]); (42821, [42820]); (42823,
  [42822]); (42825, [42824]); (42827, [42826]); (42829, [42828]); (42831,
  [42830]); (42833, [42832]); (42835, [42834]); (42837, [42836]); (42839,
  [42838]); (42841, [42840]); (42843, [42842]); (42845, [42844]); (42847,
  [42846]); (42849, [42848]); (42851, [42850]); (42853, [42852]); (42855,
  [42854]); (42857, [42856]); (42859, [42858]); (42861, [42860]); (42863,
  [42862]); (42874, [42873]); (42876, [42875]); (42879, [42878]); (42881,
  [42880]); (42883, [42882]); (42885, [42884]); (42887, [42886]); (42892,
  [42891]); (42897, [42896]); (42899, [42898]); (42900, [42948]); (42903,
  [42902]); (42905, [42904]); (42907, [42906]); (42909, [42908]); (42911,
  [42910]); (42913, [42912]); (42915, [42914]); (42917, [42916]); (42919,
  [42918]); (42921, [42920]); (42933, [42932]); (42935, [42934]); (42937,
  [42936]); (42939, [42938]); (42941, [42940]); (42943, [42942]); (42945,
  [42944]); (42947, [42946]); (42952, [42951]); (42954, [42953]); (42961,
  [42960]); (42967, [42966]); (42969, [42968]); (42998, [42997]); (43859,
  [42931]); (43888, [5024]); (43889, [5025]); (43890, [5026]); (43891,
  [5027]); (43892, [5028]); (43893, [5029]); (43894, [5030]); (43895, [5031]);
  (43896, [5032]); (43897, [5033]); (43898, [5034]); (43899, [5035]); (43900,
  [5036]); (43901, [5037]); (43902, [5038]); (43903, [5039]); (43904, [5040]);
  (43905, [5041]); (43906, [5042]); (43907, [5043]); (43908, [5044]); (43909,
  [5045]); (43910, [5046]); (43911, [5047]); (43912, [5048]); (43913, [5049]);
  (43914, [5050]); (43915, [5051]); (43916, [5052]); (43917, [5053]); (43918,
  [5054]); (43919, [5055]); (43920, [5056]); (43921, [5057]); (43922, [5058]);
  (43923, [5059]); (43924, [5060]); (43925, [5061]); (43926, [5062]); (43927,
  [5063]); (43928, [5064]); (43929, [5065]); (43930, [5066]); (43931, [5067]);
  (43932, [5068]); (43933, [5069]); (43934, [5070]); (43935, [5071]); (43936,
  [5072]); (43937, [5073]); (43938, [5074]); (43939, [5075]); (43940, [5076]);
  (43941, [5077]); (43942, [5078]); (43943, [5079]); (43944, [5080]); (43945,
  [5081]); (43946, [5082]); (43947, [5083]); (43948, [5084]); (43949, [5085]);
  (43950, [5086]); (43951, [5087]); (43952, [5088]); (43953, [5089]); (43954,
  [5090]); (43955, [5091]); (43956, [5092]); (43957, [5093]); (43958, [5094]);
  (43959, [5095]); (43960, [5096]); (43961, [5097]); (43962, [5098]); (43963,
  [5099]); (43964, [5100]); (43965, [5101]); (43966, [5102]); (43967, [5103]);
  (64256, [70; 102]); (64257, [70; 105]); (64258, [70; 108]); (64259, [70;
  102; 105]); (64260, [70; 102; 108]); (64261, [83; 116]); (64262, [83; 116]);
  (64275, [1348; 1398]); (64276, [1348; 1381]); (64277, [1348; 1387]); (64278,
  [1358; 1398]); (64279, [1348; 1389]); (65345, [65313]); (65346, [65314]);
  (65347, [65315]); (65348, [65316]); (65349, [65317]); (65350, [65318]);
  (65351, [65319]); (65352, [65320]); (65353, [65321]); (65354, [65322]);
  (65355, [65323]); (65356, [65324]); (65357, [65325]); (65358, [65326]);
  (65359, [65327]); (65360, [65328]); (65361, [65329]); (65362, [65330]);
  (65363, [65331]); (65364, [65332]); (65365, [65333]); (65366, [65334]);
  (65367, [65335]); (65368, [65336]); (65369, [65337]); (65370, [65338]);
  (66600, [66560]); (66601, [66561]); (66602, [66562]); (66603, [66563]);
  (66604, [66564]); (66605, [66565]); (66606, [66566]); (66607, [66567]);
  (66608, [66568]); (66609, [66569]); (66610, [66570]); (66611, [66571]);
  (66612, [66572]); (66613, [66573]); (66614, [66574]); (66615, [66575]);
  (66616, [66576]); (66617, [66577]); (66618, [66578]); (66619, [66579]);
  (66620, [66580]); (66621, [66581]); (66622, [66582]); (66623, [66583]);
  (66624, [66584]); (66625, [66585]); (66626, [66586]); (66627, [66587]);
  (66628, [66588]); (66629, [66589]); (66630, [66590]); (66631, [66591]);
  (66632, [66592]); (66633, [66593]); (66634, [66594]); (66635, [66595]);
  (66636, [66596]); (66637, [66597]); (66638, [66598]); (66639, [66599]);
  (66776, [66736]); (66777, [66737]); (66778, [66738]); (66779, [66739]);
  (66780, [66740]); (66781, [66741]); (66782, [66742]); (66783, [66743]);
  (66784, [66744]); (66785, [66745]); (66786, [66746]); (66787, [66747]);
  (66788, [66748]); (66789, [66749]); (66790, [66750]); (66791, [66751]);
  (66792, [66752]); (66793, [66753]); (66794, [66754]); (66795, [66755]);
  (66796, [66756]); (66797, [66757]); (66798, [66758]); (66799, [66759]);
  (66800, [66760]); (66801, [66761]); (66802, [66762]); (66803, [66763]);
  (66804, [66764]); (66805, [66765]); (66806, [66766]); (66807, [66767]);
  (66808, [66768]); (66809, [66769]); (66810, [66770]); (66811, [66771]);
  (66967, [66928]); (66968, [66929]); (66969, [66930]); (66970, [66931]);
  (66971, [66932]); (66972, [66933]); (66973, [66934]); (66974, [66935]);
  (66975, [66936]); (66976, [66937]); (66977, [66938]); (66979, [66940]);
  (66980, [66941]); (66981, [66942]); (66982, [66943]); (66983, [66944]);
  (66984, [66945]); (66985, [66946]); (66986, [66947]); (66987, [66948]);
  (66988, [66949]); (66989, [66950]); (66990, [66951]); (66991, [66952]);
  (66992, [66953]); (66993, [66954]); (66995, [66956]); (66996, [66957]);
  (66997, [66958]); (66998, [66959]); (66999, [66960]); (67000, [66961]);
  (67001, [66962]); (67003, [66964]); (67004, [66965]); (68800, [68736]);
  (68801, [68737]); (68802, [68738]); (68803, [68739]); (68804, [68740]);
  (68805, [68741]); (68806, [68742]); (68807, [68743]); (68808, [68744]);
  (68809, [68745]); (68810, [68746]); (68811, [68747]); (68812, [68748]);
  (68813, [68749]); (68814, [68750]); (68815, [68751]); (68816, [68752]);
  (68817, [68753]); (68818, [68754]); (68819, [68755]); (68820, [68756]);
  (68821, [68757]); (68822, [68758]); (68823, [68759]); (68824, [68760]);
  (68825, [68761]); (68826, [68762]); (68827, [68763]); (68828, [68764]);
  (68829, [68765]); (68830, [68766]); (68831, [68767]); (68832, [68768]);
  (68833, [68769]); (68834, [68770]); (68835, [68771]); (68836, [68772]);
  (68837, [68773]); (68838, [68774]); (68839, [68775]); (68840, [68776]);
  (68841, [68777]); (68842, [68778]); (68843, [68779]); (68844, [68780]);
  (68845, [68781]); (68846, [68782]); (68847, [68783]); (68848, [68784]);
  (68849, [68785]); (68850, [68786]); (71872, [71840]); (71873, [71841]);
  (71874, [71842]); (71875, [71843]); (71876, [71844]); (71877, [71845]);
  (71878, [71846]); (71879, [71847]); (71880, [71848]); (71881, [71849]);
  (71882, [71850]); (71883, [71851]); (71884, [71852]); (71885, [71853]);
  (71886, [71854]); (71887, [71855]); (71888, [71856]); (71889, [71857]);
  (71890, [71858]); (71891, [71859]); (71892, [71860]); (71893, [71861]);
  (71894, [71862]); (71895, [71863]); (71896, [71864]); (71897, [71865]);
  (71898, [71866]); (71899, [71867]); (71900, [71868]); (71901, [71869]);
  (71902, [71870]); (71903, [71871]); (93792, [93760]); (93793, [93761]);
  (93794, [93762]); (93795, [93763]); (93796, [93764]); (93797, [93765]);
  (93798, [93766]); (93799, [93767]); (93800, [93768]); (93801, [93769]);
  (93802, [93770]); (93803, [93771]); (93804, [93772]); (93805, [93773]);
  (93806, [93774]); (93807, [93775]); (93808, [93776]); (93809, [93777]);
  (93810, [93778]); (93811, [93779]); (93812, [93780]); (93813, [93781]);
  (93814, [93782]); (93815, [93783]); (93816, [93784]); (93817, [93785]);
  (93818, [93786]); (93819, [93787]); (93820, [93788]); (93821, [93789]);
  (93822, [93790]); (93823, [93791]); (125218, [125184]); (125219, [125185]);
  (125220, [125186]); (125221, [125187]); (125222, [125188]); (125223,
  [125189]); (125224, [125190]); (125225, [125191]); (125226, [125192]);
  (125227, [125193]); (125228, [125194]); (125229, [125195]); (125230,
  [125196]); (125231, [125197]); (125232, [125198]); (125233, [125199]);
  (125234, [125200]); (125235, [125201]); (125236, [125202]); (125237,
  [125203]); (125238, [125204]); (125239, [125205]); (125240, [125206]);
  (125241, [125207]); (125242, [125208]); (125243, [125209]); (125244,
  [125210]); (125245, [125211]); (125246, [125212]); (125247, [125213]);
  (125248, [125214]); (125249, [125215]); (125250, [125216]); (125251,
  [125217]) ].

(** The cased code points, as inclusive ranges in increasing order. *)
Definition cased_ranges : list (N * N) := [
  (65, 90); (97, 122); (170, 170); (181, 181); (186, 186); (192, 214); (216,
  246); (248, 442); (444, 447); (452, 659); (661, 696); (704, 705); (736,
  740); (837, 837); (880, 883); (886, 887); (890, 893); (895, 895); (902,
  902); (904, 906); (908, 908); (910, 929); (931, 1013); (1015, 1153); (1162,
  1327); (1329, 1366); (1376, 1416); (4256, 4293); (4295, 4295); (4301, 4301);
  (4304, 4346); (4349, 4351); (5024, 5109); (5112, 5117); (7296, 7304); (7312,
  7354); (7357, 7359); (7424, 7615); (7680, 7957); (7960, 7965); (7968, 8005);
  (8008, 8013); (8016, 8023); (8025, 8025); (8027, 8027); (8029, 8029); (8031,
  8061); (8064, 8116); (8118, 8124); (8126, 8126); (8130, 8132); (8134, 8140);
  (8144, 8147); (8150, 8155); (8160, 8172); (8178, 8180); (8182, 8188); (8305,
  8305); (8319, 8319); (8336, 8348); (8450, 8450); (8455, 8455); (8458, 8467);
  (8469, 8469); (8473, 8477); (8484, 8484); (8486, 8486); (8488, 8488); (8490,
  8493); (8495, 8500); (8505, 8505); (8508, 8511); (8517, 8521); (8526, 8526);
  (8544, 8575); (8579, 8580); (9398, 9449); (11264, 11492); (11499, 11502);
  (11506, 11507); (11520, 11557); (11559, 11559); (11565, 11565); (42560,
  42605); (42624, 42653); (42786, 42887); (42891, 42894); (42896, 42954);
  (42960, 42961); (42963, 42963); (42965, 42969); (42997, 42998); (43000,
  43002); (43824, 43866); (43868, 43880); (43888, 43967); (64256, 64262);
  (64275, 64279); (65313, 65338); (65345, 65370); (66560, 66639); (66736,
  66771); (66776, 66811); (66928, 66938); (66940, 66954); (66956, 66962);
  (66964, 66965); (66967, 66977); (66979, 66993); (66995, 67001); (67003,
  67004); (67456, 67456); (67459, 67461); (67463, 67504); (67506, 67514);
  (68736, 68786); (68800, 68850); (71840, 71903); (93760, 93823); (119808,
  119892); (119894, 119964); (119966, 119967); (119970, 119970); (119973,
  119974); (119977, 119980); (119982, 119993); (119995, 119995); (119997,
  120003); (120005, 120069); (120071, 120074); (120077, 120084); (120086,
  120092); (120094, 120121); (120123, 120126); (120128, 120132); (120134,
  120134); (120138, 120144); (120146, 120485); (120488, 120512); (120514,
  120538); (120540, 120570); (120572, 120596); (120598, 120628); (120630,
  120654); (120656, 120686); (120688, 120712); (120714, 120744); (120746,
  120770); (120772, 120779); (122624, 122633); (122635, 122654); (125184,
  125251); (127280, 127305); (127312, 127337); (127344, 127369) ].

(** The case-ignorable code points, as inclusive ranges in increasing order. *)
Definition case_ignorable_ranges : list (N * N) := [
  (39, 39); (46, 46); (58, 58); (94, 94); (96, 96); (168, 168); (173, 173);
  (175, 175); (180, 180); (183, 184); (688, 879); (884, 885); (890, 890);
  (900, 901); (903, 903); (1155, 1161); (1369, 1369); (1375, 1375); (1425,
  1469); (1471, 1471); (1473, 1474); (1476, 1477); (1479, 1479); (1524, 1524);
  (1536, 1541); (1552, 1562); (1564, 1564); (1600, 1600); (1611, 1631); (1648,
  1648); (1750, 1757); (1759, 1768); (1770, 1773); (1807, 1807); (1809, 1809);
  (1840, 1866); (1958, 1968); (2027, 2037); (2042, 2042); (2045, 2045); (2070,
  2093); (2137, 2139); (2184, 2184); (2192, 2193); (2200, 2207); (2249, 2306);
  (2362, 2362); (2364, 2364); (2369, 2376); (2381, 2381); (2385, 2391); (2402,
  2403); (2417, 2417); (2433, 2433); (2492, 2492); (2497, 2500); (2509, 2509);
  (2530, 2531); (2558, 2558); (2561, 2562); (2620, 2620); (2625, 2626); (2631,
  2632); (2635, 2637); (2641, 2641); (2672, 2673); (2677, 2677); (2689, 2690);
  (2748, 2748); (2753, 2757); (2759, 2760); (2765, 2765); (2786, 2787); (2810,
  2815); (2817, 2817); (2876, 2876); (2879, 2879); (2881, 2884); (2893, 2893);
  (2901, 2902); (2914, 2915); (2946, 2946); (3008, 3008); (3021, 3021); (3072,
  3072); (3076, 3076); (3132, 3132); (3134, 3136); (3142, 3144); (3146, 3149);
  (3157, 3158); (3170, 3171); (3201, 3201); (3260, 3260); (3263, 3263); (3270,
  3270); (3276, 3277); (3298, 3299); (3328, 3329); (3387, 3388); (3393, 3396);
  (3405, 3405); (3426, 3427); (3457, 3457); (3530, 3530); (3538, 3540); (3542,
  3542); (3633, 3633); (3636, 3642); (3654, 3662); (3761, 3761); (3764, 3772);
  (3782, 3782); (3784, 3789); (3864, 3865); (3893, 3893); (3895, 3895); (3897,
  3897); (3953, 3966); (3968, 3972); (3974, 3975); (3981, 3991); (3993, 4028);
  (4038, 4038); (4141, 4144); (4146, 4151); (4153, 4154); (4157, 4158); (4184,
  4185); (4190, 4192); (4209, 4212); (4226, 4226); (4229, 4230); (4237, 4237);
  (4253, 4253); (4348, 4348); (4957, 4959); (5906, 5908); (5938, 5939); (5970,
  5971); (6002, 6003); (6068, 6069); (6071, 6077); (6086, 6086); (6089, 6099);
  (6103, 6103); (6109, 6109); (6155, 6159); (6211, 6211); (6277, 6278); (6313,
  6313); (6432, 6434); (6439, 6440); (6450, 6450); (6457, 6459); (6679, 6680);
  (6683, 6683); (6742, 6742); (6744, 6750); (6752, 6752); (6754, 6754); (6757,
  6764); (6771, 6780); (6783, 6783); (6823, 6823); (6832, 6862); (6912, 6915);
  (6964, 6964); (6966, 6970); (6972, 6972); (6978, 6978); (7019, 7027); (7040,
  7041); (7074, 7077); (7080, 7081); (7083, 7085); (7142, 7142); (7144, 7145);
  (7149, 7149); (7151, 7153); (7212, 7219); (7222, 7223); (7288, 7293); (7376,
  7378); (7380, 7392); (7394, 7400); (7405, 7405); (7412, 7412); (7416, 7417);
  (7468, 7530); (7544, 7544); (7579, 7679); (8125, 8125); (8127, 8129); (8141,
  8143); (8157, 8159); (8173, 8175); (8189, 8190); (8203, 8207); (8216, 8217);
  (8228, 8228); (8231, 8231); (8234, 8238); (8288, 8292); (8294, 8303); (8305,
  8305); (8319, 8319); (8336, 8348); (8400, 8432); (11388, 11389); (11503,
  11505); (11631, 11631); (11647, 11647); (11744, 11775); (11823, 11823);
  (12293, 12293); (12330, 12333); (12337, 12341); (12347, 12347); (12441,
  12446); (12540, 12542); (40981, 40981); (42232, 42237); (42508, 42508);
  (42607, 42610); (42612, 42621); (42623, 42623); (42652, 42655); (42736,
  42737); (42752, 42785); (42864, 42864); (42888, 42890); (42994, 42996);
  (43000, 43001); (43010, 43010); (43014, 43014); (43019, 43019); (43045,
  43046); (43052, 43052); (43204, 43205); (43232, 43249); (43263, 43263);
  (43302, 43309); (43335, 43345); (43392, 43394); (43443, 43443); (43446,
  43449); (43452, 43453); (43471, 43471); (43493, 43494); (43561, 43566);
  (43569, 43570); (43573, 43574); (43587, 43587); (43596, 43596); (43632,
  43632); (43644, 43644); (43696, 43696); (43698, 43700); (43703, 43704);
  (43710, 43711); (43713, 43713); (43741, 43741); (43756, 43757); (43763,
  43764); (43766, 43766); (43867, 43871); (43881, 43883); (44005, 44005);
  (44008, 44008); (44013, 44013); (64286, 64286); (64434, 64450); (65024,
  65039); (65043, 65043); (65056, 65071); (65106, 65106); (65109, 65109);
  (65279, 65279); (65287, 65287); (65294, 65294); (65306, 65306); (65342,
  65342); (65344, 65344); (65392, 65392); (65438, 65439); (65507, 65507);
  (65529, 65531); (66045, 66045); (66272, 66272); (66422, 66426); (67456,
  67461); (67463, 67504); (67506, 67514); (68097, 68099); (68101, 68102);
  (68108, 68111); (68152, 68154); (68159, 68159); (68325, 68326); (68900,
  68903); (69291, 69292); (69446, 69456); (69506, 69509); (69633, 69633);
  (69688, 69702); (69744, 69744); (69747, 69748); (69759, 69761); (69811,
  69814); (69817, 69818); (69821, 69821); (69826, 69826); (69837, 69837);
  (69888, 69890); (69927, 69931); (69933, 69940); (70003, 70003); (70016,
  70017); (70070, 70078); (70089, 70092); (70095, 70095); (70191, 70193);
  (70196, 70196); (70198, 70199); (70206, 70206); (70367, 70367); (70371,
  70378); (70400, 70401); (70459, 70460); (70464, 70464); (70502, 70508);
  (70512, 70516); (70712, 70719); (70722, 70724); (70726, 70726); (70750,
  70750); (70835, 70840); (70842, 70842); (70847, 70848); (70850, 70851);
  (71090, 71093); (71100, 71101); (71103, 71104); (71132, 71133); (71219,
  71226); (71229, 71229); (71231, 71232); (71339, 71339); (71341, 71341);
  (71344, 71349); (71351, 71351); (71453, 71455); (71458, 71461); (71463,
  71467); (71727, 71735); (71737, 71738); (71995, 71996); (71998, 71998);
  (72003, 72003); (72148, 72151); (72154, 72155); (72160, 72160); (72193,
  72202); (72243, 72248); (72251, 72254); (72263, 72263); (72273, 72278);
  (72281, 72283); (72330, 72342); (72344, 72345); (72752, 72758); (72760,
  72765); (72767, 72767); (72850, 72871); (72874, 72880); (72882, 72883);
  (72885, 72886); (73009, 73014); (73018, 73018); (73020, 73021); (73023,
  73029); (73031, 73031); (73104, 73105); (73109, 73109); (73111, 73111);
  (73459, 73460); (78896, 78904); (92912, 92916); (92976, 92982); (92992,
  92995); (94031, 94031); (94095, 94111); (94176, 94177); (94179, 94180);
  (110576, 110579); (110581, 110587); (110589, 110590); (113821, 113822);
  (113824, 113827); (118528, 118573); (118576, 118598); (119143, 119145);
  (119155, 119170); (119173, 119179); (119210, 119213); (119362, 119364);
  (121344, 121398); (121403, 121452); (121461, 121461); (121476, 121476);
  (121499, 121503); (121505, 121519); (122880, 122886); (122888, 122904);
  (122907, 122913); (122915, 122916); (122918, 122922); (123184, 123197);
  (123566, 123566); (123628, 123631); (125136, 125142); (125252, 125259);
  (127995, 127999); (917505, 917505); (917536, 917631); (917760, 917999) ].

(** The decimal digits (what the pattern class for a digit matches), as inclusive ranges in increasing order. *)
Definition decimal_ranges : list (N * N) := [
  (48, 57); (1632, 1641); (1776, 1785); (1984, 1993); (2406, 2415); (2534,
  2543); (2662, 2671); (2790, 2799); (2918, 2927); (3046, 3055); (3174, 3183);
  (3302, 3311); (3430, 3439); (3558, 3567); (3664, 3673); (3792, 3801); (3872,
  3881); (4160, 4169); (4240, 4249); (6112, 6121); (6160, 6169); (6470, 6479);
  (6608, 6617); (6784, 6793); (6800, 6809); (6992, 7001); (7088, 7097); (7232,
  7241); (7248, 7257); (42528, 42537); (43216, 43225); (43264, 43273); (43472,
  43481); (43504, 43513); (43600, 43609); (44016, 44025); (65296, 65305);
  (66720, 66729); (68912, 68921); (69734, 69743); (69872, 69881); (69942,
  69951); (70096, 70105); (70384, 70393); (70736, 70745); (70864, 70873);
  (71248, 71257); (71360, 71369); (71472, 71481); (71904, 71913); (72016,
  72025); (72784, 72793); (73040, 73049); (73120, 73129); (92768, 92777);
  (92864, 92873); (93008, 93017); (120782, 120831); (123200, 123209); (123632,
  123641); (125264, 125273); (130032, 130041) ].


Fixpoint lookup (table : list (N * list N)) (c : N) : option (list N) :=
  match table with
  | [] => None
  | (k, v) :: table' =>
      if c =? k then Some v
      else if c <? k then None
      else lookup table' c
  end.

Fixpoint in_ranges (ranges : list (N * N)) (c : N) : bool :=
  match ranges with
  | [] => false
  | (first, last) :: ranges' =>
      if c <? first then false
      else if c <=? last then true
      else in_ranges ranges' c
  end.

Definition to_lower_full (c : N) : list N := default [c] (lookup lower_table c).
Definition to_title_full (c : N) : list N := default [c] (lookup title_table c).
Definition is_cased (c : N) : bool := in_ranges cased_ranges c.
Definition is_case_ignorable (c : N) : bool := in_ranges case_ignorable_ranges c.
Definition is_decimal (c : N) : bool := in_ranges decimal_ranges c.

(** *** UTF-8 *)

Definition is_continuation (b : N) : bool := (128 <=? b) && (b <=? 191).

(** The code point at the head of the bytes [c0 :: r0] and the number of
    bytes it takes. Overlong forms, encoded surrogates and values above
    U+10FFFF are not well formed; a byte that starts no well-formed sequence
    is escaped to U+DC00 plus the byte. *)
Definition decode_head (c0 : ascii) (r0 : string) : N * nat :=
  let b0 := N_of_ascii c0 in
  let escaped := (56320 + b0, 1%nat) in
  if b0 <? 128 then (b0, 1%nat)
  else if (194 <=? b0) && (b0 <=? 223) then
    match r0 with
    | String c1 _ =>
        let b1 := N_of_ascii c1 in
        if is_continuation b1 then ((b0 - 192) * 64 + (b1 - 128), 2%nat)
        else escaped
    | _ => escaped
    end
  else if (224 <=? b0) && (b0 <=? 239) then
    match r0 with
    | String c1 (String c2 _) =>
        let b1 := N_of_ascii c1 in
        let b2 := N_of_ascii c2 in
        if ((if b0 =? 224 then 160 else 128) <=? b1)
           && (b1 <=? (if b0 =? 237 then 159 else 191))
           && is_continuation b2
        then ((b0 - 224) * 4096 + (b1 - 128) * 64 + (b2 - 128), 3%nat)
        else escaped
    | _ => escaped
    end
  else if (240 <=? b0) && (b0 <=? 244) then
    match r0 with
    | String c1 (String c2 (String c3 _)) =>
        let b1 := N_of_ascii c1 in
        let b2 := N_of_ascii c2 in
        let b3 := N_of_ascii c3 in
        if ((if b0 =? 240 then 144 else 128) <=? b1)
           && (b1 <=? (if b0 =? 244 then 143 else 191))
           && is_continuation b2 && is_continuation b3
        then ((b0 - 240) * 262144 + (b1 - 128) * 4096 + (b2 - 128) * 64
              + (b3 - 128), 4%nat)
        else escaped
    | _ => escaped
    end
  else escaped.

(** The code points of a text; [skip] counts the bytes of the current
    sequence still to be passed over. *)
Fixpoint decode_from (skip : nat) (s : string) : list N :=
  match s with
  | EmptyString => []
  | String c r =>
      match skip with
      | S k => decode_from k r
      | O =>
          let '(code_point, bytes) := decode_head c r in
          code_point :: decode_from (Nat.pred bytes) r
      end
  end.

Definition decode (s : string) : list N := decode_from 0 s.

(** The text is well-formed UTF-8: no byte has to be escaped. This is what
    reading a file in text mode requires of its bytes. *)
Definition well_formed (s : string) : bool :=
  forallb (fun c => negb ((56448 <=? c) && (c <=? 56575))) (decode s).

Definition encode_one (c : N) (rest : string) : string :=
  let byte n := ascii_of_N n in
  if c <? 128 then String (byte c) rest
  else if (56448 <=? c) && (c <=? 56575) then String (byte (c - 56320)) rest
  else if c <? 2048 then
    String (byte (192 + c / 64)) (String (byte (128 + c mod 64)) rest)
  else if c <? 65536 then
    String (byte (224 + c / 4096))
      (String (byte (128 + (c / 64) mod 64)) (String (byte (128 + c mod 64)) rest))
  else
    String (byte (240 + c / 262144))
      (String (byte (128 + (c / 4096) mod 64))
         (String (byte (128 + (c / 64) mod 64))
            (String (byte (128 + c mod 64)) rest))).

Definition encode (l : list N) : string := fold_right encode_one EmptyString l.

(** *** Lower case, [capitalize] and [title] on code points *)

(** The first code point of [l] that is not case-ignorable. *)
Fixpoint first_not_ignorable (l : list N) : option N :=
  match l with
  | [] => None
  | c :: l' => if is_case_ignorable c then first_not_ignorable l' else Some c
  end.

(** A capital sigma is in final position when a cased letter comes before
    it and none comes after it, case-ignorable code points apart;
    [before] holds the code points before it, the nearest first. *)
Definition final_sigma (before after : list N) : bool :=
  match first_not_ignorable before with
  | Some c =>
      is_cased c
      && match first_not_ignorable after with
         | Some c' => negb (is_cased c')
         | None => true
         end
  | None => false
  end.

Definition lower_one (before after : list N) (c : N) : list N :=
  if c =? 931 then [if final_sigma before after then 962 else 963]
  else to_lower_full c.

Fixpoint lower_from (before : list N) (l : list N) : list N :=
  match l with
  | [] => []
  | c :: l' => lower_one before l' c ++ lower_from (c :: before) l'
  end.

Definition capitalize (l : list N) : list N :=
  match l with
  | [] => []
  | c :: l' => to_title_full c ++ lower_from [c] l'
  end.

Fixpoint title_from (before : list N) (previous_is_cased : bool) (l : list N)
  : list N :=
  match l with
  | [] => []
  | c :: l' =>
      (if previous_is_cased then lower_one before l' c else to_title_full c)
      ++ title_from (c :: before) (is_cased c) l'
  end.

End Unicode.

(** ** Python's [str] methods used by the script *)

Module Str.

(** The ASCII digits, upper-case and lower-case letters, as the ranges
    [0-9], [A-Z] and [a-z] of a character class spell them. *)
Definition is_digit (c : ascii) : bool :=
  let n := nat_of_ascii c in Nat.leb 48 n && Nat.leb n 57.

Definition is_upper (c : ascii) : bool :=
  let n := nat_of_ascii c in Nat.leb 65 n && Nat.leb n 90.

Definition is_lower (c : ascii) : bool :=
  let n := nat_of_ascii c in Nat.leb 97 n && Nat.leb n 122.

Fixpoint map (f : ascii -> ascii) (s : string) : string :=
  match s with
  | EmptyString => EmptyString
  | String c r => String (f c) (map f r)
  end.

(** [s.lower()] *)
Definition lower (s : string) : string :=
  Unicode.encode (Unicode.lower_from [] (Unicode.decode s)).

(** [s.capitalize()]: the first code point in title case, every other one
    in lower case. *)
Definition capitalize (s : string) : string :=
  Unicode.encode (Unicode.capitalize (Unicode.decode s)).

(** [s.replace(old, new)] for one-character ASCII [old] and [new], the
    only form the script uses. *)
Definition replace (old new : ascii) (s : string) : string :=
  map (fun c => if Ascii.eqb c old then new else c) s.

Fixpoint drop (n : nat) (s : string) : string :=
  match n, s with
  | S k, String _ r => drop k r
  | _, _ => s
  end.

Fixpoint take (n : nat) (s : string) : string :=
  match n, s with
  | S k, String c r => String c (take k r)
  | _, _ => EmptyString
  end.

(** [s.rfind(c)]: the index of the last occurrence of [c]; [None] stands
    for Python's [-1]. *)
Fixpoint rfind (c : ascii) (s : string) : option nat :=
  match s with
  | EmptyString => None
  | String a r =>
      match rfind c r with
      | Some i => Some (S i)
      | None => if Ascii.eqb a c then Some 0 else None
      end
  end.

(** Every character of [s] satisfies [p]. *)
Fixpoint all (p : ascii -> bool) (s : string) : bool :=
  match s with
  | EmptyString => true
  | String a r => p a && all p r
  end.

(** [s.title()]: a cased code point that follows a cased one is put in
    lower case, any other code point in title case. *)
Definition title (s : string) : string :=
  Unicode.encode (Unicode.title_from [] false (Unicode.decode s)).

(** [s.isascii()] *)
Definition is_ascii_char (c : ascii) : bool := N.ltb (N_of_ascii c) 128.

Definition is_ascii (s : string) : bool := all is_ascii_char s.

End Str.

(** ** The three regular expressions of the script

    A pattern is embedded as a matcher: tried at the head of a string, it
    returns the length of the text the pattern consumes there, as Python's
    backtracking engine would choose it, or [None] when the pattern does not
    match at that position. None of the script's patterns matches the empty
    string. *)

Module Re.

Definition matcher := string -> option nat.

(** [[\-._]]: one character out of '-', '.', '_'. *)
Definition is_separator (c : ascii) : bool :=
  Ascii.eqb c "-" || Ascii.eqb c "." || Ascii.eqb c "_".

Definition separator : matcher := fun s =>
  match s with
  | String c _ => if is_separator c then Some 1 else None
  | EmptyString => None
  end.

(** [\d+\.]: a maximal run of digits followed by a dot. The greedy [\d+]
    takes the whole run; giving digits back cannot help, as the character
    after a shorter run is a digit and not a dot. A digit is any decimal
    digit of Unicode; [digits_from] counts the bytes of the run, [skip]
    being the bytes of the current digit still to be passed over. *)
Fixpoint digits_from (skip : nat) (s : string) : nat :=
  match s with
  | EmptyString => 0
  | String c r =>
      match skip with
      | S k => S (digits_from k r)
      | 0 =>
          let '(code_point, bytes) := Unicode.decode_head c r in
          if Unicode.is_decimal code_point
          then S (digits_from (Nat.pred bytes) r)
          else 0
      end
  end.

Definition digits (s : string) : nat := digits_from 0 s.

Definition ordinal : matcher := fun s =>
  match digits s with
  | 0 => None
  | S k =>
      match Str.drop (S k) s with
      | String "." _ => Some (S (S k))
      | _ => None
      end
  end.

(** [.*lit] at the head of [s]: [.] is any character but a newline, and
    the greedy star prefers the longest run. *)
Fixpoint dot_star_then (lit : string) (s : string) : option nat :=
  let here := if String.prefix lit s then Some (String.length lit) else None in
  match s with
  | EmptyString => here
  | String c r =>
      match (if Ascii.eqb c "010" then None else dot_star_then lit r) with
      | Some n => Some (S n)
      | None => here
      end
  end.

(** [<h1>.*</h1>] *)
Definition h1 : matcher := fun s =>
  if String.prefix "<h1>" s
  then option_map (Nat.add 4) (dot_star_then "</h1>" (Str.drop 4 s))
  else None.

(** [re.search(pattern, s)] as a truth value: the pattern matches at some
    position of [s]. *)
Fixpoint search (m : matcher) (s : string) : bool :=
  match m s with
  | Some _ => true
  | None =>
      match s with
      | EmptyString => false
      | String _ r => search m r
      end
  end.

(** [re.sub(pattern, repl, s)]: scanning left to right, each match is
    replaced by [repl] and the scan resumes after it; [skip] counts the
    characters of the current match still to be passed over. *)
Fixpoint sub_from (m : matcher) (repl : string) (skip : nat) (s : string)
  : string :=
  match s with
  | EmptyString => EmptyString
  | String c r =>
      match skip with
      | S k => sub_from m repl k r
      | 0 =>
          match m s with
          | Some (S k) => String.append repl (sub_from m repl k r)
          | _ => String c (sub_from m repl 0 r)
          end
      end
  end.

Definition sub (m : matcher) (repl : string) (s : string) : string :=
  sub_from m repl 0 s.

(** A literal pattern. *)
Definition literal (lit : string) : matcher := fun s =>
  if String.prefix lit s then Some (String.length lit) else None.

(** [[^a-z0-9]+]: a maximal run of characters that are neither lower-case
    letters nor digits. *)
Definition is_slug_char (c : ascii) : bool := Str.is_lower c || Str.is_digit c.

Fixpoint non_slug_run (s : string) : nat :=
  match s with
  | String c r => if is_slug_char c then 0 else S (non_slug_run r)
  | EmptyString => 0
  end.

Definition non_slug : matcher := fun s =>
  match non_slug_run s with
  | 0 => None
  | S k => Some (S k)
  end.

(** [(.*?)lit] at the head of [s]: the lazy star takes the shortest run of
    characters other than a newline that is followed by [lit]; the result
    is the text of the group. *)
Fixpoint lazy_until (lit : string) (s : string) : option string :=
  if String.prefix lit s then Some EmptyString
  else
    match s with
    | EmptyString => None
    | String c r =>
        if Ascii.eqb c "010" then None
        else option_map (String c) (lazy_until lit r)
    end.

(** [<title>(.*?)</title>] at the head of [s], giving group 1. *)
Definition title_tag (s : string) : option string :=
  if String.prefix "<title>" s then lazy_until "</title>" (Str.drop 7 s) else None.

(** [re.search(pattern, s)] for a pattern with one group: group 1 of the
    leftmost match. *)
Fixpoint search_group (m : string -> option string) (s : string) : option string :=
  match m s with
  | Some group => Some group
  | None =>
      match s with
      | EmptyString => None
      | String _ r => search_group m r
      end
  end.

End Re.

(** ** [pathlib.Path] *)

(** A path is its anchor (absolute or not) and its components below the
    anchor: [Path("a/b/c.html")] has parts [["a"; "b"; "c.html"]]. *)
Record Path := mkPath { Path_absolute : bool; Path_parts : list string }.

Global Instance Path_eq_dec : EqDecision Path.
Proof. solve_decision. Defined.

(** [p.name]: the last component, or the empty string for the anchor and
    for [Path(".")]. *)
Definition Path_name (p : Path) : string := List.last (Path_parts p) EmptyString.

(** [p.parent] *)
Definition Path_parent (p : Path) : Path :=
  mkPath (Path_absolute p) (List.removelast (Path_parts p)).

(** [p.suffix] and [p.stem] split the name at its last dot, unless that dot
    is the first or the last character of the name. *)
Definition Path_suffix (p : Path) : string :=
  let name := Path_name p in
  match Str.rfind "." name with
  | Some i =>
      if Nat.ltb 0 i && Nat.ltb i (String.length name - 1)
      then Str.drop i name else EmptyString
  | None => EmptyString
  end.

Definition Path_stem (p : Path) : string :=
  let name := Path_name p in
  match Str.rfind "." name with
  | Some i =>
      if Nat.ltb 0 i && Nat.ltb i (String.length name - 1)
      then Str.take i name else name
  | None => name
  end.

(** ** Identifier derivation and chapter grouping (body of [main]) *)

(** [lesson_slug = filepath.stem.lower().replace(" ", "-")] *)
Definition lesson_slug (filepath : Path) : string :=
  Str.replace " " "-" (Str.lower (Path_stem filepath)).

(** The three reassignments of [chapter_name], starting from the name of
    the file's parent folder. *)
Definition chapter_name (folder : string) : string :=
  let chapter_name := Re.sub Re.separator " " folder in
  let chapter_name := Re.sub Re.ordinal EmptyString chapter_name in
  Str.capitalize chapter_name.

Local Open Scope list_scope.

(** ** Exceptions and results *)

(** The exceptions the script can end with; [SystemExit] carries the
    status passed to [sys.exit]. *)
Inductive exn :=
| ValueError
| FileNotFoundError
| IsADirectoryError
| NotADirectoryError
| UnicodeDecodeError
| KeyError
| AttributeError
| SystemExit (status : Z).

Global Instance exn_eq_dec : EqDecision exn.
Proof. solve_decision. Defined.

(** What running a piece of the script gives: a value, a raised exception,
    or no answer within the given number of loop iterations ([Diverge],
    only the unbounded pagination loop can produce it). *)
Inductive result (A : Type) : Type :=
| Ok (a : A)
| Raise (e : exn)
| Diverge.
Arguments Ok {A} a.
Arguments Raise {A} e.
Arguments Diverge {A}.

Global Instance result_ret : MRet result := fun A a => Ok a.
Global Instance result_bind : MBind result := fun A B f m =>
  match m with
  | Ok a => f a
  | Raise e => Raise e
  | Diverge => Diverge
  end.

(** A [for] loop whose body may raise. *)
Fixpoint for_each {S A : Type} (body : S -> A -> result S) (s : S) (l : list A)
  : result S :=
  match l with
  | [] => Ok s
  | x :: l' => s' ← body s x; for_each body s' l'
  end.

Definition ERROR_NO_VALID_LESSON_FILES : Z := 1.
Definition ERROR_COURSE_NOT_FOUND : Z := 2.
Definition ERROR_CACHE_FILE_EMPTY : Z := 3.

(** ** Dataclasses

    Of the fields the API returns, the records keep those the script reads;
    the others are carried through untouched by the code. *)

Record Args := {
  course : string;
  lesson_files : list Path;
  overwrite : bool;
  mavenseed_url : string;
  email : string;
  password : string;
  list_courses : bool;
}.

Record Course := {
  Course_id : Z;
  Course_title : string;
  Course_slug : string;
}.

Record Chapter := {
  Chapter_id : Z;
  Chapter_course_id : Z;
  Chapter_title : string;
  Chapter_ordinal : Z;
}.

Record NewChapter := { NewChapter_title : string }.

Record NewLesson := { NewLesson_slug : string; NewLesson_filepath : Path }.

Record Lesson := {
  Lesson_id : Z;
  Lesson_lessonable_id : Z;
  Lesson_title : string;
  Lesson_slug : string;
  Lesson_content : string;
  Lesson_ordinal : Z;
}.

(** [Lesson.to_dict()]: a plain dict of every field but [content]. *)
Record LessonDict := {
  ld_id : Z;
  ld_lessonable_id : Z;
  ld_title : string;
  ld_slug : string;
  ld_ordinal : Z;
}.

Definition Lesson_to_dict (l : Lesson) : LessonDict :=
  {| ld_id := Lesson_id l; ld_lessonable_id := Lesson_lessonable_id l;
     ld_title := Lesson_title l; ld_slug := Lesson_slug l;
     ld_ordinal := Lesson_ordinal l |}.

(** The [Lesson] that [main] rebuilds from a cached dict, its content
    set to the empty string. *)
Definition Lesson_of_dict (d : LessonDict) : Lesson :=
  {| Lesson_id := ld_id d; Lesson_lessonable_id := ld_lessonable_id d;
     Lesson_title := ld_title d; Lesson_slug := ld_slug d;
     Lesson_content := EmptyString; Lesson_ordinal := ld_ordinal d |}.

(** [lesson.get(key)] on a [Lesson]. The dataclass declares its fields and
    [to_dict] only, so looking up the attribute [get] on an instance raises
    [AttributeError], whatever the key. *)
Definition Lesson_get (lesson : Lesson) (key : string) : result Z :=
  Raise AttributeError.

(** [Chapter.to_dict()] with the ["lessons"] entry [cache_all_courses]
    adds: the shape of a chapter in the cache file. *)
Record ChapterDict := {
  cd_id : Z;
  cd_course_id : Z;
  cd_title : string;
  cd_ordinal : Z;
  cd_lessons : list LessonDict;
}.

(** The three lists [main] builds. An entry of [lessons_to_update] is the
    one-key dict [{lesson_slug: id}]. *)
Record Plan := {
  chapters_to_create : list NewChapter;
  lessons_to_create : list NewLesson;
  lessons_to_update : list (string * Z);
}.

(** ** The world the script runs in *)

(** What a path leads to: a regular file with its bytes, or a directory.
    Every file is one the user who runs the script may read. *)
Inductive Node :=
| File (content : string)
| Directory.

Record World := {
  (** the local files the candidate paths point to *)
  fs : Path -> option Node;
  (** the parsed content of [.cache/courses.json], if the file exists *)
  cache_file : option (gmap string (list ChapterDict));
  (** the ["auth_token"] entry of the login response, if it has one *)
  api_login : string -> string -> option string;
  api_courses : list Course;
  api_course_chapters : Z -> list Chapter;
  (** the lessons listing, by page number *)
  api_lessons : nat -> list Lesson;
}.

(** ** [validate_lesson_files] *)

(** A proper ancestor of the path is a regular file, so that the path
    cannot be resolved. *)
Definition below_a_file (fs : Path -> option Node) (p : Path) : bool :=
  existsb
    (fun k =>
       match fs (mkPath (Path_absolute p) (take k (Path_parts p))) with
       | Some (File _) => true
       | _ => false
       end)
    (seq 1 (length (Path_parts p) - 1)).

(** [p.exists()] *)
Definition Path_exists (fs : Path -> option Node) (p : Path) : bool :=
  negb (below_a_file fs p)
  && match fs p with Some _ => true | None => false end.

(** [filepath.open()]: the open file, given by its bytes. *)
Definition Path_open (fs : Path -> option Node) (p : Path) : result string :=
  if below_a_file fs p then Raise NotADirectoryError
  else
    match fs p with
    | Some (File content) => Ok content
    | Some Directory => Raise IsADirectoryError
    | None => Raise FileNotFoundError
    end.

(** Reading in text mode turns every line ending into a newline. *)
Fixpoint universal_newlines (s : string) : string :=
  match s with
  | EmptyString => EmptyString
  | String "013" (String "010" r) => String "010" (universal_newlines r)
  | String "013" r => String "010" (universal_newlines r)
  | String c r => String c (universal_newlines r)
  end.

(** [f.read()] on a file opened in text mode, the encoding being UTF-8:
    bytes that are not well-formed raise [UnicodeDecodeError]. *)
Definition File_read (f : string) : result string :=
  if Unicode.well_formed f then Ok (universal_newlines f)
  else Raise UnicodeDecodeError.

(** The file is opened whatever [is_valid] is, and read only when
    [is_valid] holds: [and] does not evaluate its second operand
    otherwise. *)
Definition is_valid_file (fs : Path -> option Node) (filepath : Path)
  : result bool :=
  let is_valid :=
    Path_exists fs filepath
    && String.eqb (Str.lower (Path_suffix filepath)) ".html" in
  f ← Path_open fs filepath;
  if is_valid then text ← File_read f; mret (Re.search Re.h1 text)
  else mret false.

Fixpoint validate_lesson_files (fs : Path -> option Node) (files : list Path)
  : result (list Path) :=
  match files with
  | [] => Ok []
  | filepath :: rest =>
      keep ← is_valid_file fs filepath;
      valid ← validate_lesson_files fs rest;
      mret (if keep : bool then filepath :: valid else valid)
  end.

(** ** [cache_all_courses] *)

(** One resumption of the generator [get_all_lessons] at page [page]: it
    requests that page, increments the counter, and either stops (empty
    page, [None]) or yields the page. *)
Definition get_all_lessons_next (api : nat -> list Lesson) (page : nat)
  : nat * option (list Lesson) :=
  let lessons := api page in
  let page := page + 1 in
  match lessons with
  | [] => (page, None)
  | _ :: _ => (page, Some lessons)
  end.

(** [list(get_all_lessons(...))] from page [page] on, within [fuel]
    resumptions: the page numbers requested, in order, and the pages
    yielded. *)
Fixpoint get_all_lessons_from (fuel : nat) (api : nat -> list Lesson)
  (page : nat) : option (list nat * list (list Lesson)) :=
  match fuel with
  | 0 => None
  | S fuel =>
      match get_all_lessons_next api page with
      | (_, None) => Some ([page], [])
      | (page', Some lessons) =>
          match get_all_lessons_from fuel api page' with
          | Some (requested, yielded) => Some (page :: requested, lessons :: yielded)
          | None => None
          end
      end
  end.

Definition get_all_lessons (fuel : nat) (api : nat -> list Lesson)
  : option (list nat * list (list Lesson)) :=
  get_all_lessons_from fuel api 0.

Definition chapter_as_dict (lessons : list Lesson) (chapter : Chapter)
  : ChapterDict :=
  {| cd_id := Chapter_id chapter; cd_course_id := Chapter_course_id chapter;
     cd_title := Chapter_title chapter; cd_ordinal := Chapter_ordinal chapter;
     cd_lessons :=
       List.map Lesson_to_dict
         (List.filter
            (fun lesson => Z.eqb (Lesson_lessonable_id lesson) (Chapter_id chapter))
            lessons) |}.

(** The dict written to the cache file (and read back by [main]). *)
Definition cache_all_courses (fuel : nat) (w : World)
  : result (gmap string (list ChapterDict)) :=
  match get_all_lessons fuel (api_lessons w) with
  | None => Diverge
  | Some (_, lessons_lists) =>
      let lessons := List.concat lessons_lists in
      Ok (List.fold_left
            (fun output course =>
               <[Course_title course :=
                   List.map (chapter_as_dict lessons)
                     (api_course_chapters w (Course_id course))]> output)
            (api_courses w) ∅)
  end.

(** ** [main] *)

Definition get_auth_token (w : World) (email password : string) : result string :=
  match api_login w email password with
  | Some auth_token => Ok auth_token
  | None => Raise KeyError
  end.

Definition get_all_courses (w : World) : list Course := api_courses w.

(** [next(course for course in courses if args.course in (course.title,
    course.slug))], with the [sys.exit] of the [except StopIteration]
    branch. *)
Definition course_matches (wanted : string) (course : Course) : bool :=
  String.eqb wanted (Course_title course) || String.eqb wanted (Course_slug course).

Definition course_to_update (wanted : string) (courses : list Course)
  : result Course :=
  match List.find (course_matches wanted) courses with
  | Some course => Ok course
  | None => Raise (SystemExit ERROR_COURSE_NOT_FOUND)
  end.

(** The lessons of every chapter of the course, as [Lesson] instances. *)
Definition lessons_in_course (course_chapters : list ChapterDict) : list Lesson :=
  List.flat_map (fun chapter => List.map Lesson_of_dict (cd_lessons chapter))
    course_chapters.

(** [lessons_map] is a dict from chapter name to a list of (slug, path)
    pairs; a Python dict iterates in insertion order, so it is kept as an
    association list with one entry per key. *)
Definition dict (V : Type) := list (string * V).

Fixpoint dict_get {V} (d : dict V) (k : string) : option V :=
  match d with
  | [] => None
  | (k', v) :: d' => if String.eqb k' k then Some v else dict_get d' k
  end.

(** [d[k] = v]: overwrites in place, or adds the key at the end. *)
Fixpoint dict_set {V} (d : dict V) (k : string) (v : V) : dict V :=
  match d with
  | [] => [(k, v)]
  | (k', v') :: d' =>
      if String.eqb k' k then (k, v) :: d' else (k', v') :: dict_set d' k v
  end.

(** One iteration of the loop over [args.lesson_files] that fills
    [lessons_map]. *)
Definition lessons_map_add (lessons_map : dict (list (string * Path)))
  (filepath : Path) : dict (list (string * Path)) :=
  let chapter_name := chapter_name (Path_name (Path_parent filepath)) in
  let lessons_map :=
    match dict_get lessons_map chapter_name with
    | None | Some [] => dict_set lessons_map chapter_name []
    | Some (_ :: _) => lessons_map
    end in
  let lesson_slug := lesson_slug filepath in
  match dict_get lessons_map chapter_name with
  | Some entries =>
      dict_set lessons_map chapter_name (entries ++ [(lesson_slug, filepath)])
  | None => lessons_map
  end.

Definition lessons_map (lesson_files : list Path) : dict (list (string * Path)) :=
  List.fold_left lessons_map_add lesson_files [].

(** The inner loop: one (slug, path) pair of a chapter group. *)
Definition reconcile_lesson (lessons_in_course : list Lesson) (plan : Plan)
  (entry : string * Path) : result Plan :=
  let '(lesson_slug, filepath) := entry in
  match List.find (fun l => String.eqb (Lesson_slug l) lesson_slug) lessons_in_course with
  | None =>
      Ok {| chapters_to_create := chapters_to_create plan;
            lessons_to_create :=
              lessons_to_create plan
              ++ [{| NewLesson_slug := lesson_slug; NewLesson_filepath := filepath |}];
            lessons_to_update := lessons_to_update plan |}
  | Some lesson =>
      id ← Lesson_get lesson "id";
      Ok {| chapters_to_create := chapters_to_create plan;
            lessons_to_create := lessons_to_create plan;
            lessons_to_update := lessons_to_update plan ++ [(lesson_slug, id)] |}
  end.

(** The outer loop: one chapter group. *)
Definition reconcile_chapter (course_chapters : list ChapterDict)
  (lessons_in_course : list Lesson) (plan : Plan)
  (group : string * list (string * Path)) : result Plan :=
  let '(chapter_name, entries) := group in
  let plan :=
    match List.find (fun c => String.eqb (cd_title c) chapter_name) course_chapters with
    | None =>
        {| chapters_to_create :=
             chapters_to_create plan ++ [{| NewChapter_title := chapter_name |}];
           lessons_to_create := lessons_to_create plan;
           lessons_to_update := lessons_to_update plan |}
    | Some _ => plan
    end in
  for_each (reconcile_lesson lessons_in_course) plan entries.

Definition empty_plan : Plan :=
  {| chapters_to_create := []; lessons_to_create := []; lessons_to_update := [] |}.

(** Everything [main] does after course resolution, from the chapters the
    cache holds for the course and the paths given on the command line. *)
Definition reconcile (course_chapters : list ChapterDict)
  (lesson_files : list Path) : result Plan :=
  for_each (reconcile_chapter course_chapters (lessons_in_course course_chapters))
    empty_plan (lessons_map lesson_files).

(** The cache file is built when it does not exist, then read. *)
Definition load_cached_data (fuel : nat) (w : World)
  : result (gmap string (list ChapterDict)) :=
  match cache_file w with
  | Some data => Ok data
  | None => cache_all_courses fuel w
  end.

Definition main (fuel : nat) (w : World) (args : Args) : result Plan :=
  if String.eqb (mavenseed_url args) EmptyString then Raise ValueError else
  valid_files ← validate_lesson_files (fs w) (lesson_files args);
  if Nat.eqb (List.length valid_files) 0
  then Raise (SystemExit ERROR_NO_VALID_LESSON_FILES) else
  auth_token ← get_auth_token w (email args) (password args);
  cached_data ← load_cached_data fuel w;
  if decide (cached_data = ∅)
  then Raise (SystemExit ERROR_CACHE_FILE_EMPTY) else
  let courses := get_all_courses w in
  if list_courses args then Raise (SystemExit 0) else
  course_to_update ← course_to_update (course args) courses;
  course_chapters ←
    match cached_data !! Course_title course_to_update with
    | Some chapters => Ok chapters
    | None => Raise KeyError
    end;
  reconcile course_chapters (lesson_files args).

(** ** Methods of the dataclasses and the report of [main] *)

(** [NewChapter.get_slug] *)
Definition NewChapter_get_slug (self : NewChapter) : string :=
  Re.sub Re.non_slug "-" (Str.lower (NewChapter_title self)).

(** [NewLesson.get_file_content] *)
Definition NewLesson_get_file_content (fs : Path -> option Node) (self : NewLesson)
  : result string :=
  f ← Path_open fs (NewLesson_filepath self);
  File_read f.

(** [NewLesson.get_title] *)
Definition NewLesson_get_title (self : NewLesson) (content : string) : string :=
  match Re.search_group Re.title_tag content with
  | Some title => title
  | None => Str.title (Str.replace "-" " " (NewLesson_slug self))
  end.

Global Instance Path_countable : Countable Path :=
  inj_countable' (fun p => (Path_absolute p, Path_parts p))
    (fun ap => mkPath ap.1 ap.2) (fun p => match p with mkPath _ _ => eq_refl end).

(** The paths [main] prints as "not a valid lesson file", once
    [validate_lesson_files] has returned [valid_files]: the set
    [invalid_files], built only when the two lengths differ. *)
Definition invalid_files (lesson_files valid_files : list Path) : gset Path :=
  if Nat.eqb (List.length valid_files) (List.length lesson_files) then ∅
  else list_to_set
         (List.filter (fun filepath => bool_decide (filepath ∉ valid_files))
            lesson_files).

(** ** Vocabulary of the statements *)

(** What [re.sub] with the separator class and a space does to one
    character. *)
Definition separator_to_space (c : ascii) : ascii :=
  if Re.is_separator c then " "%char else c.

(** No character of [s] is a separator. *)
Definition separator_free (s : string) : bool :=
  Str.all (fun c => negb (Re.is_separator c)) s.

(** The (slug, path) pair and the [NewLesson] a file gives rise to. *)
Definition lesson_entry (filepath : Path) : string * Path :=
  (lesson_slug filepath, filepath).

Definition new_lesson (entry : string * Path) : NewLesson :=
  {| NewLesson_slug := entry.1; NewLesson_filepath := entry.2 |}.

(** The remote lesson a slug is matched with: the first with that slug. *)
Definition remote_lesson (lessons : list Lesson) (slug : string) : option Lesson :=
  List.find (fun l => String.eqb (Lesson_slug l) slug) lessons.

(** The remote chapter a chapter name is matched with. *)
Definition remote_chapter (course_chapters : list ChapterDict) (name : string)
  : option ChapterDict :=
  List.find (fun c => String.eqb (cd_title c) name) course_chapters.

(** The chapter name has no remote chapter of that title. *)
Definition chapter_missing (course_chapters : list ChapterDict) (name : string)
  : bool :=
  match remote_chapter course_chapters name with
  | None => true
  | Some _ => false
  end.

(** A candidate that [validate_lesson_files] keeps: a regular file with
    the [.html] extension, in any case, whose text has a match of the
    heading pattern. *)
Definition lesson_file_ok (fs : Path -> option Node) (filepath : Path) : bool :=
  match fs filepath with
  | Some (File content) =>
      String.eqb (Str.lower (Path_suffix filepath)) ".html"
      && Unicode.well_formed content
      && Re.search Re.h1 (universal_newlines content)
  | _ => false
  end.

(** A candidate that opens and, if it is read, decodes: a regular file
    that is reachable and, when its extension is [.html] in any case, holds
    well-formed text. *)
Definition opens_and_reads (fs : Path -> option Node) (filepath : Path) : Prop :=
  below_a_file fs filepath = false
  /\ exists content,
       fs filepath = Some (File content)
       /\ (String.eqb (Str.lower (Path_suffix filepath)) ".html" = true ->
           Unicode.well_formed content = true).

(** The ASCII case mapping, character by character: what [lower],
    [capitalize] and [title] come to on ASCII text. *)
Module AsciiCase.

Definition to_lower (c : ascii) : ascii :=
  if Str.is_upper c then ascii_of_nat (nat_of_ascii c + 32) else c.

Definition to_upper (c : ascii) : ascii :=
  if Str.is_lower c then ascii_of_nat (nat_of_ascii c - 32) else c.

Definition is_alpha (c : ascii) : bool := Str.is_upper c || Str.is_lower c.

Definition lower (s : string) : string := Str.map to_lower s.

Definition capitalize (s : string) : string :=
  match s with
  | EmptyString => EmptyString
  | String c r => String (to_upper c) (lower r)
  end.

Fixpoint title_from (previous_is_cased : bool) (s : string) : string :=
  match s with
  | EmptyString => EmptyString
  | String c r =>
      String (if previous_is_cased then to_lower c else to_upper c)
        (title_from (is_alpha c) r)
  end.

Definition title (s : string) : string := title_from false s.

End AsciiCase.

(** The run of [main] gets past validation and login and loads
    [cached_data] from the cache file. *)
Definition loads_cache (fuel : nat) (w : World) (args : Args)
  (cached_data : gmap string (list ChapterDict)) : Prop :=
  mavenseed_url args <> EmptyString
  /\ (exists valid_files,
        validate_lesson_files (fs w) (lesson_files args) = Ok valid_files
        /\ valid_files <> [])
  /\ is_Some (api_login w (email args) (password args))
  /\ load_cached_data fuel w = Ok cached_data.

(** The run of [main] resolves the course and reaches the reconciliation
    loops with the chapters [course_chapters] of the cache. *)
Definition reaches_reconciliation (fuel : nat) (w : World) (args : Args)
  (course_chapters : list ChapterDict) : Prop :=
  exists cached_data course_to_update,
    loads_cache fuel w args cached_data
    /\ cached_data <> ∅
    /\ list_courses args = false
    /\ List.find (course_matches (course args)) (api_courses w)
       = Some course_to_update
    /\ cached_data !! Course_title course_to_update = Some course_chapters.

(** The three fatal conditions of a run, the situation in which each one
    arises, and the status the script exits with. *)
Inductive fatal := NoValidLessonFiles | CourseNotFound | CacheFileEmpty.

Definition arises (condition : fatal) (fuel : nat) (w : World) (args : Args)
  : Prop :=
  match condition with
  | NoValidLessonFiles =>
      mavenseed_url args <> EmptyString
      /\ validate_lesson_files (fs w) (lesson_files args) = Ok []
  | CacheFileEmpty =>
      loads_cache fuel w args ∅ /\ cache_file w = Some ∅
  | CourseNotFound =>
      exists cached_data,
        loads_cache fuel w args cached_data
        /\ cached_data <> ∅
        /\ list_courses args = false
        /\ Forall (fun c => course args <> Course_title c
                            /\ course args <> Course_slug c) (api_courses w)
  end.

Definition exit_status (condition : fatal) : Z :=
  match condition with
  | NoValidLessonFiles => ERROR_NO_VALID_LESSON_FILES
  | CourseNotFound => ERROR_COURSE_NOT_FOUND
  | CacheFileEmpty => ERROR_CACHE_FILE_EMPTY
  end.

(** What slug derivation does to one character of the stem. *)
Definition slug_char (c : ascii) : ascii :=
  if Ascii.eqb c " " then "-"%char else AsciiCase.to_lower c.

(** [course] is the first of [courses] whose title or slug is [wanted]. *)
Definition first_match (wanted : string) (courses : list Course) (course : Course)
  : Prop :=
  exists before after,
    courses = before ++ course :: after
    /\ (wanted = Course_title course \/ wanted = Course_slug course)
    /\ Forall (fun c => wanted <> Course_title c /\ wanted <> Course_slug c) before.

(** ** A small school, for the examples

    One course, "Intro" with the URL slug "intro-101"; under the folder
    [01-basics], two lessons, a text file, an image and a page saved in
    Latin-1; a path that is not on disk and a path below a file. *)
Module Scenario.

Definition a_html : Path := mkPath false ["01-basics"; "a.html"].
Definition intro_to_x_html : Path := mkPath false ["01-basics"; "intro-to-x.html"].
Definition notes_txt : Path := mkPath false ["01-basics"; "notes.txt"].
Definition missing_html : Path := mkPath false ["01-basics"; "missing.html"].
Definition a_html_elsewhere : Path := mkPath true ["home"; "02_more"; "a.html"].
Definition intro_to_x_spaced : Path := mkPath false ["01-basics"; "Intro To X.html"].
Definition intro_to_x_spaced_elsewhere : Path :=
  mkPath true ["home"; "02_more"; "Intro To X.html"].
Definition basics : Path := mkPath false ["01-basics"].
Definition logo_png : Path := mkPath false ["01-basics"; "logo.png"].
Definition latin1_html : Path := mkPath false ["01-basics"; "latin1.html"].

(** The first bytes of a PNG image, and a heading whose e with an acute
    accent is the single byte 233 of Latin-1: neither is well-formed
    UTF-8. *)
Definition png_bytes : string := String "137" "PNG".
Definition latin1_heading : string :=
  String.append "<h1>Caf" (String "233" "</h1>").

Definition disk (p : Path) : option Node :=
  if decide (p = a_html) then Some (File "<h1>A</h1>")
  else if decide (p = intro_to_x_html) then Some (File "<h1>Intro to X</h1>")
  else if decide (p = notes_txt) then Some (File "plain notes")
  else if decide (p = basics) then Some Directory
  else if decide (p = logo_png) then Some (File png_bytes)
  else if decide (p = latin1_html) then Some (File latin1_heading)
  else None.

Definition intro : Course :=
  {| Course_id := 1; Course_title := "Intro"; Course_slug := "intro-101" |}.

(** A chapter with zero lessons. *)
Definition empty_chapter : ChapterDict :=
  {| cd_id := 10; cd_course_id := 1; cd_title := "Getting started";
     cd_ordinal := 0; cd_lessons := [] |}.

(** A chapter holding the remote lesson with slug [intro-to-x], id 7. *)
Definition lesson_x : LessonDict :=
  {| ld_id := 7; ld_lessonable_id := 11; ld_title := "Intro to X";
     ld_slug := "intro-to-x"; ld_ordinal := 0 |}.

Definition chapter_with_x : ChapterDict :=
  {| cd_id := 11; cd_course_id := 1; cd_title := "01 basics";
     cd_ordinal := 1; cd_lessons := [lesson_x] |}.

Definition world (cache : gmap string (list ChapterDict)) : World :=
  {| fs := disk;
     cache_file := Some cache;
     api_login := fun _ _ => Some "token";
     api_courses := [intro];
     api_course_chapters := fun _ => [];
     api_lessons := fun _ => [] |}.

Definition args (wanted : string) (files : list Path) : Args :=
  {| course := wanted; lesson_files := files; overwrite := true;
     mavenseed_url := "https://school.example"; email := "me@example.org";
     password := "secret"; list_courses := false |}.

(** A lessons listing of three pages of one lesson each. *)
Definition three_pages (page : nat) : list Lesson :=
  if Nat.ltb page 3
  then [Lesson_of_dict
          {| ld_id := Z.of_nat page; ld_lessonable_id := 11; ld_title := "Lesson";
             ld_slug := "lesson"; ld_ordinal := Z.of_nat page |}]
  else [].

(** The chapter the three pages of lessons belong to, as the API lists it. *)
Definition remote_chapter_11 : Chapter :=
  {| Chapter_id := 11; Chapter_course_id := 1; Chapter_title := "01 basics";
     Chapter_ordinal := 1 |}.

(** The same school before any run: no cache file yet. *)
Definition fresh_world (courses : list Course) (pages : nat -> list Lesson) : World :=
  {| fs := disk;
     cache_file := None;
     api_login := fun _ _ => Some "token";
     api_courses := courses;
     api_course_chapters := fun _ => [remote_chapter_11];
     api_lessons := pages |}.

End Scenario.

(** The candidate is a regular file on disk. *)
Definition regular_file (fs : Path -> option Node) (filepath : Path) : Prop :=
  exists content, fs filepath = Some (File content).

(** A string of lower-case letters, digits and hyphens in which no two
    hyphens are adjacent; [after_hyphen] tells whether the character before
    was a hyphen. *)
Fixpoint slug_shaped (after_hyphen : bool) (s : string) : bool :=
  match s with
  | EmptyString => true
  | String c r =>
      if Ascii.eqb c "-" then negb after_hyphen && slug_shaped true r
      else Re.is_slug_char c && slug_shaped false r
  end.

(** The chapter name of the group a file is put in. *)
Definition chapter_of (filepath : Path) : string :=
  chapter_name (Path_name (Path_parent filepath)).

(** [NewChapter.get_slug] read character by character: a character of
    the slug alphabet is kept, a run of other characters gives one hyphen;
    [in_run] tells whether the hyphen of the current run is already out. *)
Fixpoint squeeze (in_run : bool) (s : string) : string :=
  match s with
  | EmptyString => EmptyString
  | String c r =>
      if Re.is_slug_char c then String c (squeeze false r)
      else if in_run then squeeze true r
      else String "-" (squeeze true r)
  end.

(** What the humanized title does to a hyphen. *)
Definition hyphen_to_space (c : ascii) : ascii :=
  if Ascii.eqb c "-" then " "%char else c.

(** The listed files that go to the group of the chapter [name], in the
    order of the command line. *)
Definition files_of_chapter (lesson_files : list Path) (name : string) : list Path :=
  List.filter (fun filepath => String.eqb (chapter_of filepath) name) lesson_files.

(** A fetched lesson as reconciliation sees it after the cache round
    trip: every field but the content, which is emptied. *)
Definition without_content (l : Lesson) : Lesson :=
  {| Lesson_id := Lesson_id l; Lesson_lessonable_id := Lesson_lessonable_id l;
     Lesson_title := Lesson_title l; Lesson_slug := Lesson_slug l;
     Lesson_content := EmptyString; Lesson_ordinal := Lesson_ordinal l |}.

(** The chapters cached for a course, from the lessons fetched. *)
Definition cached_chapters (w : World) (lessons : list Lesson) (c : Course)
  : list ChapterDict :=
  chapter_as_dict lessons <$> api_course_chapters w (Course_id c).

(** * Properties *)

(** ** Characters and strings *)

Section StrFacts.

Local Ltac by_cases_on c :=
  destruct c as [[] [] [] [] [] [] [] []]; vm_compute; try reflexivity;
  try discriminate; try tauto.



Lemma is_separator_to_lower c :
  Re.is_separator (AsciiCase.to_lower c) = Re.is_separator c.
Proof. by_cases_on c. Qed.

Lemma is_separator_to_upper c :
  Re.is_separator (AsciiCase.to_upper c) = Re.is_separator c.
Proof. by_cases_on c. Qed.

Lemma is_separator_dot c : Re.is_separator c = false -> c <> "."%char.
Proof. intros H ->. discriminate H. Qed.



Lemma map_map f g s : Str.map f (Str.map g s) = Str.map (fun c => f (g c)) s.
Proof. induction s as [|c r IH]; simpl; congruence. Qed.

Lemma all_map p f s :
  (forall c, p (f c) = true) -> Str.all p (Str.map f s) = true.
Proof.
  intros H. induction s as [|c r IH]; simpl; [reflexivity|].
  rewrite H, IH. reflexivity.
Qed.

Lemma all_map_preserved p f s :
  (forall c, p c = true -> p (f c) = true) ->
  Str.all p s = true -> Str.all p (Str.map f s) = true.
Proof.
  intros H. induction s as [|c r IH]; simpl; [reflexivity|].
  intros [Hc Hr]%andb_prop. rewrite (H c Hc), (IH Hr). reflexivity.
Qed.

Lemma all_drop p n s : Str.all p s = true -> Str.all p (Str.drop n s) = true.
Proof.
  revert s. induction n as [|n IH]; intros [|c r]; simpl; auto.
  intros [_ Hr]%andb_prop. auto.
Qed.



Lemma length_map f s : String.length (Str.map f s) = String.length s.
Proof. induction s as [|c r IH]; simpl; congruence. Qed.

End StrFacts.

(** ** ASCII text

    On text made of ASCII characters only, the code points are the bytes
    and the case mappings of Unicode are the ASCII ones. *)

Section AsciiText.

Lemma ascii_char_facts a :
  Str.is_ascii_char a = true ->
  (forall r, Unicode.decode_head a r = (N_of_ascii a, 1))
  /\ (forall rest, Unicode.encode_one (N_of_ascii a) rest = String a rest)
  /\ N.eqb (N_of_ascii a) 931 = false
  /\ Unicode.to_lower_full (N_of_ascii a) = [N_of_ascii (AsciiCase.to_lower a)]
  /\ Unicode.to_title_full (N_of_ascii a) = [N_of_ascii (AsciiCase.to_upper a)]
  /\ Unicode.is_cased (N_of_ascii a) = AsciiCase.is_alpha a
  /\ Unicode.is_decimal (N_of_ascii a) = Str.is_digit a
  /\ Str.is_ascii_char (AsciiCase.to_lower a) = true
  /\ Str.is_ascii_char (AsciiCase.to_upper a) = true.
Proof.
  destruct a as [[] [] [] [] [] [] [] []]; intros H; try discriminate H;
    vm_compute; repeat split; intros; reflexivity.
Qed.

Lemma decode_ascii_cons a r :
  Str.is_ascii_char a = true ->
  Unicode.decode (String a r) = N_of_ascii a :: Unicode.decode r.
Proof.
  intros (Hhead & _)%ascii_char_facts. unfold Unicode.decode.
  cbn [Unicode.decode_from]. by rewrite Hhead.
Qed.

Lemma lower_from_ascii before s :
  Str.is_ascii s = true ->
  Unicode.encode (Unicode.lower_from before (Unicode.decode s)) = AsciiCase.lower s.
Proof.
  revert before. induction s as [|a r IH]; intros before; [done|].
  intros [Ha Hr]%andb_prop. rewrite (decode_ascii_cons _ _ Ha).
  pose proof (ascii_char_facts _ Ha) as (_ & _ & Hsigma & Hlower & _ & _ & _ & Hl & _).
  cbn [Unicode.lower_from]. unfold Unicode.lower_one. rewrite Hsigma, Hlower.
  cbn [app Unicode.encode fold_right]. fold (Unicode.encode
    (Unicode.lower_from (N_of_ascii a :: before) (Unicode.decode r))).
  rewrite (IH _ Hr).
  by rewrite (proj1 (proj2 (ascii_char_facts _ Hl))).
Qed.

Lemma lower_ascii s : Str.is_ascii s = true -> Str.lower s = AsciiCase.lower s.
Proof. apply lower_from_ascii. Qed.

Lemma capitalize_ascii s :
  Str.is_ascii s = true -> Str.capitalize s = AsciiCase.capitalize s.
Proof.
  destruct s as [|a r]; [done|]. intros [Ha Hr]%andb_prop.
  unfold Str.capitalize. rewrite (decode_ascii_cons _ _ Ha).
  pose proof (ascii_char_facts _ Ha) as (_ & _ & _ & _ & Htitle & _ & _ & _ & Hu).
  cbn [Unicode.capitalize]. rewrite Htitle.
  cbn [app Unicode.encode fold_right]. fold (Unicode.encode
    (Unicode.lower_from [N_of_ascii a] (Unicode.decode r))).
  rewrite (lower_from_ascii _ _ Hr).
  by rewrite (proj1 (proj2 (ascii_char_facts _ Hu))).
Qed.

Lemma title_from_ascii before previous_is_cased s :
  Str.is_ascii s = true ->
  Unicode.encode (Unicode.title_from before previous_is_cased (Unicode.decode s))
  = AsciiCase.title_from previous_is_cased s.
Proof.
  revert before previous_is_cased.
  induction s as [|a r IH]; intros before previous_is_cased; [done|].
  intros [Ha Hr]%andb_prop. rewrite (decode_ascii_cons _ _ Ha).
  pose proof (ascii_char_facts _ Ha)
    as (_ & _ & Hsigma & Hlower & Htitle & Hcased & _ & Hl & Hu).
  cbn [Unicode.title_from AsciiCase.title_from]. unfold Unicode.lower_one.
  rewrite Hsigma, Hlower, Htitle, Hcased.
  destruct previous_is_cased; cbn [app Unicode.encode fold_right];
    fold (Unicode.encode
            (Unicode.title_from (N_of_ascii a :: before) (AsciiCase.is_alpha a)
               (Unicode.decode r)));
    rewrite (IH _ _ Hr).
  - by rewrite (proj1 (proj2 (ascii_char_facts _ Hl))).
  - by rewrite (proj1 (proj2 (ascii_char_facts _ Hu))).
Qed.

Lemma title_ascii s : Str.is_ascii s = true -> Str.title s = AsciiCase.title s.
Proof. apply title_from_ascii. Qed.

Lemma is_ascii_map f s :
  (forall c, Str.is_ascii_char c = true -> Str.is_ascii_char (f c) = true) ->
  Str.is_ascii s = true -> Str.is_ascii (Str.map f s) = true.
Proof. apply all_map_preserved. Qed.



End AsciiText.

(** ** The two substitutions of chapter grouping *)

Section ReFacts.

Lemma sub_separator s :
  Re.sub Re.separator " " s = Str.map separator_to_space s.
Proof.
  unfold Re.sub. induction s as [|c r IH]; [reflexivity|].
  cbn [Re.sub_from Re.separator Str.map]. unfold separator_to_space at 1.
  destruct (Re.is_separator c); rewrite IH; reflexivity.
Qed.

Lemma separator_free_map_space s :
  separator_free (Str.map separator_to_space s) = true.
Proof.
  apply all_map. intros c. unfold separator_to_space.
  destruct (Re.is_separator c) eqn:E; [reflexivity|]. rewrite E. reflexivity.
Qed.


(** [\d+\.] needs a dot to match. *)
Lemma ordinal_needs_dot s :
  separator_free s = true -> Re.ordinal s = None.
Proof.
  intros H. unfold Re.ordinal. destruct (Re.digits s) as [|k]; [reflexivity|].
  pose proof (all_drop _ (S k) s H) as Hd.
  destruct (Str.drop (S k) s) as [|c r]; [reflexivity|].
  apply andb_prop in Hd as [Hc _].
  destruct c as [[] [] [] [] [] [] [] []]; try reflexivity. discriminate Hc.
Qed.

Lemma sub_ordinal_separator_free repl s :
  separator_free s = true -> Re.sub Re.ordinal repl s = s.
Proof.
  unfold Re.sub. induction s as [|c r IH]; [reflexivity|].
  intros H. cbn [Re.sub_from]. rewrite (ordinal_needs_dot _ H).
  apply andb_prop in H as [_ Hr]. rewrite (IH Hr). reflexivity.
Qed.

Lemma separator_free_capitalize s :
  separator_free s = true -> separator_free (AsciiCase.capitalize s) = true.
Proof.
  destruct s as [|c r]; [reflexivity|]. unfold separator_free. simpl.
  intros [Hc Hr]%andb_prop. rewrite is_separator_to_upper, Hc. simpl.
  apply all_map_preserved; [|exact Hr].
  intros a Ha. rewrite is_separator_to_lower. exact Ha.
Qed.

(** A pattern that matches nowhere in [s] leaves [s] as it is. *)
Lemma sub_no_match m repl s :
  Re.search m s = false -> Re.sub m repl s = s.
Proof.
  unfold Re.sub. induction s as [|c r IH]; [reflexivity|].
  cbn [Re.search Re.sub_from]. destruct (m (String c r)); [discriminate|].
  intros H. by rewrite (IH H).
Qed.

(** The second substitution of [chapter_name] never finds a match: the
    first one has already turned every dot into a space. *)
Lemma chapter_name_eq folder :
  chapter_name folder = Str.capitalize (Str.map separator_to_space folder).
Proof.
  unfold chapter_name. rewrite sub_separator.
  rewrite sub_ordinal_separator_free by apply separator_free_map_space.
  reflexivity.
Qed.

Lemma is_ascii_separator_to_space folder :
  Str.is_ascii folder = true ->
  Str.is_ascii (Str.map separator_to_space folder) = true.
Proof.
  apply is_ascii_map. intros c Hc. unfold separator_to_space.
  by destruct (Re.is_separator c).
Qed.

(** On an ASCII folder name, the chapter name is the ASCII one. *)
Lemma chapter_name_ascii folder :
  Str.is_ascii folder = true ->
  chapter_name folder = AsciiCase.capitalize (Str.map separator_to_space folder).
Proof.
  intros H. rewrite chapter_name_eq.
  by apply capitalize_ascii, is_ascii_separator_to_space.
Qed.

Lemma chapter_name_separator_free folder :
  Str.is_ascii folder = true ->
  separator_free (chapter_name folder) = true.
Proof.
  intros H. rewrite (chapter_name_ascii _ H).
  apply separator_free_capitalize, separator_free_map_space.
Qed.


End ReFacts.

Example sub_ordinal_example :
  Re.sub Re.ordinal EmptyString "a12.b.3.4x5" = "ab.4x5".
Proof. vm_compute. reflexivity. Qed.

Example chapter_name_examples :
  chapter_name "02.getting_Started" = "02 getting started"
  /\ chapter_name "my-Folder" = "My folder"
  /\ chapter_name EmptyString = EmptyString.
Proof. vm_compute. repeat split. Qed.

Example search_h1_examples :
  Re.search Re.h1 "<body><h1>Title</h1></body>" = true
  /\ Re.search Re.h1 (String.append "<h1>Title" (String "010" "</h1>")) = false
  /\ Re.search Re.h1 "<h1 class='x'>Title</h1>" = false.
Proof. repeat split. Qed.

Example path_examples :
  Path_stem (mkPath false ["01-basics"; "Intro To X.html"]) = "Intro To X"
  /\ Path_suffix (mkPath true ["a.tar.HTML"]) = ".HTML"
  /\ Path_suffix (mkPath false [".html"]) = EmptyString
  /\ Path_name (Path_parent (mkPath false ["a.html"])) = EmptyString
  /\ lesson_slug (mkPath false ["01-basics"; "Intro To X.html"]) = "intro-to-x".
Proof. repeat split. Qed.




(** ** Loops that may raise *)

Section ForEach.

Context {S A : Type} (body : S -> A -> result S).

Lemma for_each_app s l1 l2 :
  for_each body s (l1 ++ l2) = (s' ← for_each body s l1; for_each body s' l2).
Proof.
  revert s. induction l1 as [|x l1 IH]; intros s; simpl; [reflexivity|].
  destruct (body s x); simpl; auto.
Qed.

(** A loop in which every iteration either goes through or raises [e],
    and one of them raises [e] from any state, raises [e]. *)
Lemma for_each_raise (e : exn) s l :
  (forall s x, x ∈ l -> body s x = Raise e \/ exists s', body s x = Ok s') ->
  (exists x, x ∈ l /\ forall s, body s x = Raise e) ->
  for_each body s l = Raise e.
Proof.
  revert s. induction l as [|x l IH]; intros s Hall [y [Hy Hraise]].
  - inversion Hy.
  - simpl. apply elem_of_cons in Hy as [->|Hy].
    + by rewrite Hraise.
    + destruct (Hall s x) as [->|[s' ->]]; [by left|reflexivity|]; simpl.
      apply IH; [|eauto]. intros s0 x0 Hx0. apply Hall. by right.
Qed.

End ForEach.

(** ** The ordered dict [lessons_map] *)

Section LessonsMap.

Lemma dict_get_set {V} (d : dict V) k v : dict_get (dict_set d k v) k = Some v.
Proof.
  induction d as [|[k' v'] d IH]; simpl.
  - by rewrite String.eqb_refl.
  - destruct (String.eqb k' k) eqn:E; simpl.
    + by rewrite String.eqb_refl.
    + by rewrite E.
Qed.

Lemma dict_set_set {V} (d : dict V) k v v' :
  dict_set (dict_set d k v) k v' = dict_set d k v'.
Proof.
  induction d as [|[k' w] d IH]; simpl.
  - by rewrite String.eqb_refl.
  - destruct (String.eqb k' k) eqn:E; simpl.
    + by rewrite String.eqb_refl.
    + by rewrite E, IH.
Qed.

Lemma dict_set_get_nil {V} (d : dict (list V)) k :
  dict_get d k = Some [] -> dict_set d k [] = d.
Proof.
  induction d as [|[k' w] d IH]; simpl; [discriminate|].
  destruct (String.eqb k' k) eqn:E.
  - apply String.eqb_eq in E as ->. by intros [= ->].
  - intros H. by rewrite IH.
Qed.

(** The loop body amounts to one append to the group of the file's
    chapter, the group being created when the chapter is new. *)
Lemma lessons_map_add_eq m filepath :
  lessons_map_add m filepath =
  let name := chapter_name (Path_name (Path_parent filepath)) in
  dict_set m name (default [] (dict_get m name) ++ [lesson_entry filepath]).
Proof.
  unfold lessons_map_add, lesson_entry. cbv zeta.
  destruct (dict_get m _) as [[|e es]|] eqn:E; simpl.
  - by rewrite dict_get_set, dict_set_set.
  - by rewrite E.
  - by rewrite dict_get_set, dict_set_set.
Qed.

Lemma dict_set_entries {V} (d : dict (list V)) k l :
  concat (dict_set d k (default [] (dict_get d k) ++ l)).*2 ≡ₚ concat d.*2 ++ l.
Proof.
  induction d as [|[k' w] d IH]; simpl.
  - by rewrite app_nil_r.
  - destruct (String.eqb k' k) eqn:E; simpl.
    + rewrite <- !app_assoc. f_equiv. apply Permutation_app_comm.
    + rewrite IH. by rewrite app_assoc.
Qed.

(** Grouping loses no file and invents none: the groups, put end to end,
    hold the entries of the listed files. *)
Lemma lessons_map_entries lesson_files :
  concat (lessons_map lesson_files).*2 ≡ₚ lesson_entry <$> lesson_files.
Proof.
  unfold lessons_map.
  enough (forall m, concat (fold_left lessons_map_add lesson_files m).*2
                    ≡ₚ concat m.*2 ++ (lesson_entry <$> lesson_files)) as H
    by apply (H []).
  induction lesson_files as [|f fs IH]; intros m; simpl.
  - by rewrite app_nil_r.
  - rewrite IH, lessons_map_add_eq. cbv zeta.
    rewrite dict_set_entries.
    by rewrite <- app_assoc.
Qed.

Lemma dict_set_keys {V} (d : dict V) k v :
  (dict_set d k v).*1 = if decide (k ∈ d.*1) then d.*1 else d.*1 ++ [k].
Proof.
  induction d as [|[k' w] d IH]; [reflexivity|].
  cbn [dict_set]. destruct (String.eqb k' k) eqn:E; cbn [fmap list_fmap fst].
  - apply String.eqb_eq in E as ->.
    destruct (decide (k ∈ k :: d.*1)) as [_|H]; [done|]. destruct H. by left.
  - apply String.eqb_neq in E. rewrite IH.
    destruct (decide (k ∈ d.*1)) as [Hin|Hout];
      destruct (decide (k ∈ k' :: d.*1)) as [H|H]; try done.
    + destruct H. by right.
    + apply elem_of_cons in H as [->|H]; done.
Qed.

(** A chapter name is the key of one group only, as in a Python dict. *)
Lemma lessons_map_keys lesson_files : NoDup (lessons_map lesson_files).*1.
Proof.
  unfold lessons_map.
  enough (forall m : dict (list (string * Path)),
             NoDup m.*1 -> NoDup (fold_left lessons_map_add lesson_files m).*1) as H
    by apply H, NoDup_nil_2.
  induction lesson_files as [|f fs IH]; intros m Hm; simpl; [done|].
  apply IH. rewrite lessons_map_add_eq. cbv zeta. rewrite dict_set_keys.
  case_decide; [done|]. apply NoDup_app. repeat split; [done| |apply NoDup_singleton].
  intros k Hk ->%list_elem_of_singleton. done.
Qed.

Lemma dict_get_unique {V} (d : dict V) k v :
  NoDup d.*1 -> (k, v) ∈ d -> dict_get d k = Some v.
Proof.
  induction d as [|[k' w] d IH]; simpl; [by inversion 2|].
  intros [Hk' Hd]%NoDup_cons [[= -> ->]|Hin]%elem_of_cons.
  - by rewrite String.eqb_refl.
  - destruct (String.eqb k' k) eqn:E; [|by apply IH].
    apply String.eqb_eq in E as ->. destruct Hk'.
    apply list_elem_of_fmap. by exists (k, v).
Qed.

(** Iterating over the groups is iterating over the keys and reading
    [lessons_map[chapter_name]] for each. *)
Lemma lessons_map_lookup lesson_files name entries :
  (name, entries) ∈ lessons_map lesson_files ->
  dict_get (lessons_map lesson_files) name = Some entries.
Proof. apply dict_get_unique, lessons_map_keys. Qed.

End LessonsMap.

(** ** The reconciliation loops *)

Section Reconcile.

Variable course_chapters : list ChapterDict.
Variable lessons : list Lesson.

Lemma reconcile_lesson_create plan entry :
  remote_lesson lessons entry.1 = None ->
  reconcile_lesson lessons plan entry =
  Ok {| chapters_to_create := chapters_to_create plan;
        lessons_to_create := lessons_to_create plan ++ [new_lesson entry];
        lessons_to_update := lessons_to_update plan |}.
Proof.
  destruct entry as [slug filepath]. unfold remote_lesson, reconcile_lesson.
  simpl. by intros ->.
Qed.

(** The update branch never completes: it looks up [get] on a [Lesson]. *)
Lemma reconcile_lesson_update plan entry :
  is_Some (remote_lesson lessons entry.1) ->
  reconcile_lesson lessons plan entry = Raise AttributeError.
Proof.
  destruct entry as [slug filepath]. unfold remote_lesson, reconcile_lesson.
  simpl. by intros [lesson ->].
Qed.

Lemma reconcile_lesson_cases plan entry :
  reconcile_lesson lessons plan entry = Raise AttributeError
  \/ exists plan', reconcile_lesson lessons plan entry = Ok plan'.
Proof.
  destruct (remote_lesson lessons entry.1) eqn:E.
  - left. apply reconcile_lesson_update. by rewrite E.
  - right. eexists. by apply reconcile_lesson_create.
Qed.

Lemma reconcile_entries_create plan entries :
  Forall (fun entry => remote_lesson lessons entry.1 = None) entries ->
  for_each (reconcile_lesson lessons) plan entries =
  Ok {| chapters_to_create := chapters_to_create plan;
        lessons_to_create := lessons_to_create plan ++ (new_lesson <$> entries);
        lessons_to_update := lessons_to_update plan |}.
Proof.
  intros H. revert plan. induction H as [|entry entries He _ IH]; intros plan.
  - simpl. rewrite app_nil_r. by destruct plan.
  - simpl. rewrite (reconcile_lesson_create _ _ He). simpl. rewrite IH. simpl.
    by rewrite <- app_assoc.
Qed.

Lemma reconcile_entries_raise plan entries :
  Exists (fun entry => is_Some (remote_lesson lessons entry.1)) entries ->
  for_each (reconcile_lesson lessons) plan entries = Raise AttributeError.
Proof.
  intros (entry & Hin & Hsome)%Exists_exists. apply for_each_raise.
  - intros plan' entry' _. apply reconcile_lesson_cases.
  - exists entry. split; [exact Hin|]. intros plan'.
    by apply reconcile_lesson_update.
Qed.

Lemma reconcile_entries_cases plan entries :
  for_each (reconcile_lesson lessons) plan entries = Raise AttributeError
  \/ exists plan', for_each (reconcile_lesson lessons) plan entries = Ok plan'.
Proof.
  revert plan. induction entries as [|entry entries IH]; intros plan; simpl.
  - right. by eexists.
  - destruct (reconcile_lesson_cases plan entry) as [->|[plan' ->]]; simpl.
    + by left.
    + apply IH.
Qed.

Lemma reconcile_groups_create plan (groups : dict (list (string * Path))) :
  Forall (fun entry => remote_lesson lessons entry.1 = None) (concat groups.*2) ->
  for_each (reconcile_chapter course_chapters lessons) plan groups =
  Ok {| chapters_to_create :=
          chapters_to_create plan
          ++ (Build_NewChapter
                <$> List.filter (chapter_missing course_chapters) groups.*1);
        lessons_to_create :=
          lessons_to_create plan ++ (new_lesson <$> concat groups.*2);
        lessons_to_update := lessons_to_update plan |}.
Proof.
  revert plan. induction groups as [|[name entries] groups IH]; intros plan H.
  - simpl. rewrite !app_nil_r. by destruct plan.
  - simpl in H. apply Forall_app in H as [He Hg].
    cbn [for_each reconcile_chapter]. rewrite reconcile_entries_create by done.
    cbn [mbind result_bind]. rewrite IH by done.
    cbn [fmap list_fmap fst snd concat List.filter].
    unfold chapter_missing at 2, remote_chapter.
    destruct (List.find _ course_chapters); simpl;
      rewrite ?fmap_app, <- ?app_assoc; reflexivity.
Qed.

Lemma reconcile_groups_raise plan (groups : dict (list (string * Path))) :
  Exists (fun entry => is_Some (remote_lesson lessons entry.1)) (concat groups.*2) ->
  for_each (reconcile_chapter course_chapters lessons) plan groups
  = Raise AttributeError.
Proof.
  intros (entry & Hin & Hsome)%Exists_exists.
  apply list_elem_of_In, in_concat in Hin as (entries & Hentries & Hin).
  apply in_map_iff in Hentries as ([name entries'] & <- & Hgroup).
  apply for_each_raise.
  - intros plan' [name' es] _. apply reconcile_entries_cases.
  - exists (name, entries'). split; [by apply list_elem_of_In|].
    intros plan'. apply reconcile_entries_raise, Exists_exists.
    exists entry. split; [by apply list_elem_of_In|done].
Qed.

End Reconcile.

(** ** [reconcile] and [main] *)

Section Runs.

Lemma lessons_map_entry_in lesson_files entry :
  entry ∈ concat (lessons_map lesson_files).*2 <->
  exists filepath, filepath ∈ lesson_files /\ entry = lesson_entry filepath.
Proof.
  rewrite lessons_map_entries, list_elem_of_fmap.
  split; intros (filepath & ? & ?); eauto.
Qed.

(** When no listed file has the slug of a remote lesson, the loops run
    to their end: every listed file goes to [lessons_to_create], nothing
    goes to [lessons_to_update], and each chapter name without a remote
    chapter goes to [chapters_to_create]. *)
Lemma reconcile_creates course_chapters lesson_files :
  Forall (fun filepath =>
            remote_lesson (lessons_in_course course_chapters)
              (lesson_slug filepath) = None) lesson_files ->
  exists plan,
    reconcile course_chapters lesson_files = Ok plan
    /\ lessons_to_create plan ≡ₚ new_lesson ∘ lesson_entry <$> lesson_files
    /\ lessons_to_update plan = []
    /\ chapters_to_create plan
       = Build_NewChapter
           <$> List.filter (chapter_missing course_chapters)
                 (lessons_map lesson_files).*1.
Proof.
  intros H. unfold reconcile. eexists. split.
  - apply reconcile_groups_create. apply Forall_forall.
    intros entry (filepath & Hin & ->)%lessons_map_entry_in.
    by apply (proj1 (Forall_forall _ _) H).
  - simpl. split; [|done].
    by rewrite lessons_map_entries, list_fmap_compose.
Qed.

(** When a listed file has the slug of a remote lesson, the loops end
    with [AttributeError] and [main] builds no list at all. *)
Lemma reconcile_raises course_chapters lesson_files :
  Exists (fun filepath =>
            is_Some (remote_lesson (lessons_in_course course_chapters)
                       (lesson_slug filepath))) lesson_files ->
  reconcile course_chapters lesson_files = Raise AttributeError.
Proof.
  intros (filepath & Hin & Hsome)%Exists_exists. unfold reconcile.
  apply reconcile_groups_raise, Exists_exists.
  exists (lesson_entry filepath). split; [|done].
  apply lessons_map_entry_in. eauto.
Qed.

Lemma course_to_update_find wanted courses c :
  List.find (course_matches wanted) courses = Some c ->
  course_to_update wanted courses = Ok c.
Proof. unfold course_to_update. by intros ->. Qed.

Lemma main_loads_cache fuel w args cached_data :
  loads_cache fuel w args cached_data ->
  main fuel w args =
  if decide (cached_data = ∅)
  then Raise (SystemExit ERROR_CACHE_FILE_EMPTY)
  else if list_courses args then Raise (SystemExit 0)
  else
    course_to_update ← course_to_update (course args) (get_all_courses w);
    course_chapters ←
      match cached_data !! Course_title course_to_update with
      | Some chapters => Ok chapters
      | None => Raise KeyError
      end;
    reconcile course_chapters (lesson_files args).
Proof.
  intros (Hurl & (valid_files & Hvalid & Hne) & [token Htoken] & Hcache).
  unfold main. apply String.eqb_neq in Hurl. rewrite Hurl, Hvalid.
  cbn [mbind result_bind]. destruct valid_files as [|f valid_files]; [done|].
  cbn [length Nat.eqb]. unfold get_auth_token. rewrite Htoken.
  cbn [mbind result_bind]. rewrite Hcache. reflexivity.
Qed.

Lemma main_reconciles fuel w args course_chapters :
  reaches_reconciliation fuel w args course_chapters ->
  main fuel w args = reconcile course_chapters (lesson_files args).
Proof.
  intros (cached_data & c & Hload & Hne & Hlist & Hfind & Hchapters).
  rewrite (main_loads_cache _ _ _ _ Hload).
  destruct (decide (cached_data = ∅)); [done|]. rewrite Hlist.
  unfold get_all_courses. rewrite (course_to_update_find _ _ _ Hfind).
  cbn [mbind result_bind]. by rewrite Hchapters.
Qed.

End Runs.

(** ** The validator *)

Section Validator.

Variable fs : Path -> option Node.

(** A candidate that opens and reads is kept or dropped by the test. *)
Lemma is_valid_file_reads filepath :
  opens_and_reads fs filepath ->
  is_valid_file fs filepath = Ok (lesson_file_ok fs filepath).
Proof.
  intros (Hbelow & content & Hf & Hwf).
  unfold is_valid_file, lesson_file_ok, Path_open, Path_exists, File_read.
  rewrite Hbelow, Hf. cbn [negb andb mbind result_bind].
  destruct (String.eqb (Str.lower (Path_suffix filepath)) ".html");
    [|reflexivity].
  by rewrite (Hwf eq_refl).
Qed.

(** The test returns only for a candidate that opens and reads. *)
Lemma is_valid_file_Ok filepath keep :
  is_valid_file fs filepath = Ok keep -> opens_and_reads fs filepath.
Proof.
  unfold is_valid_file, Path_open, Path_exists, File_read, opens_and_reads.
  destruct (below_a_file fs filepath); [discriminate|].
  destruct (fs filepath) as [[content|]|]; try discriminate.
  cbn [negb andb mbind result_bind]. intros H. split; [done|].
  exists content. split; [done|]. intros E. rewrite E in H.
  by destruct (Unicode.well_formed content).
Qed.





(** On candidates that all open and read, the validator is the filter the
    docstring describes. *)
Lemma validate_opens files :
  Forall (opens_and_reads fs) files ->
  validate_lesson_files fs files = Ok (List.filter (lesson_file_ok fs) files).
Proof.
  induction 1 as [|filepath files Hf _ IH]; [reflexivity|].
  cbn [validate_lesson_files List.filter].
  rewrite (is_valid_file_reads _ Hf), IH. reflexivity.
Qed.


Lemma validate_Ok_opens files valid_files :
  validate_lesson_files fs files = Ok valid_files ->
  Forall (opens_and_reads fs) files.
Proof.
  revert valid_files. induction files as [|f files IH]; intros valid H; [constructor|].
  cbn [validate_lesson_files] in H.
  destruct (is_valid_file fs f) as [keep| |] eqn:Ef; try discriminate H.
  cbn [mbind result_bind] in H.
  destruct (validate_lesson_files fs files) as [valid'| |]; try discriminate H.
  constructor; [by eapply is_valid_file_Ok|by eapply IH].
Qed.

Lemma validate_lesson_files_filter files valid_files :
  validate_lesson_files fs files = Ok valid_files ->
  valid_files = List.filter (lesson_file_ok fs) files.
Proof.
  intros H. pose proof (validate_Ok_opens _ _ H) as Hopens.
  rewrite (validate_opens _ Hopens) in H. by injection H as <-.
Qed.

Lemma opens_and_reads_regular filepath :
  opens_and_reads fs filepath -> regular_file fs filepath.
Proof. intros (_ & content & H & _). by exists content. Qed.

Lemma validate_Ok_regular files valid_files :
  validate_lesson_files fs files = Ok valid_files ->
  Forall (regular_file fs) files.
Proof.
  intros H%validate_Ok_opens. eapply Forall_impl; [exact H|].
  apply opens_and_reads_regular.
Qed.

End Validator.

(** ** The pagination loop *)

Section Pagination.

Variable api : nat -> list Lesson.

Lemma get_all_lessons_from_spec fuel page requested yielded :
  get_all_lessons_from fuel api page = Some (requested, yielded) <->
  exists n,
    n < fuel
    /\ api (page + n) = []
    /\ (forall k, k < n -> api (page + k) <> [])
    /\ requested = seq page (S n)
    /\ yielded = api <$> seq page n.
Proof.
  revert page requested yielded.
  induction fuel as [|fuel IH]; intros page requested yielded.
  { simpl. split; [discriminate|]. intros (n & Hn & _). lia. }
  cbn [get_all_lessons_from]. unfold get_all_lessons_next.
  destruct (api page) as [|lesson lessons] eqn:Hpage.
  - split.
    + intros [= <- <-]. exists 0. rewrite Nat.add_0_r.
      repeat split; [lia|done|lia].
    + intros (n & _ & _ & Hfirst & -> & ->).
      destruct n as [|n]; [reflexivity|].
      exfalso. apply (Hfirst 0); [lia|]. by rewrite Nat.add_0_r.
  - rewrite Nat.add_1_r. split.
    + destruct (get_all_lessons_from fuel api (S page)) as [[reqs pages]|] eqn:E;
        [|discriminate].
      intros [= <- <-]. apply IH in E as (n & Hn & Hempty & Hfirst & -> & ->).
      exists (S n). rewrite Nat.add_succ_r. repeat split; [lia|done| |].
      * intros [|k] Hk; [rewrite Nat.add_0_r; congruence|].
        rewrite Nat.add_succ_r. apply (Hfirst k). lia.
      * cbn [seq fmap list_fmap]. by rewrite Hpage.
    + intros (n & Hn & Hempty & Hfirst & -> & ->).
      destruct n as [|n]; [rewrite Nat.add_0_r in Hempty; congruence|].
      rewrite Nat.add_succ_r in Hempty.
      assert (get_all_lessons_from fuel api (S page)
              = Some (seq (S page) (S n), api <$> seq (S page) n)) as ->.
      { apply IH. exists n. repeat split; [lia|done|].
        intros k Hk. specialize (Hfirst (S k)). rewrite Nat.add_succ_r in Hfirst.
        apply Hfirst. lia. }
      cbn [seq fmap list_fmap]. by rewrite Hpage.
Qed.

(** If some page is empty, some page is the first empty one. *)
Lemma first_empty_page n :
  api n = [] ->
  exists m, m <= n /\ api m = [] /\ forall k, k < m -> api k <> [].
Proof.
  intros Hn.
  assert (forall j, (exists m, m < j /\ api m = [] /\ forall k, k < m -> api k <> [])
                    \/ (forall k, k < j -> api k <> [])) as H.
  { induction j as [|j [(m & ? & ? & ?)|IH]].
    - right. intros k ?. lia.
    - left. exists m. repeat split; [lia|done..].
    - destruct (api j) as [|lesson lessons] eqn:E.
      + left. exists j. repeat split; [lia|done..].
      + right. intros k Hk. destruct (decide (k = j)) as [->|]; [congruence|].
        apply IH. lia. }
  destruct (H (S n)) as [(m & ? & ? & ?)|Hnone].
  - exists m. repeat split; [lia|done..].
  - exfalso. apply (Hnone n); [lia|done].
Qed.

End Pagination.

(** ** Chapter grouping and slugs *)

(** C3, at the folder name of the spec's example: the name [01-basics]
    is not normalized to [Basics]. Its digits are followed by a hyphen, not
    by a dot, so nothing is stripped; the hyphen becomes a space and the
    first character, a digit, has no upper case. The file [01-basics/a.html]
    therefore asks for a chapter titled [01 basics]. *)
Lemma chapter_name_01_basics_is_not_Basics :
  chapter_name "01-basics" <> "Basics"
  /\ chapter_name "01-basics" = "01 basics"
  /\ reconcile [Scenario.empty_chapter] [Scenario.a_html]
     = Ok {| chapters_to_create := [{| NewChapter_title := "01 basics" |}];
             lessons_to_create :=
               [{| NewLesson_slug := "a"; NewLesson_filepath := Scenario.a_html |}];
             lessons_to_update := [] |}.
Proof.
  split; [|split; reflexivity].
  intros H. vm_compute in H. discriminate H.
Qed.

Lemma lessons_map_single filepath :
  lessons_map [filepath]
  = [(chapter_name (Path_name (Path_parent filepath)), [lesson_entry filepath])].
Proof. unfold lessons_map. simpl. by rewrite lessons_map_add_eq. Qed.

(** C3, amended. For a folder name in which no run of digits is followed
    by a dot, there is no ordinal to strip, before or after the separators
    are replaced: chapter grouping replaces every '-', '_' and '.' by a
    space, then upper-cases the first character and lower-cases the others.
    A file in such a folder, with no remote chapter of the normalized name
    and no remote lesson of its slug, yields exactly one chapter to create,
    titled with the normalized name, and one lesson to create. *)
Theorem chapter_name_without_ordinal
  (folder : string) (filepath : Path) (course_chapters : list ChapterDict) :
  Re.search Re.ordinal folder = false ->
  Path_name (Path_parent filepath) = folder ->
  remote_chapter course_chapters (chapter_name folder) = None ->
  remote_lesson (lessons_in_course course_chapters) (lesson_slug filepath) = None ->
  chapter_name folder
  = Str.capitalize (Re.sub Re.separator " " (Re.sub Re.ordinal EmptyString folder))
  /\ chapter_name folder = Str.capitalize (Str.map separator_to_space folder)
  /\ reconcile course_chapters [filepath]
     = Ok {| chapters_to_create :=
               [{| NewChapter_title :=
                     Str.capitalize (Str.map separator_to_space folder) |}];
             lessons_to_create := [new_lesson (lesson_entry filepath)];
             lessons_to_update := [] |}.
Proof.
  intros Hordinal Hfolder Hchapter Hlesson. split; [|split].
  - by rewrite (sub_no_match _ _ _ Hordinal), sub_separator, chapter_name_eq.
  - apply chapter_name_eq.
  - unfold reconcile. rewrite lessons_map_single, Hfolder.
    rewrite reconcile_groups_create.
    + simpl. unfold chapter_missing. rewrite Hchapter. simpl.
      by rewrite chapter_name_eq.
    + simpl. by repeat constructor.
Qed.

Lemma chapter_name_without_ordinal_witness :
  chapter_name "01-basics" = "01 basics"
  /\ reconcile [Scenario.empty_chapter] [Scenario.a_html]
     = Ok {| chapters_to_create := [{| NewChapter_title := "01 basics" |}];
             lessons_to_create := [new_lesson (lesson_entry Scenario.a_html)];
             lessons_to_update := [] |}.
Proof.
  exact (proj2 (chapter_name_without_ordinal "01-basics" Scenario.a_html
                  [Scenario.empty_chapter] eq_refl eq_refl eq_refl eq_refl)).
Defined.

Lemma to_lower_space c :
  Ascii.eqb (AsciiCase.to_lower c) " " = Ascii.eqb c " ".
Proof. destruct c as [[] [] [] [] [] [] [] []]; reflexivity. Qed.

(** On an ASCII stem, the slug is the stem mapped character by
    character. *)
Lemma lesson_slug_chars filepath :
  Str.is_ascii (Path_stem filepath) = true ->
  lesson_slug filepath = Str.map slug_char (Path_stem filepath).
Proof.
  intros H. unfold lesson_slug. rewrite (lower_ascii _ H).
  unfold Str.replace, AsciiCase.lower. rewrite map_map.
  induction (Path_stem filepath) as [|c r IH]; [reflexivity|].
  apply andb_prop in H as [_ Hr]. cbn [Str.map].
  unfold slug_char at 1. by rewrite to_lower_space, (IH Hr).
Qed.

Lemma get_map f s i c :
  String.get i s = Some c -> String.get i (Str.map f s) = Some (f c).
Proof.
  revert i. induction s as [|a r IH]; intros i; [discriminate|].
  destruct i as [|i]; cbn [String.get Str.map].
  - intros [= E]. by rewrite E.
  - apply IH.
Qed.

(** The folders above a file have no part in its slug. *)
Lemma lesson_slug_any_folder absolute1 absolute2 folders1 folders2 name :
  lesson_slug (mkPath absolute1 (folders1 ++ [name]))
  = lesson_slug (mkPath absolute2 (folders2 ++ [name])).
Proof.
  unfold lesson_slug, Path_stem, Path_name. simpl. by rewrite !List.last_last.
Qed.

(** Slugs of stems with upper-case letters and spaces, in ASCII and
    beyond: the capital E with an acute accent (bytes 195 137) becomes the
    small one (bytes 195 169), and a capital sigma at the end of a word
    (bytes 206 163) becomes the final small sigma (bytes 207 130). *)
Example lesson_slug_examples :
  lesson_slug (mkPath false ["01-basics"; "Intro To X.html"]) = "intro-to-x"
  /\ lesson_slug (mkPath false ["My Lesson 2.HTML"]) = "my-lesson-2"
  /\ lesson_slug (mkPath false [String.append (String "195" (String "137" "T"))
                                  (String "195" (String "137" ".html"))])
     = String.append (String "195" (String "169" "t")) (String "195" (String "169" EmptyString))
  /\ lesson_slug (mkPath false [String.append "O" (String "206" (String "163" " A.html"))])
     = String.append "o" (String "207" (String "130" "-a")).
Proof. vm_compute. repeat split. Qed.

(** C8. The slug is a function of the filename stem alone: it is the
    lower-cased stem with each space turned into a hyphen, so two files
    with the same stem have the same slug, whatever their folders. On a stem
    of ASCII characters, that is the stem with each space turned into a
    hyphen, each letter from A to Z turned into the letter from a to z, and
    every other character kept. *)
Theorem lesson_slug_of_stem (p q : Path) :
  Path_stem p = Path_stem q ->
  lesson_slug p = lesson_slug q
  /\ lesson_slug p = Str.replace " " "-" (Str.lower (Path_stem p))
  /\ (Str.is_ascii (Path_stem p) = true ->
      lesson_slug p = Str.map slug_char (Path_stem p)
      /\ String.length (lesson_slug p) = String.length (Path_stem p)
      /\ forall i c,
           String.get i (Path_stem p) = Some c ->
           String.get i (lesson_slug p)
           = Some (if Ascii.eqb c " " then "-"%char
                   else if Str.is_upper c
                        then ascii_of_nat (nat_of_ascii c + 32)
                        else c)).
Proof.
  intros H. split; [|split].
  - unfold lesson_slug. by rewrite H.
  - reflexivity.
  - intros Hascii. rewrite (lesson_slug_chars _ Hascii).
    split; [done|]. split; [apply length_map|].
    intros i c Hget. by rewrite (get_map _ _ _ _ Hget).
Qed.

Lemma lesson_slug_of_stem_witness :
  Path_parent Scenario.intro_to_x_spaced
  <> Path_parent Scenario.intro_to_x_spaced_elsewhere
  /\ lesson_slug Scenario.intro_to_x_spaced
     = lesson_slug Scenario.intro_to_x_spaced_elsewhere
  /\ lesson_slug Scenario.intro_to_x_spaced = "intro-to-x"
  /\ String.get 0 (lesson_slug Scenario.intro_to_x_spaced) = Some "i"%char
  /\ String.get 5 (lesson_slug Scenario.intro_to_x_spaced) = Some "-"%char.
Proof.
  destruct (lesson_slug_of_stem Scenario.intro_to_x_spaced
              Scenario.intro_to_x_spaced_elsewhere eq_refl)
    as (Hsame & _ & Hascii).
  destruct (Hascii eq_refl) as (Hchars & _ & Hget).
  split; [discriminate|]. split; [exact Hsame|]. split; [|split].
  - rewrite Hchars. reflexivity.
  - apply (Hget 0 "I"%char). reflexivity.
  - apply (Hget 5 " "%char). reflexivity.
Defined.

(** ** Course resolution and the fatal exits *)

Lemma course_matches_spec wanted c :
  course_matches wanted c = true
  <-> wanted = Course_title c \/ wanted = Course_slug c.
Proof.
  unfold course_matches. rewrite orb_true_iff, !String.eqb_eq. tauto.
Qed.

Lemma find_first_match wanted courses c :
  first_match wanted courses c ->
  List.find (course_matches wanted) courses = Some c.
Proof.
  intros (before & after & -> & Hc & Hbefore).
  induction Hbefore as [|c' before Hc' _ IH]; simpl.
  - apply course_matches_spec in Hc. by rewrite Hc.
  - destruct (course_matches wanted c') eqn:E; [|exact IH].
    apply course_matches_spec in E. tauto.
Qed.

Lemma find_no_match wanted courses :
  Forall (fun c => wanted <> Course_title c /\ wanted <> Course_slug c) courses ->
  List.find (course_matches wanted) courses = None.
Proof.
  induction 1 as [|c courses Hc _ IH]; simpl; [reflexivity|].
  destruct (course_matches wanted c) eqn:E; [|exact IH].
  apply course_matches_spec in E. tauto.
Qed.

(** C5. Once the cache is loaded and not empty (and the listing mode is
    off), the run continues with the first remote course whose title or URL
    slug is the given identifier, and with the chapters cached under that
    course's title; when no course has the identifier as title or slug, the
    run ends there with the exit status of 'course not found'. *)
Theorem course_resolution (fuel : nat) (w : World) (args : Args)
  (cached_data : gmap string (list ChapterDict)) :
  loads_cache fuel w args cached_data ->
  cached_data <> ∅ ->
  list_courses args = false ->
  (forall c,
      first_match (course args) (api_courses w) c ->
      course_to_update (course args) (api_courses w) = Ok c
      /\ main fuel w args =
         (course_chapters ←
            match cached_data !! Course_title c with
            | Some chapters => Ok chapters
            | None => Raise KeyError
            end;
          reconcile course_chapters (lesson_files args)))
  /\ (Forall (fun c => course args <> Course_title c
                       /\ course args <> Course_slug c) (api_courses w) ->
      course_to_update (course args) (api_courses w)
      = Raise (SystemExit ERROR_COURSE_NOT_FOUND)
      /\ main fuel w args = Raise (SystemExit ERROR_COURSE_NOT_FOUND)).
Proof.
  intros Hload Hne Hlist. rewrite (main_loads_cache _ _ _ _ Hload).
  destruct (decide (cached_data = ∅)); [done|]. rewrite Hlist.
  unfold get_all_courses, course_to_update. split.
  - intros c Hc. by rewrite (find_first_match _ _ _ Hc).
  - intros Hnone. by rewrite (find_no_match _ _ Hnone).
Qed.

Lemma scenario_loads_cache wanted cache files file valid :
  validate_lesson_files Scenario.disk files = Ok (file :: valid) ->
  loads_cache 0 (Scenario.world cache) (Scenario.args wanted files) cache.
Proof.
  intros H. repeat split; [done| |by eexists].
  eexists. split; [exact H|done].
Qed.

(** The spec's example: with the one course titled "Intro" whose slug is
    "intro-101", both identifiers resolve that course, and a third one
    ends the run. *)
Lemma course_resolution_witness :
  let cache : gmap string (list ChapterDict) :=
    {[ "Intro" := [Scenario.empty_chapter] ]} in
  let w := Scenario.world cache in
  course_to_update "Intro" (api_courses w) = Ok Scenario.intro
  /\ course_to_update "intro-101" (api_courses w) = Ok Scenario.intro
  /\ main 0 w (Scenario.args "Intro" [Scenario.a_html])
     = main 0 w (Scenario.args "intro-101" [Scenario.a_html])
  /\ main 0 w (Scenario.args "Advanced" [Scenario.a_html])
     = Raise (SystemExit ERROR_COURSE_NOT_FOUND).
Proof.
  intros cache w.
  assert (forall wanted,
             loads_cache 0 w (Scenario.args wanted [Scenario.a_html]) cache) as Hload.
  { intros wanted. by apply (scenario_loads_cache _ _ _ Scenario.a_html []). }
  assert (cache <> ∅) as Hne.
  { intros H. apply (f_equal (fun m => m !! "Intro")) in H. vm_compute in H.
    discriminate H. }
  destruct (course_resolution 0 w (Scenario.args "Intro" [Scenario.a_html]) cache
              (Hload _) Hne eq_refl) as [Htitle _].
  destruct (course_resolution 0 w (Scenario.args "intro-101" [Scenario.a_html]) cache
              (Hload _) Hne eq_refl) as [Hslug _].
  destruct (course_resolution 0 w (Scenario.args "Advanced" [Scenario.a_html]) cache
              (Hload _) Hne eq_refl) as [_ Hnone].
  destruct (Htitle Scenario.intro) as [Ht1 Ht2].
  { exists [], []. repeat split; [by left|constructor]. }
  destruct (Hslug Scenario.intro) as [Hs1 Hs2].
  { exists [], []. repeat split; [by right|constructor]. }
  destruct Hnone as [_ Hn].
  { repeat constructor; discriminate. }
  split; [exact Ht1|split; [exact Hs1|split; [|exact Hn]]].
  rewrite Ht2, Hs2. reflexivity.
Defined.

(** C6. Each fatal condition, in the situation in which it arises, ends
    the run at once with [sys.exit] and the status of that condition, and
    the statuses of the three conditions are pairwise different. *)
Theorem fatal_condition_exits (condition : fatal) (fuel : nat) (w : World)
  (args : Args) :
  arises condition fuel w args ->
  main fuel w args = Raise (SystemExit (exit_status condition))
  /\ forall other, other <> condition ->
       SystemExit (exit_status other) <> SystemExit (exit_status condition).
Proof.
  intros H. split; [|by intros [] ?; destruct condition].
  destruct condition; simpl in H.
  - destruct H as [Hurl Hvalid]. unfold main.
    apply String.eqb_neq in Hurl. by rewrite Hurl, Hvalid.
  - destruct H as (cached_data & Hload & Hne & Hlist & Hnone).
    rewrite (main_loads_cache _ _ _ _ Hload).
    destruct (decide (cached_data = ∅)); [done|]. rewrite Hlist.
    unfold get_all_courses, course_to_update. by rewrite (find_no_match _ _ Hnone).
  - destruct H as [Hload _]. by rewrite (main_loads_cache _ _ _ _ Hload).
Qed.

Lemma fatal_condition_exits_witness :
  main 0 (Scenario.world {[ "Intro" := [Scenario.empty_chapter] ]})
    (Scenario.args "Intro" [Scenario.notes_txt])
  = Raise (SystemExit 1)
  /\ main 0 (Scenario.world {[ "Intro" := [Scenario.empty_chapter] ]})
       (Scenario.args "Advanced" [Scenario.a_html])
     = Raise (SystemExit 2)
  /\ main 0 (Scenario.world ∅) (Scenario.args "Intro" [Scenario.a_html])
     = Raise (SystemExit 3).
Proof.
  split; [|split].
  - apply (fatal_condition_exits NoValidLessonFiles). by split.
  - apply (fatal_condition_exits CourseNotFound).
    exists {[ "Intro" := [Scenario.empty_chapter] ]}. split; [|split; [|split]].
    + by apply (scenario_loads_cache _ _ _ Scenario.a_html []).
    + intros H. apply (f_equal (fun m => m !! "Intro")) in H. vm_compute in H.
      discriminate H.
    + reflexivity.
    + repeat constructor; discriminate.
  - apply (fatal_condition_exits CacheFileEmpty). split; [|reflexivity].
    by apply (scenario_loads_cache _ _ _ Scenario.a_html []).
Defined.

(** ** Pagination *)

(** C7. The lesson-fetching loop gives a result exactly when some page
    below the iteration bound is empty; it has then requested the pages
    0, 1, ..., n in that order, n being the first empty page, and has
    yielded the pages before n and nothing else. The bound plays no other
    part: the loop ends for some bound exactly when the listing has an
    empty page. *)
Theorem get_all_lessons_until_empty_page (api : nat -> list Lesson) :
  (forall fuel requested yielded,
      get_all_lessons fuel api = Some (requested, yielded) <->
      exists n,
        n < fuel
        /\ api n = []
        /\ (forall k, k < n -> api k <> [])
        /\ requested = seq 0 (S n)
        /\ yielded = api <$> seq 0 n)
  /\ ((exists fuel, is_Some (get_all_lessons fuel api)) <-> exists n, api n = []).
Proof.
  split.
  - intros fuel requested yielded. apply get_all_lessons_from_spec.
  - split.
    + intros (fuel & [requested yielded] & H).
      apply get_all_lessons_from_spec in H as (n & _ & Hn & _). eauto.
    + intros (n & Hn). apply first_empty_page in Hn as (m & _ & Hm & Hfirst).
      exists (S m), (seq 0 (S m), api <$> seq 0 m).
      apply get_all_lessons_from_spec. exists m. repeat split; [lia|done..].
Qed.

Example get_all_lessons_three_pages :
  get_all_lessons 4 Scenario.three_pages
  = Some ([0; 1; 2; 3], Scenario.three_pages <$> [0; 1; 2])
  /\ get_all_lessons 3 Scenario.three_pages = None.
Proof. split; reflexivity. Qed.

(** ** Runs that end in the update branch or in the validator *)

(** Where a run that reaches the loops ends: with the three lists when no
    listed file has the slug of a remote lesson, with [AttributeError]
    otherwise. The files are those of the command line, valid or not. *)
Lemma main_outcome fuel w args course_chapters :
  reaches_reconciliation fuel w args course_chapters ->
  (Forall (fun filepath =>
             remote_lesson (lessons_in_course course_chapters)
               (lesson_slug filepath) = None) (lesson_files args) ->
   exists plan,
     main fuel w args = Ok plan
     /\ lessons_to_create plan
        ≡ₚ new_lesson ∘ lesson_entry <$> lesson_files args
     /\ lessons_to_update plan = [])
  /\ (Exists (fun filepath =>
                is_Some (remote_lesson (lessons_in_course course_chapters)
                           (lesson_slug filepath))) (lesson_files args) ->
      main fuel w args = Raise AttributeError).
Proof.
  intros Hreach. rewrite (main_reconciles _ _ _ _ Hreach). split.
  - intros H. destruct (reconcile_creates _ _ H) as (plan & ? & ? & ? & _). eauto.
  - apply reconcile_raises.
Qed.

(** C1, at a run with two validated files, one of which has the slug of
    a remote lesson: the run ends with [AttributeError] in the update
    branch, and neither file is placed in any list. *)
Theorem validated_files_in_neither_list :
  let files := [Scenario.a_html; Scenario.intro_to_x_html] in
  let w := Scenario.world {[ "Intro" := [Scenario.chapter_with_x] ]} in
  validate_lesson_files (fs w) files = Ok files
  /\ forall fuel, main fuel w (Scenario.args "Intro" files) = Raise AttributeError.
Proof. split; [|intros fuel]; vm_compute; reflexivity. Qed.

(** C2, at the spec's example: the remote lesson with slug [intro-to-x]
    (id 7) exists and the local file is [intro-to-x.html]; the lookup finds
    the lesson, and the update branch raises [AttributeError] instead of
    adding the pair of the slug and the id 7 to [lessons_to_update]. *)
Theorem matching_file_raises :
  let w := Scenario.world {[ "Intro" := [Scenario.chapter_with_x] ]} in
  remote_lesson (lessons_in_course [Scenario.chapter_with_x])
    (lesson_slug Scenario.intro_to_x_html)
  = Some (Lesson_of_dict Scenario.lesson_x)
  /\ reconcile [Scenario.chapter_with_x] [Scenario.intro_to_x_html]
     = Raise AttributeError
  /\ forall fuel,
       main fuel w (Scenario.args "Intro" [Scenario.intro_to_x_html])
       = Raise AttributeError.
Proof. split; [|split; [|intros fuel]]; vm_compute; reflexivity. Qed.

(** C4, at a candidate list with a path that is not on disk: the
    validator raises [FileNotFoundError] instead of leaving the path out. *)
Theorem nonexistent_candidate_raises :
  Path_exists Scenario.disk Scenario.missing_html = false
  /\ validate_lesson_files Scenario.disk [Scenario.a_html; Scenario.missing_html]
     = Raise FileNotFoundError.
Proof. split; vm_compute; reflexivity. Qed.

(** C10, at a command line with a lesson and a text file that fails
    validation. The run goes on with the full list: when no remote lesson
    has either slug, the text file is placed in [lessons_to_create] next to
    the lesson; when the remote lesson [intro-to-x] exists, the run ends
    with [AttributeError] and the files are placed in no list. *)
Theorem unvalidated_file_is_reconciled :
  let files := [Scenario.intro_to_x_html; Scenario.notes_txt] in
  validate_lesson_files Scenario.disk files = Ok [Scenario.intro_to_x_html]
  /\ (forall fuel,
        main fuel (Scenario.world {[ "Intro" := [Scenario.empty_chapter] ]})
          (Scenario.args "Intro" files)
        = Ok {| chapters_to_create := [{| NewChapter_title := "01 basics" |}];
                lessons_to_create :=
                  [{| NewLesson_slug := "intro-to-x";
                      NewLesson_filepath := Scenario.intro_to_x_html |};
                   {| NewLesson_slug := "notes";
                      NewLesson_filepath := Scenario.notes_txt |}];
                lessons_to_update := [] |})
  /\ (forall fuel,
        main fuel (Scenario.world {[ "Intro" := [Scenario.chapter_with_x] ]})
          (Scenario.args "Intro" files)
        = Raise AttributeError).
Proof. split; [|split; intros fuel]; vm_compute; reflexivity. Qed.

(** * Further properties of the script *)

(** ** The validator and the report of skipped files *)

Lemma filter_length_all {A} (p : A -> bool) (l : list A) :
  length (List.filter p l) = length l -> Forall (fun x => p x = true) l.
Proof.
  induction l as [|x l IH]; simpl; [constructor|].
  pose proof (List.filter_length_le p l) as Hle.
  destruct (p x) eqn:E; simpl; intros H.
  - constructor; [done|]. apply IH. lia.
  - lia.
Qed.

Lemma filter_all_id {A} (p : A -> bool) (l : list A) :
  Forall (fun x => p x = true) l -> List.filter p l = l.
Proof. induction 1 as [|x l Hx _ IH]; simpl; [done|]. by rewrite Hx, IH. Qed.

(** X1. When the validator returns, its result is the sub-list of the
    candidates, in their order, that are files with the [.html] extension
    (in any case) and a heading match; in particular a path is in the result
    exactly when it is a candidate that passes that test. *)
Theorem validate_lesson_files_result
  (fs : Path -> option Node) (files valid_files : list Path) :
  validate_lesson_files fs files = Ok valid_files ->
  valid_files = List.filter (lesson_file_ok fs) files
  /\ sublist valid_files files
  /\ forall filepath,
       filepath ∈ valid_files <->
       filepath ∈ files /\ lesson_file_ok fs filepath = true.
Proof.
  intros ->%validate_lesson_files_filter. split; [done|]. split.
  - induction files as [|f files IH]; simpl; [constructor|].
    destruct (lesson_file_ok fs f); by constructor.
  - intros filepath. rewrite !list_elem_of_In, List.filter_In. tauto.
Qed.

Lemma validate_lesson_files_result_witness :
  validate_lesson_files Scenario.disk
    [Scenario.notes_txt; Scenario.a_html; Scenario.intro_to_x_html]
  = Ok [Scenario.a_html; Scenario.intro_to_x_html]
  /\ sublist [Scenario.a_html; Scenario.intro_to_x_html]
       [Scenario.notes_txt; Scenario.a_html; Scenario.intro_to_x_html].
Proof.
  split; [reflexivity|].
  exact (proj1 (proj2 (validate_lesson_files_result Scenario.disk
           [Scenario.notes_txt; Scenario.a_html; Scenario.intro_to_x_html]
           [Scenario.a_html; Scenario.intro_to_x_html] eq_refl))).
Defined.



(** X3. Once the validator has returned, the paths [main] reports as not
    valid are exactly the candidates that failed the test, and there is
    nothing to report exactly when the validator kept every candidate. *)
Theorem invalid_files_are_the_rejected
  (fs : Path -> option Node) (files valid_files : list Path) :
  validate_lesson_files fs files = Ok valid_files ->
  (forall filepath,
      filepath ∈ invalid_files files valid_files <->
      filepath ∈ files /\ lesson_file_ok fs filepath = false)
  /\ (invalid_files files valid_files = ∅ <-> valid_files = files).
Proof.
  intros ->%validate_lesson_files_filter.
  assert (forall filepath,
             filepath ∈ invalid_files files (List.filter (lesson_file_ok fs) files) <->
             filepath ∈ files /\ lesson_file_ok fs filepath = false) as Hinv.
  { intros filepath. unfold invalid_files.
    destruct (Nat.eqb _ _) eqn:E.
    - apply Nat.eqb_eq, filter_length_all in E. split; [set_solver|].
      intros [Hf Hbad]. apply (proj1 (Forall_forall _ _) E) in Hf. congruence.
    - assert (filepath ∈ List.filter (lesson_file_ok fs) files <->
              filepath ∈ files /\ lesson_file_ok fs filepath = true) as Hvalid
        by (rewrite !list_elem_of_In, List.filter_In; tauto).
      rewrite elem_of_list_to_set, list_elem_of_In, List.filter_In,
        bool_decide_eq_true, <- list_elem_of_In, Hvalid.
      destruct (lesson_file_ok fs filepath).
      + split; [intros [Hf Hno]; destruct Hno; done|intros [_ [=]]].
      + split; [intros [Hf _]; done|intros [Hf _]].
        split; [done|]. intros [_ [=]]. }
  split; [exact Hinv|]. split.
  - intros Hempty. apply filter_all_id, Forall_forall. intros g Hg.
    destruct (lesson_file_ok fs g) eqn:Eg; [done|]. exfalso.
    apply (not_elem_of_empty (C:=gset Path) g). rewrite <- Hempty. by apply Hinv.
  - intros Heq. unfold invalid_files. by rewrite Heq, Nat.eqb_refl.
Qed.

Lemma invalid_files_are_the_rejected_witness :
  Scenario.notes_txt
  ∈ invalid_files [Scenario.notes_txt; Scenario.a_html] [Scenario.a_html].
Proof.
  apply (invalid_files_are_the_rejected Scenario.disk
           [Scenario.notes_txt; Scenario.a_html] [Scenario.a_html] eq_refl).
  split; [by left|reflexivity].
Defined.

(** ** Chapter names and slugs, character by character *)

Lemma length_capitalize s :
  String.length (AsciiCase.capitalize s) = String.length s.
Proof. destruct s; simpl; [done|]. unfold AsciiCase.lower. by rewrite length_map. Qed.

Lemma digit_to_upper d : Str.is_digit d = true -> AsciiCase.to_upper d = d.
Proof. destruct d as [[] [] [] [] [] [] [] []]; vm_compute; congruence. Qed.

Lemma digit_not_separator d :
  Str.is_digit d = true -> separator_to_space d = d.
Proof. destruct d as [[] [] [] [] [] [] [] []]; vm_compute; congruence. Qed.

(** X4. Chapter grouping never strips an ordinal: the chapter name is the
    folder name with each separator turned into a space, capitalized. On a
    folder name of ASCII characters it removes no character at all: the
    chapter name has the length of the folder name and no separator, and a
    folder name that starts with a digit and a dot keeps the digit, the dot
    turned into a space like any other separator. *)
Theorem chapter_name_keeps_every_character (folder : string) :
  chapter_name folder = Str.capitalize (Str.map separator_to_space folder)
  /\ (Str.is_ascii folder = true ->
      String.length (chapter_name folder) = String.length folder
      /\ separator_free (chapter_name folder) = true
      /\ forall d rest,
           Str.is_digit d = true ->
           folder = String d (String "." rest) ->
           chapter_name folder
           = String d (String " " (Str.lower (Str.map separator_to_space rest)))).
Proof.
  split; [apply chapter_name_eq|]. intros Hascii. split; [|split].
  - by rewrite (chapter_name_ascii _ Hascii), length_capitalize, length_map.
  - by apply chapter_name_separator_free.
  - intros d rest Hd ->. rewrite (chapter_name_ascii _ Hascii).
    apply andb_prop in Hascii as [_ [_ Hrest]%andb_prop].
    rewrite (lower_ascii _ (is_ascii_separator_to_space _ Hrest)).
    cbn [Str.map AsciiCase.capitalize AsciiCase.lower].
    rewrite (digit_not_separator _ Hd), (digit_to_upper _ Hd). reflexivity.
Qed.

Example chapter_name_of_numbered_folders :
  chapter_name "1.intro" = "1 intro"
  /\ String.length (chapter_name "02.getting_Started") = 18
  /\ separator_free (chapter_name "02.getting_Started") = true.
Proof. vm_compute. repeat split. Qed.

Lemma slug_char_shape c :
  negb (Ascii.eqb (slug_char c) " ") && negb (Str.is_upper (slug_char c)) = true.
Proof. destruct c as [[] [] [] [] [] [] [] []]; reflexivity. Qed.

(** X5. A lesson slug contains no space. On a filename stem of ASCII
    characters, it has the length of the stem and contains no upper-case
    letter either. *)
Theorem lesson_slug_shape (filepath : Path) :
  Str.all (fun c => negb (Ascii.eqb c " ")) (lesson_slug filepath) = true
  /\ (Str.is_ascii (Path_stem filepath) = true ->
      String.length (lesson_slug filepath) = String.length (Path_stem filepath)
      /\ Str.all (fun c => negb (Ascii.eqb c " ") && negb (Str.is_upper c))
           (lesson_slug filepath) = true).
Proof.
  split.
  - unfold lesson_slug, Str.replace. apply all_map. intros c.
    by destruct (Ascii.eqb c " ") eqn:E; [|rewrite E].
  - intros Hascii. rewrite (lesson_slug_chars _ Hascii).
    split; [apply length_map|]. apply all_map, slug_char_shape.
Qed.

Example slug_of_spaced_stem :
  lesson_slug Scenario.intro_to_x_spaced = "intro-to-x"
  /\ String.length (Path_stem Scenario.intro_to_x_spaced) = 10.
Proof. vm_compute. repeat split. Qed.

(** ** [NewChapter.get_slug] *)

Lemma sub_non_slug_squeeze s :
  Re.sub_from Re.non_slug "-" 0 s = squeeze false s
  /\ Re.sub_from Re.non_slug "-" (Re.non_slug_run s) s = squeeze true s.
Proof.
  induction s as [|c r [IH0 IHrun]]; [done|].
  cbn [Re.sub_from Re.non_slug_run squeeze]. unfold Re.non_slug.
  cbn [Re.non_slug_run]. destruct (Re.is_slug_char c); fold Re.non_slug.
  - by rewrite IH0.
  - by rewrite IHrun.
Qed.

Lemma get_slug_squeeze self :
  NewChapter_get_slug self = squeeze false (Str.lower (NewChapter_title self)).
Proof. apply sub_non_slug_squeeze. Qed.

Lemma squeeze_shaped s :
  slug_shaped false (squeeze false s) = true
  /\ slug_shaped true (squeeze true s) = true.
Proof.
  induction s as [|c r [IH0 IH1]]; [done|]. cbn [squeeze].
  destruct (Re.is_slug_char c) eqn:E.
  - cbn [slug_shaped].
    assert (Ascii.eqb c "-" = false) as ->
      by (destruct (Ascii.eqb_spec c "-") as [->|]; [discriminate E|done]).
    by rewrite E, IH0.
  - by rewrite IH1.
Qed.

Lemma squeeze_slug_shaped in_run s :
  slug_shaped in_run s = true -> squeeze in_run s = s.
Proof.
  revert in_run. induction s as [|c r IH]; intros in_run; [done|].
  cbn [slug_shaped squeeze]. destruct (Ascii.eqb_spec c "-") as [->|Hc].
  - intros [Hrun Hr]%andb_prop. destruct in_run; [discriminate Hrun|].
    cbn. by rewrite (IH true Hr).
  - intros [Hslug Hr]%andb_prop. by rewrite Hslug, (IH false Hr).
Qed.

Lemma slug_shaped_ascii in_run s :
  slug_shaped in_run s = true -> Str.is_ascii s = true.
Proof.
  revert in_run. induction s as [|c r IH]; intros in_run; [done|].
  cbn [slug_shaped]. change (Str.is_ascii (String c r))
    with (Str.is_ascii_char c && Str.is_ascii r).
  destruct (Ascii.eqb_spec c "-") as [->|Hc].
  - intros [_ Hr]%andb_prop. by rewrite (IH true Hr).
  - intros [Hslug Hr]%andb_prop. rewrite (IH false Hr), andb_true_r.
    clear -Hslug.
    destruct c as [[] [] [] [] [] [] [] []]; vm_compute in *; congruence.
Qed.

Lemma ascii_lower_slug_shaped in_run s :
  slug_shaped in_run s = true -> AsciiCase.lower s = s.
Proof.
  revert in_run. induction s as [|c r IH]; intros in_run; [done|].
  cbn [slug_shaped AsciiCase.lower Str.map].
  destruct (Ascii.eqb_spec c "-") as [->|Hc].
  - intros [_ Hr]%andb_prop. fold (AsciiCase.lower r). by rewrite (IH true Hr).
  - intros [Hslug Hr]%andb_prop. fold (AsciiCase.lower r). rewrite (IH false Hr).
    f_equal. clear -Hslug.
    destruct c as [[] [] [] [] [] [] [] []]; vm_compute in *; congruence.
Qed.

Lemma lower_slug_shaped in_run s :
  slug_shaped in_run s = true -> Str.lower s = s.
Proof.
  intros H. rewrite (lower_ascii _ (slug_shaped_ascii _ _ H)).
  by eapply ascii_lower_slug_shaped.
Qed.

(** X6. A chapter slug is made of lower-case letters, digits and hyphens
    only, and never has two hyphens in a row. *)
Theorem get_slug_shape (self : NewChapter) :
  slug_shaped false (NewChapter_get_slug self) = true.
Proof. rewrite get_slug_squeeze. apply squeeze_shaped. Qed.

(** X7. A title that already has the shape of a slug is its own slug; so
    taking the slug of a slug changes nothing. *)
Theorem get_slug_idempotent (self : NewChapter) :
  (slug_shaped false (NewChapter_title self) = true ->
   NewChapter_get_slug self = NewChapter_title self)
  /\ NewChapter_get_slug {| NewChapter_title := NewChapter_get_slug self |}
     = NewChapter_get_slug self.
Proof.
  assert (forall title, slug_shaped false title = true ->
            NewChapter_get_slug {| NewChapter_title := title |} = title) as H.
  { intros title Ht. rewrite get_slug_squeeze. cbn [NewChapter_title].
    rewrite (lower_slug_shaped _ _ Ht). by apply squeeze_slug_shaped. }
  split.
  - destruct self as [title]. apply H.
  - apply H. rewrite get_slug_squeeze. apply squeeze_shaped.
Qed.

Example get_slug_examples :
  NewChapter_get_slug {| NewChapter_title := "Getting Started!" |} = "getting-started-"
  /\ NewChapter_get_slug {| NewChapter_title := "01 basics" |} = "01-basics"
  /\ NewChapter_get_slug {| NewChapter_title := "A_b.C" |} = "a-b-c".
Proof. vm_compute. repeat split. Qed.

(** ** [NewLesson.get_title] *)

Lemma prefix_append lit s : String.prefix lit (String.append lit s) = true.
Proof.
  induction lit as [|c lit IH]; [by destruct s|].
  change (String.append (String c lit) s) with (String c (String.append lit s)).
  cbn [String.prefix]. by destruct (ascii_dec c c).
Qed.

Lemma lazy_until_here lit s :
  String.prefix lit s = true -> Re.lazy_until lit s = Some EmptyString.
Proof. destruct s; cbn [Re.lazy_until]; by intros ->. Qed.

Lemma lazy_until_plain_text title post :
  Str.all (fun c => negb (Ascii.eqb c "<") && negb (Ascii.eqb c "010")) title = true ->
  Re.lazy_until "</title>" (String.append title (String.append "</title>" post))
  = Some title.
Proof.
  induction title as [|c r IH].
  - intros _. change (String.append EmptyString ?x) with x.
    apply lazy_until_here, prefix_append.
  - cbn [Str.all]. intros [[Hlt Hnl]%andb_prop Hr]%andb_prop.
    change (String.append (String c r) ?x) with (String c (String.append r x)).
    cbn [Re.lazy_until String.prefix].
    destruct (ascii_dec "<" c) as [<-|_]; [discriminate Hlt|].
    apply negb_true_iff in Hnl. rewrite Hnl, (IH Hr). reflexivity.
Qed.

(** X8. When the first opening title tag of the content is followed, on
    the same line, by text without a '<' and then by the closing tag,
    [get_title] returns exactly that text, whatever the slug and whatever
    comes before and after. *)
Theorem get_title_reads_first_title_tag
  (self : NewLesson) (before title after : string) :
  let content :=
    String.append before
      (String.append "<title>" (String.append title (String.append "</title>" after))) in
  (forall k, k < String.length before ->
             String.prefix "<title>" (Str.drop k content) = false) ->
  Str.all (fun c => negb (Ascii.eqb c "<") && negb (Ascii.eqb c "010")) title = true ->
  NewLesson_get_title self content = title.
Proof.
  intros content Hbefore Htitle. unfold NewLesson_get_title.
  enough (Re.search_group Re.title_tag content = Some title) as -> by done.
  subst content. induction before as [|c r IH].
  - change (String.append EmptyString ?x) with x.
    assert (Re.title_tag
              (String.append "<title>"
                 (String.append title (String.append "</title>" after)))
            = Some title) as Htag.
    { unfold Re.title_tag. rewrite prefix_append.
      change (Str.drop 7 (String.append "<title>" ?x)) with x.
      by apply lazy_until_plain_text. }
    change (String.append "<title>" ?x) with (String "<" (String.append "title>" x))
      in *.
    cbn [Re.search_group]. by rewrite Htag.
  - change (String.append (String c r) ?x) with (String c (String.append r x)) in *.
    cbn [Re.search_group]. unfold Re.title_tag at 1.
    pose proof (Hbefore 0 ltac:(simpl; lia)) as H0.
    change (Str.drop 0 ?x) with x in H0. rewrite H0. apply IH.
    intros k Hk. apply (Hbefore (S k)). simpl. lia.
Qed.

Lemma get_title_reads_first_title_tag_witness :
  NewLesson_get_title (new_lesson (lesson_entry Scenario.a_html))
    "<html><head><title>Lesson A</title></head><h1>A</h1></html>"
  = "Lesson A".
Proof.
  apply (get_title_reads_first_title_tag _ "<html><head>" "Lesson A"
           "</head><h1>A</h1></html>"); [|reflexivity].
  intros k Hk. do 12 (destruct k as [|k]; [reflexivity|]). simpl in Hk. lia.
Defined.

Lemma search_group_no_title_tag content :
  Re.search (Re.literal "<title>") content = false ->
  Re.search_group Re.title_tag content = None.
Proof.
  induction content as [|c r IH].
  - reflexivity.
  - cbn [Re.search Re.search_group]. unfold Re.literal at 1, Re.title_tag at 1.
    destruct (String.prefix "<title>" (String c r)); [discriminate|].
    exact IH.
Qed.

Lemma title_from_ext (f g : ascii -> ascii) previous_is_cased s :
  (forall c, AsciiCase.to_lower (f c) = AsciiCase.to_lower (g c)
             /\ AsciiCase.to_upper (f c) = AsciiCase.to_upper (g c)
             /\ AsciiCase.is_alpha (f c) = AsciiCase.is_alpha (g c)) ->
  AsciiCase.title_from previous_is_cased (Str.map f s)
  = AsciiCase.title_from previous_is_cased (Str.map g s).
Proof.
  intros H. revert previous_is_cased.
  induction s as [|c r IH]; intros previous_is_cased; [done|].
  cbn [Str.map AsciiCase.title_from]. destruct (H c) as (-> & -> & ->).
  by rewrite IH.
Qed.

Lemma is_ascii_replace old new s :
  Str.is_ascii_char new = true ->
  Str.is_ascii s = true -> Str.is_ascii (Str.replace old new s) = true.
Proof.
  intros Hnew. apply is_ascii_map. intros c Hc. by destruct (Ascii.eqb c old).
Qed.

Lemma is_ascii_slug_chars s :
  Str.is_ascii s = true -> Str.is_ascii (Str.map slug_char s) = true.
Proof.
  apply is_ascii_map. intros c Hc. unfold slug_char.
  destruct (Ascii.eqb c " "); [done|].
  by destruct (ascii_char_facts _ Hc) as (_ & _ & _ & _ & _ & _ & _ & ? & _).
Qed.

(** X9. Without an opening title tag in the content, the title is the
    slug with hyphens turned into spaces, in title case; for the lesson that
    reconciliation builds from a file whose stem is made of ASCII characters,
    this is the filename stem treated the same way, so that the case of the
    filename and the choice between spaces and hyphens in it leave no trace
    in the title. *)
Theorem get_title_humanizes_slug (self : NewLesson) (content : string) :
  Re.search (Re.literal "<title>") content = false ->
  NewLesson_get_title self content
  = Str.title (Str.replace "-" " " (NewLesson_slug self))
  /\ forall filepath,
       Str.is_ascii (Path_stem filepath) = true ->
       self = new_lesson (lesson_entry filepath) ->
       NewLesson_get_title self content
       = Str.title (Str.replace "-" " " (Path_stem filepath)).
Proof.
  intros H. unfold NewLesson_get_title.
  rewrite (search_group_no_title_tag _ H). split; [done|].
  intros filepath Hascii ->. cbn [new_lesson lesson_entry NewLesson_slug fst].
  rewrite (lesson_slug_chars _ Hascii).
  rewrite !title_ascii
    by (apply is_ascii_replace; [done|]; by try apply is_ascii_slug_chars).
  unfold AsciiCase.title, Str.replace. rewrite map_map.
  apply title_from_ext. intros c.
  destruct c as [[] [] [] [] [] [] [] []]; repeat split.
Qed.

Lemma get_title_humanizes_slug_witness :
  NewLesson_get_title
    (new_lesson (lesson_entry (mkPath false ["01-basics"; "Intro To-x.html"])))
    "<h1>Intro</h1>"
  = "Intro To X".
Proof.
  rewrite (proj2 (get_title_humanizes_slug
                    (new_lesson
                       (lesson_entry (mkPath false ["01-basics"; "Intro To-x.html"])))
                    "<h1>Intro</h1>" eq_refl)
             (mkPath false ["01-basics"; "Intro To-x.html"]) eq_refl eq_refl).
  vm_compute. reflexivity.
Defined.

(** ** Grouping by chapter *)

Lemma dict_get_set_ne {V} (d : dict V) k k' v :
  k <> k' -> dict_get (dict_set d k v) k' = dict_get d k'.
Proof.
  intros Hne. induction d as [|[k0 v0] d IH]; simpl.
  - by apply String.eqb_neq in Hne as ->.
  - destruct (String.eqb k0 k) eqn:E; simpl; [|by rewrite IH].
    apply String.eqb_eq in E as ->. by apply String.eqb_neq in Hne as ->.
Qed.

Lemma dict_get_is_Some {V} (d : dict V) k :
  is_Some (dict_get d k) <-> k ∈ d.*1.
Proof.
  induction d as [|[k0 v0] d IH]; simpl.
  - split; [by intros [? [=]]|inversion 1].
  - destruct (String.eqb_spec k0 k) as [->|Hne].
    + split; [left|by eexists].
    + rewrite IH, elem_of_cons. split; [by right|]. by intros [->|?].
Qed.

Lemma lessons_map_add_get m filepath name :
  dict_get (lessons_map_add m filepath) name =
  if String.eqb (chapter_of filepath) name
  then Some (default [] (dict_get m name) ++ [lesson_entry filepath])
  else dict_get m name.
Proof.
  rewrite lessons_map_add_eq. cbv zeta. fold (chapter_of filepath).
  destruct (String.eqb_spec (chapter_of filepath) name) as [<-|Hne].
  - apply dict_get_set.
  - by apply dict_get_set_ne.
Qed.

Lemma lessons_map_fold_get lesson_files m name :
  dict_get (fold_left lessons_map_add lesson_files m) name =
  match lesson_entry <$> files_of_chapter lesson_files name with
  | [] => dict_get m name
  | group => Some (default [] (dict_get m name) ++ group)
  end.
Proof.
  revert m. induction lesson_files as [|f files IH]; intros m; [done|].
  cbn [fold_left files_of_chapter List.filter]. rewrite IH, lessons_map_add_get.
  fold (files_of_chapter files name).
  destruct (String.eqb (chapter_of f) name); cbn [fmap list_fmap default].
  - destruct (lesson_entry <$> files_of_chapter files name); [done|].
    unfold id. by rewrite <- app_assoc.
  - done.
Qed.

(** X10. [lessons_map] is a group-by: under a chapter name it holds the
    entries of the listed files of that chapter, in the order of the command
    line, and it has no key for a chapter name that no listed file has. *)
Theorem lessons_map_groups (lesson_files : list Path) (name : string) :
  dict_get (lessons_map lesson_files) name =
  match files_of_chapter lesson_files name with
  | [] => None
  | group => Some (lesson_entry <$> group)
  end.
Proof.
  unfold lessons_map. rewrite lessons_map_fold_get.
  by destruct (files_of_chapter lesson_files name).
Qed.

Example lessons_map_groups_example :
  let b := mkPath false ["02_more"; "b.html"] in
  lessons_map [Scenario.a_html; b; Scenario.notes_txt]
  = [("01 basics", [lesson_entry Scenario.a_html; lesson_entry Scenario.notes_txt]);
     ("02 more", [lesson_entry b])].
Proof. reflexivity. Qed.

Lemma lessons_map_key lesson_files name :
  name ∈ (lessons_map lesson_files).*1 <->
  exists filepath, filepath ∈ lesson_files /\ chapter_of filepath = name.
Proof.
  rewrite <- dict_get_is_Some. unfold lessons_map. rewrite lessons_map_fold_get.
  cbn [dict_get default from_option app]. unfold files_of_chapter.
  replace (match lesson_entry <$> List.filter
                   (fun filepath => String.eqb (chapter_of filepath) name) lesson_files
           with [] => None | p :: l => Some (p :: l) end)
    with (match List.filter
                  (fun filepath => String.eqb (chapter_of filepath) name) lesson_files
          with [] => None | f :: l => Some (lesson_entry <$> f :: l) end)
    by (by destruct (List.filter _ lesson_files)).
  split.
  - destruct (List.filter _ lesson_files) as [|f group] eqn:E; [by intros [? [=]]|].
    intros _. assert (In f (List.filter
      (fun filepath => String.eqb (chapter_of filepath) name) lesson_files)) as Hf
      by (rewrite E; by left).
    apply List.filter_In in Hf as [Hf Hname]. exists f.
    split; [by apply list_elem_of_In|by apply String.eqb_eq].
  - intros (f & Hf & Hname).
    assert (In f (List.filter
      (fun filepath => String.eqb (chapter_of filepath) name) lesson_files)) as Hin.
    { apply List.filter_In. split; [by apply list_elem_of_In|by apply String.eqb_eq]. }
    destruct (List.filter _ lesson_files); [destruct Hin|by eexists].
Qed.

(** ** Outcomes of the reconciliation loops *)

Lemma remote_lesson_is_Some course_chapters slug :
  is_Some (remote_lesson (lessons_in_course course_chapters) slug) <->
  exists chapter lesson,
    chapter ∈ course_chapters /\ lesson ∈ cd_lessons chapter /\ ld_slug lesson = slug.
Proof.
  unfold remote_lesson, lessons_in_course. split.
  - intros [l [Hin Hslug]%List.find_some].
    apply in_flat_map in Hin as (chapter & Hchapter & Hl).
    apply in_map_iff in Hl as (d & <- & Hd). apply String.eqb_eq in Hslug.
    exists chapter, d. by rewrite !list_elem_of_In.
  - intros (chapter & d & Hchapter & Hd & Hslug).
    destruct (List.find _ _) eqn:E; [by eexists|]. exfalso.
    pose proof (List.find_none _ _ E (Lesson_of_dict d)) as Hnone.
    cbn in Hnone. rewrite Hslug, String.eqb_refl in Hnone.
    assert (true = false) by (apply Hnone, in_flat_map; exists chapter;
      split; [by apply list_elem_of_In|apply in_map; by apply list_elem_of_In]).
    done.
Qed.

Lemma match_or_not (lessons : list Lesson) (lesson_files : list Path) :
  Forall (fun filepath => remote_lesson lessons (lesson_slug filepath) = None)
    lesson_files
  \/ Exists (fun filepath => is_Some (remote_lesson lessons (lesson_slug filepath)))
       lesson_files.
Proof.
  induction lesson_files as [|f files [IH|IH]].
  - left. constructor.
  - destruct (remote_lesson lessons (lesson_slug f)) eqn:E.
    + right. left. by rewrite E.
    + left. by constructor.
  - right. by right.
Qed.

(** X11. The reconciliation loops have two outcomes. They run to their end
    exactly when no listed file has the slug of a lesson of any chapter of
    the course: then every listed file is in [lessons_to_create] and
    [lessons_to_update] is empty. Otherwise, the match being looked for in
    the whole course and not in the file's chapter, they raise
    [AttributeError]; no other exception comes out of them. *)
Theorem reconcile_outcome (course_chapters : list ChapterDict) (lesson_files : list Path) :
  match reconcile course_chapters lesson_files with
  | Ok plan =>
      (forall filepath chapter lesson,
          filepath ∈ lesson_files -> chapter ∈ course_chapters ->
          lesson ∈ cd_lessons chapter -> ld_slug lesson <> lesson_slug filepath)
      /\ lessons_to_create plan ≡ₚ new_lesson ∘ lesson_entry <$> lesson_files
      /\ lessons_to_update plan = []
  | Raise e =>
      e = AttributeError
      /\ exists filepath chapter lesson,
           filepath ∈ lesson_files /\ chapter ∈ course_chapters
           /\ lesson ∈ cd_lessons chapter /\ ld_slug lesson = lesson_slug filepath
  | Diverge => False
  end.
Proof.
  destruct (match_or_not (lessons_in_course course_chapters) lesson_files) as [H|H].
  - destruct (reconcile_creates _ _ H) as (plan & -> & Hcreate & Hupdate & _).
    split; [|done]. intros f chapter d Hf Hchapter Hd Hslug.
    apply (proj1 (Forall_forall _ _) H) in Hf.
    assert (is_Some (remote_lesson (lessons_in_course course_chapters) (lesson_slug f)))
      as [l Hl] by (apply remote_lesson_is_Some; eauto).
    congruence.
  - rewrite (reconcile_raises _ _ H). split; [done|].
    apply Exists_exists in H as (f & Hf & Hsome).
    apply remote_lesson_is_Some in Hsome as (chapter & d & ? & ? & ?).
    by exists f, chapter, d.
Qed.

Lemma reconcile_Ok_no_match course_chapters lesson_files plan :
  reconcile course_chapters lesson_files = Ok plan ->
  Forall (fun filepath =>
            remote_lesson (lessons_in_course course_chapters) (lesson_slug filepath)
            = None) lesson_files.
Proof.
  intros H.
  destruct (match_or_not (lessons_in_course course_chapters) lesson_files) as [?|Hex];
    [done|].
  rewrite (reconcile_raises _ _ Hex) in H. discriminate H.
Qed.

Lemma chapter_missing_spec course_chapters name :
  chapter_missing course_chapters name = true <->
  forall chapter, chapter ∈ course_chapters -> cd_title chapter <> name.
Proof.
  unfold chapter_missing, remote_chapter. split.
  - destruct (List.find _ _) eqn:E; [discriminate|]. intros _ chapter Hin Htitle.
    pose proof (List.find_none _ _ E chapter (proj1 (list_elem_of_In _ _) Hin)) as H.
    cbn in H. by rewrite Htitle, String.eqb_refl in H.
  - intros H. destruct (List.find _ _) eqn:E; [|done].
    apply List.find_some in E as [Hin Htitle]. apply String.eqb_eq in Htitle.
    destruct (H c); [by apply list_elem_of_In|done].
Qed.

(** X12. When the loops run to their end, a chapter is asked for at most
    once, however many listed files belong to it, and the chapters asked
    for are exactly the chapter names of the listed files that are the title
    of no remote chapter of the course. *)
Theorem chapters_to_create_distinct
  (course_chapters : list ChapterDict) (lesson_files : list Path) (plan : Plan) :
  reconcile course_chapters lesson_files = Ok plan ->
  NoDup (chapters_to_create plan)
  /\ forall name,
       {| NewChapter_title := name |} ∈ chapters_to_create plan <->
       (exists filepath, filepath ∈ lesson_files /\ chapter_of filepath = name)
       /\ forall chapter, chapter ∈ course_chapters -> cd_title chapter <> name.
Proof.
  intros H. pose proof (reconcile_Ok_no_match _ _ _ H) as Hno.
  destruct (reconcile_creates _ _ Hno) as (plan' & Hplan & _ & _ & Hctc).
  rewrite H in Hplan. injection Hplan as <-. rewrite Hctc. split.
  - apply NoDup_fmap_2; [by intros ?? [=]|].
    apply NoDup_ListNoDup, List.NoDup_filter, NoDup_ListNoDup, lessons_map_keys.
  - intros name. rewrite list_elem_of_fmap. split.
    + intros (name' & [= <-] & Hin).
      apply list_elem_of_In, List.filter_In in Hin as [Hkey Hmissing].
      split; [by apply lessons_map_key, list_elem_of_In|].
      by apply chapter_missing_spec.
    + intros [Hkey Hmissing]. exists name. split; [done|].
      apply list_elem_of_In, List.filter_In.
      split; [by apply list_elem_of_In, lessons_map_key|].
      by apply chapter_missing_spec.
Qed.

Lemma chapters_to_create_distinct_witness :
  exists plan,
    reconcile [Scenario.empty_chapter] [Scenario.a_html; Scenario.notes_txt] = Ok plan
    /\ chapters_to_create plan = [{| NewChapter_title := "01 basics" |}]
    /\ NoDup (chapters_to_create plan).
Proof.
  eexists. split; [reflexivity|]. split; [reflexivity|].
  exact (proj1 (chapters_to_create_distinct [Scenario.empty_chapter]
                  [Scenario.a_html; Scenario.notes_txt] _ eq_refl)).
Defined.

(** ** Completed runs *)

Lemma main_Ok_inv fuel w args plan :
  main fuel w args = Ok plan ->
  exists course_chapters,
    reaches_reconciliation fuel w args course_chapters
    /\ reconcile course_chapters (lesson_files args) = Ok plan.
Proof.
  unfold main. intros H.
  destruct (String.eqb (mavenseed_url args) EmptyString) eqn:Eurl; [discriminate H|].
  destruct (validate_lesson_files (fs w) (lesson_files args)) as [valid| |] eqn:Ev;
    try discriminate H.
  cbn [mbind result_bind] in H. destruct valid as [|f valid]; [discriminate H|].
  cbn [length Nat.eqb] in H. unfold get_auth_token in H.
  destruct (api_login w (email args) (password args)) as [token|] eqn:El;
    try discriminate H.
  cbn [mbind result_bind] in H.
  destruct (load_cached_data fuel w) as [cached| |] eqn:Ec; try discriminate H.
  cbn [mbind result_bind] in H.
  destruct (decide (cached = ∅)) as [|Hne]; [discriminate H|].
  destruct (list_courses args) eqn:Elist; [discriminate H|].
  unfold course_to_update, get_all_courses in H.
  destruct (List.find _ (api_courses w)) as [c|] eqn:Ef; try discriminate H.
  cbn [mbind result_bind] in H.
  destruct (cached !! Course_title c) as [chapters|] eqn:Echapters;
    try discriminate H.
  cbn [mbind result_bind] in H. exists chapters. split; [|done].
  exists cached, c. repeat split; try done.
  - by apply String.eqb_neq.
  - by exists (f :: valid).
Qed.

(** X13. A run of [main] that comes to its end has been given at least
    one file, all its listed files are regular files on disk, it has reached
    the loops with the chapters cached for the resolved course, and it asks
    for the creation of every listed file and for no update at all. *)
Theorem completed_run (fuel : nat) (w : World) (args : Args) (plan : Plan) :
  main fuel w args = Ok plan ->
  lesson_files args <> []
  /\ Forall (regular_file (fs w)) (lesson_files args)
  /\ (exists course_chapters,
        reaches_reconciliation fuel w args course_chapters
        /\ reconcile course_chapters (lesson_files args) = Ok plan)
  /\ lessons_to_create plan ≡ₚ new_lesson ∘ lesson_entry <$> lesson_files args
  /\ length (lessons_to_create plan) = length (lesson_files args)
  /\ lessons_to_update plan = [].
Proof.
  intros (chapters & Hreach & Hplan)%main_Ok_inv.
  pose proof Hreach as (cached & c & (_ & (valid & Hvalid & Hne) & _) & _).
  pose proof (reconcile_Ok_no_match _ _ _ Hplan) as Hno.
  destruct (reconcile_creates _ _ Hno) as (plan' & Hplan' & Hcreate & Hupdate & _).
  rewrite Hplan in Hplan'. injection Hplan' as <-.
  split; [|split; [|split; [|split; [|split]]]]; try done.
  - intros E. rewrite E in Hvalid. by injection Hvalid as <-.
  - by eapply validate_Ok_regular.
  - by exists chapters.
  - by rewrite Hcreate, length_fmap.
Qed.

Lemma completed_run_witness :
  exists plan,
    main 0 (Scenario.world {[ "Intro" := [Scenario.empty_chapter] ]})
      (Scenario.args "intro-101" [Scenario.a_html; Scenario.notes_txt]) = Ok plan
    /\ length (lessons_to_create plan) = 2
    /\ lessons_to_update plan = [].
Proof.
  assert (main 0 (Scenario.world {[ "Intro" := [Scenario.empty_chapter] ]})
            (Scenario.args "intro-101" [Scenario.a_html; Scenario.notes_txt])
          = Ok {| chapters_to_create := [{| NewChapter_title := "01 basics" |}];
                  lessons_to_create :=
                    [new_lesson (lesson_entry Scenario.a_html);
                     new_lesson (lesson_entry Scenario.notes_txt)];
                  lessons_to_update := [] |}) as Hrun
    by (vm_compute; reflexivity).
  eexists. split; [exact Hrun|].
  pose proof (completed_run _ _ _ _ Hrun) as (_ & _ & _ & _ & Hlen & Hupdate).
  split; [exact Hlen|exact Hupdate].
Defined.

Lemma lessons_map_one_chapter name files entries :
  Forall (fun filepath => chapter_of filepath = name) files ->
  fold_left lessons_map_add files [(name, entries)]
  = [(name, entries ++ (lesson_entry <$> files))].
Proof.
  intros H. revert entries. induction H as [|f files Hf _ IH]; intros entries.
  - by rewrite app_nil_r.
  - cbn [fold_left]. rewrite lessons_map_add_eq. cbv zeta.
    fold (chapter_of f). rewrite Hf. cbn [dict_get dict_set].
    rewrite String.eqb_refl. cbn [default from_option id]. rewrite IH.
    by rewrite <- app_assoc.
Qed.

(** X14. When all the listed files belong to one chapter and none has the
    slug of a remote lesson, the lessons to create are the files in the
    order of the command line, and the chapter is asked for exactly when no
    remote chapter has its name as title. *)
Theorem one_chapter_in_command_line_order
  (course_chapters : list ChapterDict) (name : string)
  (filepath : Path) (others : list Path) :
  Forall (fun f => chapter_of f = name) (filepath :: others) ->
  Forall (fun f => remote_lesson (lessons_in_course course_chapters) (lesson_slug f)
                   = None) (filepath :: others) ->
  reconcile course_chapters (filepath :: others)
  = Ok {| chapters_to_create :=
            if chapter_missing course_chapters name
            then [{| NewChapter_title := name |}] else [];
          lessons_to_create := new_lesson ∘ lesson_entry <$> filepath :: others;
          lessons_to_update := [] |}.
Proof.
  intros Hname Hno. unfold reconcile, lessons_map.
  apply Forall_cons in Hname as [Hf Hothers].
  cbn [fold_left]. rewrite lessons_map_add_eq. cbv zeta. fold (chapter_of filepath).
  rewrite Hf. cbn [dict_get dict_set default from_option app].
  rewrite (lessons_map_one_chapter _ _ _ Hothers).
  rewrite reconcile_groups_create.
  - cbn [fmap list_fmap fst snd concat List.filter empty_plan chapters_to_create
         lessons_to_create lessons_to_update app].
    rewrite app_nil_r. f_equal. f_equal.
    + by destruct (chapter_missing course_chapters name).
    + cbn [compose]. f_equal. by rewrite <- list_fmap_compose.
  - cbn [fmap list_fmap snd concat]. rewrite app_nil_r.
    apply Forall_cons in Hno as [Hf' Hothers']. constructor; [done|].
    apply Forall_fmap. exact Hothers'.
Qed.

Lemma one_chapter_in_command_line_order_witness :
  reconcile [Scenario.chapter_with_x] [Scenario.notes_txt; Scenario.a_html]
  = Ok {| chapters_to_create := [];
          lessons_to_create :=
            [new_lesson (lesson_entry Scenario.notes_txt);
             new_lesson (lesson_entry Scenario.a_html)];
          lessons_to_update := [] |}.
Proof.
  apply (one_chapter_in_command_line_order [Scenario.chapter_with_x] "01 basics"
           Scenario.notes_txt [Scenario.a_html]);
    repeat constructor; vm_compute; reflexivity.
Defined.

(** ** The cache built by [cache_all_courses] *)

Lemma find_snoc {A} (p : A -> bool) l x :
  List.find p (l ++ [x]) =
  match List.find p l with
  | Some y => Some y
  | None => if p x then Some x else None
  end.
Proof. induction l as [|y l IH]; simpl; [done|]. by destruct (p y). Qed.

Lemma fold_insert_lookup {V} (f : Course -> V) courses (m : gmap string V) title :
  List.fold_left (fun output c => <[Course_title c := f c]> output) courses m !! title
  = match List.find (fun c => String.eqb (Course_title c) title) (rev courses) with
    | Some c => Some (f c)
    | None => m !! title
    end.
Proof.
  revert m. induction courses as [|c courses IH]; intros m; [done|].
  cbn [List.fold_left rev]. rewrite IH, find_snoc.
  destruct (List.find _ (rev courses)); [done|].
  destruct (String.eqb_spec (Course_title c) title) as [<-|Hne].
  - by rewrite lookup_insert_eq.
  - by rewrite lookup_insert_ne.
Qed.

Lemma get_all_lessons_first_empty api fuel n :
  api n = [] -> (forall k, k < n -> api k <> []) -> n < fuel ->
  get_all_lessons fuel api = Some (seq 0 (S n), api <$> seq 0 n).
Proof.
  intros Hn Hfirst Hfuel. apply get_all_lessons_from_spec. exists n.
  repeat split; [done..|]. done.
Qed.

Lemma cache_all_courses_first_empty fuel w n :
  api_lessons w n = [] -> (forall k, k < n -> api_lessons w k <> []) -> n < fuel ->
  cache_all_courses fuel w
  = Ok (List.fold_left
          (fun output c =>
             <[Course_title c :=
                 cached_chapters w (concat (api_lessons w <$> seq 0 n)) c]> output)
          (api_courses w) ∅).
Proof.
  intros Hn Hfirst Hfuel. unfold cache_all_courses.
  by rewrite (get_all_lessons_first_empty _ _ _ Hn Hfirst Hfuel).
Qed.

(** X15. When the lessons listing has a first empty page and the bound
    lets the loop reach it, [cache_all_courses] writes a dict that has, under
    each course title, the chapters of the last listed course with that
    title, each with the lessons fetched before the empty page whose
    [lessonable_id] is the chapter's id; it has no other key, and it is
    empty exactly when the site has no course. *)
Theorem cache_all_courses_result (fuel : nat) (w : World) (n : nat) :
  api_lessons w n = [] ->
  (forall k, k < n -> api_lessons w k <> []) ->
  n < fuel ->
  exists output,
    cache_all_courses fuel w = Ok output
    /\ (forall title,
          output !! title
          = cached_chapters w (concat (api_lessons w <$> seq 0 n))
              <$> List.find (fun c => String.eqb (Course_title c) title)
                    (rev (api_courses w)))
    /\ (output = ∅ <-> api_courses w = []).
Proof.
  intros Hn Hfirst Hfuel. eexists. split;
    [by apply cache_all_courses_first_empty|].
  assert (forall title,
    List.fold_left
      (fun output c =>
         <[Course_title c :=
             cached_chapters w (concat (api_lessons w <$> seq 0 n)) c]> output)
      (api_courses w) (∅ : gmap string (list ChapterDict)) !! title
    = cached_chapters w (concat (api_lessons w <$> seq 0 n))
        <$> List.find (fun c => String.eqb (Course_title c) title)
              (rev (api_courses w))) as Hlookup.
  { intros title. rewrite fold_insert_lookup.
    by destruct (List.find _ (rev (api_courses w))). }
  split; [exact Hlookup|]. split.
  - intros Hempty. destruct (api_courses w) as [|c courses] eqn:E; [done|].
    exfalso. specialize (Hlookup (Course_title c)).
    rewrite Hempty, lookup_empty in Hlookup. cbn [rev] in Hlookup.
    rewrite find_snoc, String.eqb_refl in Hlookup.
    by destruct (List.find _ (rev courses)).
  - by intros ->.
Qed.

Lemma cache_all_courses_result_witness :
  exists output,
    cache_all_courses 4 (Scenario.fresh_world [Scenario.intro] Scenario.three_pages)
    = Ok output
    /\ output !! "Intro"
       = Some [chapter_as_dict
                 (concat (Scenario.three_pages <$> [0; 1; 2]))
                 Scenario.remote_chapter_11]
    /\ output !! "intro-101" = None.
Proof.
  destruct (cache_all_courses_result 4
              (Scenario.fresh_world [Scenario.intro] Scenario.three_pages) 3)
    as (output & Hrun & Hlookup & _).
  - reflexivity.
  - intros k Hk. do 3 (destruct k as [|k]; [discriminate|]). lia.
  - lia.
  - exists output. split; [exact Hrun|]. by rewrite !Hlookup.
Defined.

(** X16. The lessons reconciliation works with, when the chapters come
    from a cache just built: a fetched lesson is among them exactly when its
    [lessonable_id] is the id of a chapter of the course, and it is there
    with its id and slug but with an empty content. *)
Theorem lessons_in_course_of_cache
  (lessons : list Lesson) (chapters : list Chapter) (lesson : Lesson) :
  lesson ∈ lessons_in_course (chapter_as_dict lessons <$> chapters) <->
  exists fetched chapter,
    fetched ∈ lessons /\ chapter ∈ chapters
    /\ Lesson_lessonable_id fetched = Chapter_id chapter
    /\ lesson = without_content fetched.
Proof.
  unfold lessons_in_course. rewrite list_elem_of_In, in_flat_map. split.
  - intros (cd & Hcd & Hl). apply list_elem_of_In, list_elem_of_fmap in Hcd
      as (chapter & -> & Hchapter).
    apply in_map_iff in Hl as (d & <- & Hd). cbn [chapter_as_dict cd_lessons] in Hd.
    apply in_map_iff in Hd as (fetched & <- & Hf).
    apply List.filter_In in Hf as [Hf Hid]. apply Z.eqb_eq in Hid.
    exists fetched, chapter. by rewrite list_elem_of_In.
  - intros (fetched & chapter & Hf & Hchapter & Hid & ->).
    exists (chapter_as_dict lessons chapter). split.
    + apply list_elem_of_In, list_elem_of_fmap. eauto.
    + apply in_map_iff. exists (Lesson_to_dict fetched). split; [done|].
      cbn [chapter_as_dict cd_lessons]. apply in_map, List.filter_In.
      split; [by apply list_elem_of_In|by apply Z.eqb_eq].
Qed.

(** ** Runs of [main] around the cache *)

Lemma get_all_lessons_no_empty_page api fuel :
  (forall k, k < fuel -> api k <> []) -> get_all_lessons fuel api = None.
Proof.
  intros H. destruct (get_all_lessons fuel api) as [[requested yielded]|] eqn:E;
    [|done].
  apply get_all_lessons_from_spec in E as (n & Hn & Hempty & _).
  by destruct (H n Hn).
Qed.

(** X17. A run without a cache file, once past validation and login: if
    no page of the lessons listing within the bound is empty the run does
    not end; if the listing ends and the site has no course, the cache just
    written is empty and the run exits with the status of an empty cache
    file. *)
Theorem run_without_cache_file (fuel : nat) (w : World) (args : Args)
  (filepath : Path) (valid_files : list Path) :
  cache_file w = None ->
  mavenseed_url args <> EmptyString ->
  validate_lesson_files (fs w) (lesson_files args) = Ok (filepath :: valid_files) ->
  is_Some (api_login w (email args) (password args)) ->
  ((forall k, k < fuel -> api_lessons w k <> []) -> main fuel w args = Diverge)
  /\ (forall n,
        api_lessons w n = [] -> (forall k, k < n -> api_lessons w k <> []) ->
        n < fuel -> api_courses w = [] ->
        main fuel w args = Raise (SystemExit ERROR_CACHE_FILE_EMPTY)).
Proof.
  intros Hcache Hurl Hvalid [token Htoken]. apply String.eqb_neq in Hurl.
  unfold main. rewrite Hurl, Hvalid. cbn [mbind result_bind length Nat.eqb].
  unfold get_auth_token. rewrite Htoken. cbn [mbind result_bind].
  unfold load_cached_data. rewrite Hcache. split.
  - intros Hnone. unfold cache_all_courses.
    by rewrite (get_all_lessons_no_empty_page _ _ Hnone).
  - intros n Hn Hfirst Hfuel Hcourses.
    rewrite (cache_all_courses_first_empty _ _ _ Hn Hfirst Hfuel), Hcourses.
    reflexivity.
Qed.

Lemma run_without_cache_file_witness :
  main 5 (Scenario.fresh_world [Scenario.intro]
            (fun _ => [Lesson_of_dict Scenario.lesson_x]))
    (Scenario.args "Intro" [Scenario.a_html])
  = Diverge
  /\ main 5 (Scenario.fresh_world [] Scenario.three_pages)
       (Scenario.args "Intro" [Scenario.a_html])
     = Raise (SystemExit 3).
Proof.
  split.
  - apply (run_without_cache_file 5
             (Scenario.fresh_world [Scenario.intro]
                (fun _ => [Lesson_of_dict Scenario.lesson_x]))
             (Scenario.args "Intro" [Scenario.a_html]) Scenario.a_html []);
      [reflexivity|discriminate|reflexivity|by eexists|discriminate].
  - apply (proj2 (run_without_cache_file 5
                    (Scenario.fresh_world [] Scenario.three_pages)
                    (Scenario.args "Intro" [Scenario.a_html]) Scenario.a_html []
                    eq_refl ltac:(discriminate) eq_refl ltac:(by eexists)) 3);
      [reflexivity| |lia|reflexivity].
    intros k Hk. do 3 (destruct k as [|k]; [discriminate|]). lia.
Defined.

(** X18. After building the cache itself, a run always finds the chapters
    of the course it resolves: the lookup in the cache cannot fail, and the
    run goes on to the loops with those chapters. *)
Theorem fresh_cache_has_resolved_course (fuel : nat) (w : World) (args : Args)
  (cached_data : gmap string (list ChapterDict)) (c : Course) :
  cache_file w = None ->
  loads_cache fuel w args cached_data ->
  list_courses args = false ->
  first_match (course args) (api_courses w) c ->
  exists course_chapters,
    cached_data !! Course_title c = Some course_chapters
    /\ main fuel w args = reconcile course_chapters (lesson_files args).
Proof.
  intros Hcache Hload Hlist Hc.
  pose proof Hload as (_ & _ & _ & Hdata).
  unfold load_cached_data in Hdata. rewrite Hcache in Hdata.
  unfold cache_all_courses in Hdata.
  destruct (get_all_lessons fuel (api_lessons w)) as [[requested pages]|];
    [|discriminate Hdata].
  injection Hdata as <-.
  assert (is_Some (List.find (fun c' => String.eqb (Course_title c') (Course_title c))
                     (rev (api_courses w)))) as [c' Hc'].
  { destruct (List.find _ (rev (api_courses w))) eqn:E; [by eexists|]. exfalso.
    destruct Hc as (before & after & Hcourses & _).
    pose proof (List.find_none _ _ E c) as Hnone. cbn in Hnone.
    rewrite String.eqb_refl in Hnone.
    assert (true = false); [|done]. apply Hnone.
    rewrite <- in_rev, Hcourses. apply in_elt. }
  eexists. split.
  - rewrite fold_insert_lookup, Hc'. reflexivity.
  - apply main_reconciles. eexists _, c.
    split; [exact Hload|]. split; [|split; [done|split]].
    + intros Hempty.
      apply (f_equal (fun m : gmap string (list ChapterDict) => m !! Course_title c))
        in Hempty.
      rewrite fold_insert_lookup, Hc', lookup_empty in Hempty. discriminate Hempty.
    + by apply find_first_match.
    + by rewrite fold_insert_lookup, Hc'.
Qed.

Lemma fresh_cache_has_resolved_course_witness :
  exists course_chapters,
    main 4 (Scenario.fresh_world [Scenario.intro] Scenario.three_pages)
      (Scenario.args "intro-101" [Scenario.a_html])
    = reconcile course_chapters [Scenario.a_html].
Proof.
  set (w := Scenario.fresh_world [Scenario.intro] Scenario.three_pages).
  set (args := Scenario.args "intro-101" [Scenario.a_html]).
  destruct (cache_all_courses 4 w) as [cached| |] eqn:E;
    [|vm_compute in E; discriminate E..].
  destruct (fresh_cache_has_resolved_course 4 w args cached Scenario.intro)
    as (chapters & _ & Hrun).
  - reflexivity.
  - split; [discriminate|split; [|split; [by eexists|exact E]]].
    exists [Scenario.a_html]. by split.
  - reflexivity.
  - exists [], []. repeat split; [by right|constructor].
  - by exists chapters.
Defined.

(** X19. With a cache file that is not empty but has no entry under the
    title of the resolved course (a course added to the site after the file
    was written, or resolved by a title that has changed since), the run
    ends with [KeyError]. *)
Theorem stale_cache_raises_KeyError (fuel : nat) (w : World) (args : Args)
  (cached_data : gmap string (list ChapterDict)) (c : Course) :
  loads_cache fuel w args cached_data ->
  cached_data <> ∅ ->
  list_courses args = false ->
  first_match (course args) (api_courses w) c ->
  cached_data !! Course_title c = None ->
  main fuel w args = Raise KeyError.
Proof.
  intros Hload Hne Hlist Hc Hmissing. rewrite (main_loads_cache _ _ _ _ Hload).
  destruct (decide (cached_data = ∅)); [done|]. rewrite Hlist.
  unfold get_all_courses, course_to_update.
  rewrite (find_first_match _ _ _ Hc). cbn [mbind result_bind].
  by rewrite Hmissing.
Qed.

Lemma stale_cache_raises_KeyError_witness :
  main 0 (Scenario.world {[ "Old course" := [Scenario.empty_chapter] ]})
    (Scenario.args "Intro" [Scenario.a_html])
  = Raise KeyError.
Proof.
  apply (stale_cache_raises_KeyError 0 _ _
           {[ "Old course" := [Scenario.empty_chapter] ]} Scenario.intro).
  - by apply (scenario_loads_cache _ _ _ Scenario.a_html []).
  - intros H. apply (f_equal (fun m => m !! "Old course")) in H.
    vm_compute in H. discriminate H.
  - reflexivity.
  - exists [], []. repeat split; [by left|constructor].
  - reflexivity.
Defined.

(** X20. The listing mode does not skip the first stages of a run: with
    [list_courses] set, the run still exits with the status of 'no valid
    lesson files' when no candidate is valid and with the status of an empty
    cache file when the cache is empty; only with valid files, a login and a
    cache that is not empty does it exit with status 0, and then whatever
    the course identifier is. *)
Theorem list_courses_mode (fuel : nat) (w : World) (args : Args) :
  list_courses args = true ->
  mavenseed_url args <> EmptyString ->
  (validate_lesson_files (fs w) (lesson_files args) = Ok [] ->
   main fuel w args = Raise (SystemExit ERROR_NO_VALID_LESSON_FILES))
  /\ (loads_cache fuel w args ∅ ->
      main fuel w args = Raise (SystemExit ERROR_CACHE_FILE_EMPTY))
  /\ (forall cached_data,
        loads_cache fuel w args cached_data -> cached_data <> ∅ ->
        main fuel w args = Raise (SystemExit 0)).
Proof.
  intros Hlist Hurl. split; [|split].
  - intros Hvalid. unfold main. apply String.eqb_neq in Hurl.
    by rewrite Hurl, Hvalid.
  - intros Hload. by rewrite (main_loads_cache _ _ _ _ Hload).
  - intros cached_data Hload Hne. rewrite (main_loads_cache _ _ _ _ Hload).
    destruct (decide (cached_data = ∅)); [done|]. by rewrite Hlist.
Qed.

Lemma list_courses_mode_witness :
  let listing files :=
    {| course := "no such course"; lesson_files := files; overwrite := true;
       mavenseed_url := "https://school.example"; email := "me@example.org";
       password := "secret"; list_courses := true |} in
  let w := Scenario.world {[ "Intro" := [Scenario.empty_chapter] ]} in
  main 0 w (listing []) = Raise (SystemExit 1)
  /\ main 0 w (listing [Scenario.a_html]) = Raise (SystemExit 0).
Proof.
  intros listing w.
  assert (forall files, mavenseed_url (listing files) <> EmptyString) as Hurl
    by (intros files; discriminate).
  split.
  - by apply (list_courses_mode 0 w (listing []) eq_refl (Hurl _)).
  - apply (list_courses_mode 0 w (listing [Scenario.a_html]) eq_refl (Hurl _))
      with (cached_data := {[ "Intro" := [Scenario.empty_chapter] ]}).
    + split; [discriminate|split; [|split; [by eexists|reflexivity]]].
      exists [Scenario.a_html]. by split.
    + intros H. apply (f_equal (fun m => m !! "Intro")) in H.
      vm_compute in H. discriminate H.
Defined.

(** X21. Every lesson a completed run asks to create is made from a listed
    file that validation has opened: its slug is the slug derived from that
    file, the file is a regular file, and reading its content decodes the
    bytes of the file. When the file has the [.html] extension (in any
    case), validation has read it already, and reading it again gives its
    text; a file with another extension was never read, and reading it raises
    [UnicodeDecodeError] if its bytes are not UTF-8. *)
Theorem created_lessons_are_readable
  (fuel : nat) (w : World) (args : Args) (plan : Plan) (lesson : NewLesson) :
  main fuel w args = Ok plan ->
  lesson ∈ lessons_to_create plan ->
  NewLesson_filepath lesson ∈ lesson_files args
  /\ NewLesson_slug lesson = lesson_slug (NewLesson_filepath lesson)
  /\ exists bytes,
       fs w (NewLesson_filepath lesson) = Some (File bytes)
       /\ NewLesson_get_file_content (fs w) lesson = File_read bytes
       /\ (String.eqb (Str.lower (Path_suffix (NewLesson_filepath lesson))) ".html"
           = true ->
           NewLesson_get_file_content (fs w) lesson = Ok (universal_newlines bytes))
       /\ (Unicode.well_formed bytes = false ->
           NewLesson_get_file_content (fs w) lesson = Raise UnicodeDecodeError).
Proof.
  intros (chapters & Hreach & Hplan)%main_Ok_inv Hin.
  pose proof Hreach as (cached & c & (_ & (valid & Hvalid & _) & _) & _).
  pose proof (reconcile_Ok_no_match _ _ _ Hplan) as Hno.
  destruct (reconcile_creates _ _ Hno) as (plan' & Hplan' & Hcreate & _).
  rewrite Hplan in Hplan'. injection Hplan' as <-.
  rewrite Hcreate in Hin. apply list_elem_of_fmap in Hin as (f & -> & Hf).
  cbn [compose new_lesson lesson_entry NewLesson_filepath NewLesson_slug fst snd].
  split; [done|]. split; [done|].
  pose proof (validate_Ok_opens _ _ _ Hvalid) as Hopens.
  apply (proj1 (Forall_forall _ _) Hopens) in Hf as (Hbelow & bytes & Hbytes & Hwf).
  exists bytes. split; [done|].
  assert (NewLesson_get_file_content (fs w) (new_lesson (lesson_entry f))
          = File_read bytes) as Hread.
  { unfold NewLesson_get_file_content, Path_open.
    cbn [new_lesson lesson_entry NewLesson_filepath snd].
    by rewrite Hbelow, Hbytes. }
  split; [done|]. rewrite Hread. unfold File_read. split.
  - intros Hsuffix. by rewrite (Hwf Hsuffix).
  - by intros ->.
Qed.

Lemma created_lessons_are_readable_witness :
  main 0 (Scenario.world {[ "Intro" := [Scenario.empty_chapter] ]})
    (Scenario.args "Intro" [Scenario.a_html; Scenario.logo_png])
  = Ok {| chapters_to_create := [{| NewChapter_title := "01 basics" |}];
          lessons_to_create :=
            [new_lesson (lesson_entry Scenario.a_html);
             new_lesson (lesson_entry Scenario.logo_png)];
          lessons_to_update := [] |}
  /\ NewLesson_get_file_content Scenario.disk (new_lesson (lesson_entry Scenario.a_html))
     = Ok "<h1>A</h1>"
  /\ NewLesson_get_file_content Scenario.disk
       (new_lesson (lesson_entry Scenario.logo_png))
     = Raise UnicodeDecodeError.
Proof.
  assert (main 0 (Scenario.world {[ "Intro" := [Scenario.empty_chapter] ]})
            (Scenario.args "Intro" [Scenario.a_html; Scenario.logo_png])
          = Ok {| chapters_to_create := [{| NewChapter_title := "01 basics" |}];
                  lessons_to_create :=
                    [new_lesson (lesson_entry Scenario.a_html);
                     new_lesson (lesson_entry Scenario.logo_png)];
                  lessons_to_update := [] |}) as Hrun
    by (vm_compute; reflexivity).
  split; [exact Hrun|]. split.
  - destruct (created_lessons_are_readable _ _ _ _
                (new_lesson (lesson_entry Scenario.a_html)) Hrun)
      as (_ & _ & bytes & Hbytes & _ & Hhtml & _); [by left|].
    assert (bytes = "<h1>A</h1>") as -> by (vm_compute in Hbytes; injection Hbytes as <-; reflexivity).
    exact (Hhtml eq_refl).
  - destruct (created_lessons_are_readable _ _ _ _
                (new_lesson (lesson_entry Scenario.logo_png)) Hrun)
      as (_ & _ & bytes & Hbytes & _ & _ & Hbinary); [right; left|].
    assert (bytes = Scenario.png_bytes) as ->
      by (vm_compute in Hbytes; injection Hbytes as <-; reflexivity).
    exact (Hbinary eq_refl).
Defined.
